(** * CMU LandMOS AI backend: a model of [backend/main.py] and its properties

    The backend is a FastAPI relay: it checks and pulls models on a local
    Ollama service, sends a chart image or a digest of station records to
    it, and shapes the answer.  This development embeds the Python source
    function by function:

    - Python values after JSON parsing are [pyval]; a [str] is the list of
      its code points, a [float] is a binary64 [PrimFloat.float];
    - an exception is a [pyexc]; pure code that can raise returns [res];
    - code that talks to the outside (HTTP calls, the log, the upload
      directory) runs in [M], a state-and-exception monad over the list
      of events performed so far; what the outside answers is read from
      an [env];
    - builtins of Python and of its libraries whose result the source only
      passes on ([sum], [format], [base64], [pathlib], ...) are the fields
      of [Builtins].  *)

From Stdlib Require Import ZArith NArith List String Ascii Bool Lia DecimalString.
From Stdlib Require Import PrimFloat FloatOps SpecFloat.
Import ListNotations.

Set Implicit Arguments.
Set Warnings "-register-all,-inexact-float".
Local Open Scope Z_scope.

(** ** Python strings *)

Module Str.

(** A Python [str]: its code points, in order. *)
Definition pystr := list N.

(** UTF-8 decoding of the bytes of a literal, so that a literal of this
    file denotes the same [str] as the same literal of the source. *)
Fixpoint utf8_decode (bs : list N) : pystr :=
  match bs with
  | [] => []
  | b :: r =>
    if (b <? 128)%N then b :: utf8_decode r
    else if (b <? 224)%N then
      match r with
      | c1 :: r1 => ((b - 192) * 64 + (c1 - 128))%N :: utf8_decode r1
      | _ => []
      end
    else if (b <? 240)%N then
      match r with
      | c1 :: c2 :: r2 =>
        ((b - 224) * 4096 + (c1 - 128) * 64 + (c2 - 128))%N :: utf8_decode r2
      | _ => []
      end
    else
      match r with
      | c1 :: c2 :: c3 :: r3 =>
        ((b - 240) * 262144 + (c1 - 128) * 4096 + (c2 - 128) * 64 + (c3 - 128))%N
          :: utf8_decode r3
      | _ => []
      end
  end.

Definition lit (s : string) : pystr :=
  utf8_decode (map N_of_ascii (list_ascii_of_string s)).

Definition nl : pystr := [10%N].

Fixpoint eqb (s t : pystr) : bool :=
  match s, t with
  | [], [] => true
  | a :: s', b :: t' => (a =? b)%N && eqb s' t'
  | _, _ => false
  end.

(** [s.startswith(p)] *)
Fixpoint startswith (s p : pystr) : bool :=
  match p, s with
  | [], _ => true
  | a :: p', b :: s' => (a =? b)%N && startswith s' p'
  | _ :: _, [] => false
  end.

(** [p in s] for two strings: [p] occurs in [s] as a substring. *)
Fixpoint contains (s p : pystr) : bool :=
  startswith s p ||
  match s with
  | [] => false
  | _ :: s' => contains s' p
  end.

(** [s.split(sep)[0]] for a one-character separator: the part of [s]
    before the first [sep], all of [s] when there is none. *)
Fixpoint split_head (sep : N) (s : pystr) : pystr :=
  match s with
  | [] => []
  | c :: r => if (c =? sep)%N then [] else c :: split_head sep r
  end.

(** [s[:n]] *)
Definition slice_to (n : nat) (s : pystr) : pystr := firstn n s.

(** The code points [str.isspace] accepts. *)
Definition isspace (c : N) : bool :=
  ((9 <=? c) && (c <=? 13) || (28 <=? c) && (c <=? 32) || (c =? 133)
   || (c =? 160) || (c =? 5760) || (8192 <=? c) && (c <=? 8202)
   || (c =? 8232) || (c =? 8233) || (c =? 8239) || (c =? 8287)
   || (c =? 12288))%N.

Fixpoint lstrip (s : pystr) : pystr :=
  match s with
  | c :: r => if isspace c then lstrip r else s
  | [] => []
  end.

(** [s.strip()] *)
Definition strip (s : pystr) : pystr := rev (lstrip (rev (lstrip s))).

(** [sep.join(parts)] *)
Fixpoint join (sep : pystr) (parts : list pystr) : pystr :=
  match parts with
  | [] => []
  | [p] => p
  | p :: rest => p ++ sep ++ join sep rest
  end.

(** [str(z)] for an [int]. *)
Definition of_Z (z : Z) : pystr :=
  lit (NilZero.string_of_int (Z.to_int z)).

End Str.

Import Str.

(** ** Python values, exceptions and builtins *)

Module Py.

(** What [json] parsing yields, and what the source computes with. *)
Inductive pyval :=
| PNone
| PBool (b : bool)
| PInt (z : Z)
| PFloat (f : float)
| PStr (s : pystr)
| PList (items : list pyval)
| PDict (entries : list (pystr * pyval)).

Inductive exc_class :=
| ConnectError | TimeoutException
| KeyError | TypeError | ValueError | AttributeError | OverflowError
| IndexError | OSError | OtherError.

(** [HTTPException] is FastAPI's; every other exception is a class and
    the text [str(e)] gives. *)
Inductive pyexc :=
| HTTPException (status_code : Z) (detail : pystr)
| Exc (cls : exc_class) (msg : pystr).

(** The outcome of code that can raise. *)
Inductive res (A : Type) :=
| Ok (a : A)
| Raise (e : pyexc).
Arguments Raise {A} e.

Definition bind {A B} (c : res A) (k : A -> res B) : res B :=
  match c with
  | Ok a => k a
  | Raise e => Raise e
  end.

(** [try: c  except (classes): handler] *)
Definition catch {A} (caught : exc_class -> bool) (c : res A)
    (handler : res A) : res A :=
  match c with
  | Raise (Exc cls _) => if caught cls then handler else c
  | _ => c
  end.

(** [for x in xs: acc = body(acc, x)], stopping at the first exception. *)
Fixpoint for_each {A S} (xs : list A) (body : S -> A -> res S) (acc : S)
    : res S :=
  match xs with
  | [] => Ok acc
  | x :: rest => bind (body acc x) (for_each rest body)
  end.

(** [any(f(x) for x in xs)]: stops at the first true, or at the first
    exception. *)
Fixpoint py_any {A} (f : A -> res bool) (xs : list A) : res bool :=
  match xs with
  | [] => Ok false
  | x :: rest => bind (f x) (fun b => if b then Ok true else py_any f rest)
  end.

Fixpoint map_res {A C} (f : A -> res C) (xs : list A) : res (list C) :=
  match xs with
  | [] => Ok []
  | x :: rest =>
    bind (f x) (fun y => bind (map_res f rest) (fun ys => Ok (y :: ys)))
  end.

(** Builtins of Python and of its libraries that the source calls and
    whose result it only passes on. *)
Record Builtins := {
  (** [float(s)] for a [str]; [None] when it raises [ValueError] *)
  float_of_str : pystr -> option float;
  (** [sum(vals)] for a non-empty list of floats *)
  py_sum : list float -> float;
  (** [f"{x:.4f}"] and [f"{x:+.4f}"] *)
  format_4f : float -> pystr;
  format_signed_4f : float -> pystr;
  (** [f"{v}"] *)
  py_format : pyval -> pystr;
  (** [round(x, 1)] *)
  py_round1 : float -> float;
  (** [base64.b64encode(content).decode("utf-8")] *)
  b64encode : list N -> pystr;
  (** [Path(name).suffix] *)
  path_suffix : pystr -> pystr;
  (** the interpreter's text for an exception it raises on an operand *)
  error_text : exc_class -> pyval -> pystr
}.

Fixpoint dict_lookup (d : list (pystr * pyval)) (key : pystr)
    : option pyval :=
  match d with
  | [] => None
  | (k, v) :: rest => if Str.eqb k key then Some v else dict_lookup rest key
  end.

(** [bool(v)] *)
Definition truthy (v : pyval) : bool :=
  match v with
  | PNone => false
  | PBool b => b
  | PInt z => negb (z =? 0)
  | PFloat f => negb (f =? 0)%float
  | PStr s => match s with [] => false | _ => true end
  | PList l => match l with [] => false | _ => true end
  | PDict d => match d with [] => false | _ => true end
  end.

(** [a or b] on values (both operands here are free of effects). *)
Definition py_or (a b : pyval) : pyval := if truthy a then a else b.

(** [str(e)] *)
Definition exc_str (e : pyexc) : pystr :=
  match e with
  | Exc _ msg => msg
  | HTTPException code detail => Str.of_Z code ++ lit ": " ++ detail
  end.

(** [v == s] for a [str] [s]. *)
Definition is_str (s : pystr) (v : pyval) : bool :=
  match v with
  | PStr t => Str.eqb t s
  | _ => false
  end.

(** [int] to [float]: rounded to nearest even, [None] when the interpreter
    raises [OverflowError]. *)
Definition float_of_Z (z : Z) : option float :=
  match binary_normalize prec emax z 0 false with
  | S754_infinity _ => None
  | sf => Some (SF2Prim sf)
  end.

Section WithBuiltins.
Context (B : Builtins).

Definition raise {A} (cls : exc_class) (operand : pyval) : res A :=
  Raise (Exc cls (error_text B cls operand)).

(** [float(v)] *)
Definition py_float (v : pyval) : res float :=
  match v with
  | PFloat f => Ok f
  | PInt z =>
    match float_of_Z z with
    | Some f => Ok f
    | None => raise OverflowError v
    end
  | PBool b => Ok (if b then one else zero)
  | PStr s =>
    match float_of_str B s with
    | Some f => Ok f
    | None => raise ValueError v
    end
  | PNone | PList _ | PDict _ => raise TypeError v
  end.

(** [o[key]] for a [str] key: only a dict can be indexed by a string. *)
Definition getitem (o : pyval) (key : pystr) : res pyval :=
  match o with
  | PDict d =>
    match dict_lookup d key with
    | Some v => Ok v
    | None => raise KeyError (PStr key)
    end
  | _ => raise TypeError o
  end.

(** [o.get(key, default)]: only a dict has [get]. *)
Definition get (o : pyval) (key : pystr) (default : pyval) : res pyval :=
  match o with
  | PDict d =>
    Ok (match dict_lookup d key with Some v => v | None => default end)
  | _ => raise AttributeError o
  end.

(** [key in o] for a [str] key. *)
Definition py_in (key : pystr) (o : pyval) : res bool :=
  match o with
  | PStr s => Ok (Str.contains s key)
  | PList l => Ok (existsb (is_str key) l)
  | PDict d => Ok (match dict_lookup d key with Some _ => true | None => false end)
  | _ => raise TypeError o
  end.

(** [f"{v}"]: a [str] is inserted as it is. *)
Definition fmt (v : pyval) : pystr :=
  match v with
  | PStr s => s
  | _ => py_format B v
  end.

(** [for m in o]: the values the iteration yields. *)
Definition py_iter (o : pyval) : res (list pyval) :=
  match o with
  | PList l => Ok l
  | PStr s => Ok (map (fun c => PStr [c]) s)
  | PDict d => Ok (map (fun kv => PStr (fst kv)) d)
  | _ => raise TypeError o
  end.

End WithBuiltins.

End Py.

Import Py.

Declare Scope res_scope.
Delimit Scope res_scope with res.
Notation "'let*' x ':=' c 'in' k" := (Py.bind c (fun x => k))
  (at level 10, x name, c at level 100, k at level 200) : res_scope.

(** ** The outside world *)

Module World.

Inductive http_request :=
| GET (url : pystr) (params : list (pystr * pystr)) (timeout : float)
| POST (url : pystr) (json : pyval) (timeout : float).

(** An [httpx] response: [json] is what [resp.json()] does. *)
Record http_response := {
  status_code : Z;
  text : pystr;
  json : res pyval
}.

(** What awaiting a request does: a response, or the exception raised. *)
Inductive http_result :=
| Response (resp : http_response)
| Failed (e : pyexc).

Inductive log_level := INFO | WARNING | ERROR.

Inductive event :=
| EvHttp (rq : http_request) (result : http_result)
| EvLog (level : log_level) (msg : pystr)
| EvWrite (path : pystr) (content : list N) (failure : option pyexc)
| EvUuid (u : pystr)
| EvNow (iso : pystr).

(** The events of a request so far, oldest first. *)
Definition world := list event.

(** What the outside answers, given what has happened so far. *)
Record env := {
  http : world -> http_request -> http_result;
  fs_write : world -> pystr -> list N -> option pyexc;
  uuid4 : world -> pystr;
  now_isoformat : world -> pystr
}.

Definition M (A : Type) := world -> res A * world.

Definition ret {A} (a : A) : M A := fun w => (Ok a, w).

Definition throw {A} (e : pyexc) : M A := fun w => (Raise e, w).

Definition bind {A C} (c : M A) (k : A -> M C) : M C :=
  fun w =>
    match c w with
    | (Ok a, w') => k a w'
    | (Raise e, w') => (Raise e, w')
    end.

(** Pure code that can raise, run inside [M]. *)
Definition lift {A} (c : res A) : M A := fun w => (c, w).

(** [try: c  except ... as e: handler e]; the handler sees every
    exception and re-raises the ones no clause names. *)
Definition try_except {A} (c : M A) (handler : pyexc -> M A) : M A :=
  fun w =>
    match c w with
    | (Ok a, w') => (Ok a, w')
    | (Raise e, w') => handler e w'
    end.

Definition emit (ev : event) : M unit := fun w => (Ok tt, w ++ [ev]).

Section WithEnv.
Context (E : env).

(** [await client.get(...)] and [await client.post(...)] *)
Definition send (rq : http_request) : M http_response :=
  fun w =>
    let result := http E w rq in
    match result with
    | Response resp => (Ok resp, w ++ [EvHttp rq result])
    | Failed e => (Raise e, w ++ [EvHttp rq result])
    end.

Definition log (level : log_level) (msg : pystr) : M unit :=
  emit (EvLog level msg).

(** [with open(path, "wb") as f: f.write(content)] *)
Definition write_file (path : pystr) (content : list N) : M unit :=
  fun w =>
    let failure := fs_write E w path content in
    match failure with
    | None => (Ok tt, w ++ [EvWrite path content failure])
    | Some e => (Raise e, w ++ [EvWrite path content failure])
    end.

(** [str(uuid.uuid4())] *)
Definition fresh_uuid : M pystr :=
  fun w => let u := uuid4 E w in (Ok u, w ++ [EvUuid u]).

(** [datetime.now().isoformat()] *)
Definition now : M pystr :=
  fun w => let t := now_isoformat E w in (Ok t, w ++ [EvNow t]).

End WithEnv.

End World.

Import World.

Declare Scope action_scope.
Delimit Scope action_scope with action.
Notation "x <- c ;; k" := (World.bind c (fun x => k))
  (at level 100, c at next level, right associativity) : action_scope.
Notation "c ;; k" := (World.bind c (fun _ => k))
  (at level 100, right associativity) : action_scope.

(** ** Configuration *)

Record config := {
  OLLAMA_BASE_URL : pystr;
  VISION_MODEL : pystr;
  TEXT_MODEL : pystr;
  LANDMOS_API_BASE : pystr
}.

(** The values the source takes when the environment sets none. *)
Definition default_config : config := {|
  OLLAMA_BASE_URL := lit "http://localhost:11434";
  VISION_MODEL := lit "moondream";
  TEXT_MODEL := lit "llama3.2:1b";
  LANDMOS_API_BASE := lit "https://hpc.landmos.com/apiv3"
|}.

Definition UPLOAD_DIR : pystr := lit "/app/uploads".

Record mode_config := {
  name : pystr;
  description : pystr;
  description_th : pystr;
  vision_model : pystr;
  text_model : pystr;
  icon : pystr;
  min_ram_gb : Z
}.

Definition moondream_mode : mode_config := {|
  name := lit "Moondream";
  description :=
    lit "Moondream 1.8B — Lightweight vision model, low RAM (~2 GB)";
  description_th :=
    lit "Moondream 1.8B — โมเดลวิทัศน์ขนาดเล็ก ใช้ RAM น้อย (~2 GB)";
  vision_model := lit "moondream";
  text_model := lit "llama3.2:1b";
  icon := lit "🌙";
  min_ram_gb := 3
|}.

Definition llava_mode : mode_config := {|
  name := lit "LLaVA";
  description :=
    lit "LLaVA 7B — Better accuracy, requires more RAM (~8 GB)";
  description_th :=
    lit "LLaVA 7B — แม่นยำกว่า ต้องใช้ RAM มากกว่า (~8 GB)";
  vision_model := lit "llava:7b";
  text_model := lit "llama3.2:3b";
  icon := lit "🦙";
  min_ram_gb := 8
|}.

Definition MODEL_MODES : list (pystr * mode_config) :=
  [ (lit "moondream", moondream_mode); (lit "llava", llava_mode) ].

Definition DEFAULT_MODEL_MODE : pystr := lit "moondream".

Fixpoint modes_lookup (modes : list (pystr * mode_config)) (key : pystr)
    : option mode_config :=
  match modes with
  | [] => None
  | (k, m) :: rest => if Str.eqb k key then Some m else modes_lookup rest key
  end.

(** ** Model gateway client *)

Module Gateway.

Local Open Scope action_scope.

Section WithContext.
Context (B : Builtins) (cfg : config) (E : env).

(** [check_ollama_model(model_name)] *)
Definition check_ollama_model (model_name : pystr) : M bool :=
  try_except
    (resp <- send E (GET (OLLAMA_BASE_URL cfg ++ lit "/api/tags") [] 10.0) ;;
     if status_code resp =? 200 then
       data <- lift (json resp) ;;
       listed <- lift (Py.bind (get B data (lit "models") (PList []))
                               (py_iter B)) ;;
       models <- lift (map_res (fun m => getitem B m (lit "name")) listed) ;;
       if existsb (is_str model_name) models then ret true
       else
         lift (py_any (py_in B (split_head 58 model_name)) models)
     else ret false)
    (fun e =>
       log ERROR (lit "Error checking model " ++ model_name ++ lit ": "
                  ++ exc_str e) ;;
       ret false).

(** [ensure_model_pulled(model_name)] *)
Definition ensure_model_pulled (model_name : pystr) : M bool :=
  present <- check_ollama_model model_name ;;
  if present then ret true
  else
    log INFO (lit "Model " ++ model_name
              ++ lit " not found, attempting to pull...") ;;
    try_except
      (resp <- send E (POST (OLLAMA_BASE_URL cfg ++ lit "/api/pull")
                            (PDict [(lit "name", PStr model_name)]) 600.0) ;;
       if status_code resp =? 200 then
         log INFO (lit "Model " ++ model_name ++ lit " pulled successfully") ;;
         ret true
       else
         log ERROR (lit "Failed to pull " ++ model_name ++ lit ": "
                    ++ Str.of_Z (status_code resp)) ;;
         ret false)
      (fun e =>
         log ERROR (lit "Error pulling model " ++ model_name ++ lit ": "
                    ++ exc_str e) ;;
         ret false).

(** [_parse_ollama_error(resp)]: the body's ["error"] entry when the body
    is JSON that has one, else the start of the body's text. *)
Definition _parse_ollama_error (resp : http_response) : pyval :=
  let from_json :=
    (let* data := json resp in
     let* present := py_in B (lit "error") data in
     if present
     then let* err := getitem B data (lit "error") in Ok (Some err)
     else Ok None)%res in
  match from_json with
  | Ok (Some err) => err
  | _ =>
    let text := strip (text resp) in
    PStr (match text with
          | [] => lit "status " ++ Str.of_Z (status_code resp)
          | _ => slice_to 300 text
          end)
  end.

Definition ERROR_TIMED_OUT : pystr :=
  lit "Error: Request to Ollama timed out. The model may still be loading.".

Definition ERROR_CANNOT_CONNECT : pystr :=
  lit "Error: Cannot connect to Ollama. Is the Ollama service running?".

(** [model or DEFAULT] for an optional [str]. *)
Definition or_default (model : option pystr) (default : pystr) : pystr :=
  match model with
  | Some (c :: m) => c :: m
  | _ => default
  end.

(** [query_ollama_vision(image_base64, prompt, model)] *)
Definition query_ollama_vision (image_base64 prompt : pystr)
    (model : option pystr) : M pyval :=
  let vision_model := or_default model (VISION_MODEL cfg) in
  let payload :=
    PDict [ (lit "model", PStr vision_model);
            (lit "prompt", PStr prompt);
            (lit "images", PList [PStr image_base64]);
            (lit "stream", PBool false);
            (lit "options",
             PDict [ (lit "temperature", PFloat 0.3);
                     (lit "num_predict", PInt 2048) ]) ] in
  try_except
    (resp <- send E (POST (OLLAMA_BASE_URL cfg ++ lit "/api/generate")
                          payload 300.0) ;;
     if status_code resp =? 200 then
       data <- lift (json resp) ;;
       lift (get B data (lit "response") (PStr (lit "No response generated.")))
     else
       let detail := _parse_ollama_error resp in
       log ERROR (lit "Ollama vision error: "
                  ++ Str.of_Z (status_code resp) ++ lit " - "
                  ++ fmt B detail) ;;
       ret (PStr (lit "Error: " ++ fmt B detail)))
    (fun e =>
       match e with
       | Exc TimeoutException _ => ret (PStr ERROR_TIMED_OUT)
       | Exc ConnectError _ => ret (PStr ERROR_CANNOT_CONNECT)
       | _ =>
         log ERROR (lit "Error querying Ollama vision: " ++ exc_str e) ;;
         ret (PStr (lit "Error: " ++ exc_str e))
       end).

(** [query_ollama_text(prompt, model, num_ctx)] *)
Definition query_ollama_text (prompt : pystr) (model : option pystr)
    (num_ctx : Z) : M pyval :=
  let text_model := or_default model (TEXT_MODEL cfg) in
  let payload :=
    PDict [ (lit "model", PStr text_model);
            (lit "prompt", PStr prompt);
            (lit "stream", PBool false);
            (lit "options",
             PDict [ (lit "temperature", PFloat 0.3);
                     (lit "num_predict", PInt 1024);
                     (lit "num_ctx", PInt num_ctx) ]) ] in
  try_except
    (resp <- send E (POST (OLLAMA_BASE_URL cfg ++ lit "/api/generate")
                          payload 180.0) ;;
     if status_code resp =? 200 then
       data <- lift (json resp) ;;
       lift (get B data (lit "response") (PStr (lit "No response generated.")))
     else
       let detail := _parse_ollama_error resp in
       log ERROR (lit "Ollama text error: "
                  ++ Str.of_Z (status_code resp) ++ lit " - "
                  ++ fmt B detail) ;;
       ret (PStr (lit "Error: " ++ fmt B detail)))
    (fun e =>
       match e with
       | Exc TimeoutException _ => ret (PStr ERROR_TIMED_OUT)
       | Exc ConnectError _ => ret (PStr ERROR_CANNOT_CONNECT)
       | _ =>
         log ERROR (lit "Error querying Ollama text: " ++ exc_str e) ;;
         ret (PStr (lit "Error: " ++ exc_str e))
       end).

End WithContext.

End Gateway.

Import Gateway.

(** ** Station data summarizer *)

Module Summarizer.

Local Open Scope res_scope.

Definition LANDMOS_FIELD_LABELS : list (pystr * pystr) :=
  [ (lit "de", lit "East displacement (m)");
    (lit "dn", lit "North displacement (m)");
    (lit "dh", lit "Height displacement (m)");
    (lit "sde", lit "East displacement S.D. (m)");
    (lit "sdn", lit "North displacement S.D. (m)");
    (lit "sdh", lit "Height displacement S.D. (m)");
    (lit "pdop", lit "PDOP");
    (lit "no_satellite", lit "Satellite count");
    (lit "lat", lit "Latitude");
    (lit "lng", lit "Longitude") ].

Definition DISPLACEMENT_KEYS : list pystr := [lit "de"; lit "dn"; lit "dh"].

Definition QUALITY_KEYS : list pystr :=
  [lit "sde"; lit "sdn"; lit "sdh"; lit "pdop"; lit "no_satellite"].

(** [LANDMOS_FIELD_LABELS.get(k, default)] *)
Fixpoint labels_get (labels : list (pystr * pystr)) (k default : pystr)
    : pystr :=
  match labels with
  | [] => default
  | (k', label) :: rest =>
    if Str.eqb k' k then label else labels_get rest k default
  end.

(** [min(vals)] and [max(vals)] for [vals = v0 :: rest]: the running
    result is replaced by an item that compares below (above) it. *)
Definition py_min (v0 : float) (rest : list float) : float :=
  fold_left (fun m x => if (x <? m)%float then x else m) rest v0.

Definition py_max (v0 : float) (rest : list float) : float :=
  fold_left (fun m x => if (m <? x)%float then x else m) rest v0.

(** [len(vals)] as the float the division converts it to. *)
Definition float_of_len (n : nat) : float :=
  SF2Prim (binary_normalize prec emax (Z.of_nat n) 0 false).

(** [xs[i]] for a list and [i = 0] or [i = -1]. *)
Definition list_first {A} (xs : list A) : option A := nth_error xs 0.
Definition list_last {A} (xs : list A) : option A :=
  match xs with
  | [] => None
  | _ => nth_error xs (List.length xs - 1)%nat
  end.

(** [xs[-3:]] *)
Definition last3 {A} (xs : list A) : list A := skipn (List.length xs - 3)%nat xs.

Section WithBuiltins.
Context (B : Builtins).

(** The exceptions the loop of [_stats] swallows. *)
Definition stats_caught (cls : exc_class) : bool :=
  match cls with
  | ValueError | TypeError | KeyError => true
  | _ => false
  end.

(** The loop of [_stats]: [vals] after the records have been visited. *)
Definition collect_vals (records : list pyval) (key : pystr)
    : res (list float) :=
  for_each records
    (fun vals r =>
       catch stats_caught
         (let* v := getitem B r key in
          let* f := py_float B v in
          Ok (vals ++ [f]))
         (Ok vals))
    [].

(** [_stats(key, label)], the closure of [_summarize_station_data] over
    [records]: [None] or the statistics line. *)
Definition _stats (records : list pyval) (key label : pystr)
    : res (option pystr) :=
  let* vals := collect_vals records key in
  match vals with
  | [] => Ok None
  | v0 :: rest =>
    let mn := py_min v0 rest in
    let mx := py_max v0 rest in
    let avg := (py_sum B vals / float_of_len (List.length vals))%float in
    let trend := (last vals v0 - v0)%float in
    Ok (Some (label ++ lit ": min=" ++ format_4f B mn
              ++ lit ", max=" ++ format_4f B mx
              ++ lit ", mean=" ++ format_4f B avg
              ++ lit ", total_change=" ++ format_signed_4f B trend))
  end.

(** One of the two loops over field keys: a line is appended when
    [_stats] gives a non-empty one. *)
Definition append_stats (records : list pyval) (keys : list pystr)
    (lines : list pystr) : res (list pystr) :=
  for_each keys
    (fun lines k =>
       let label := labels_get LANDMOS_FIELD_LABELS k k in
       let* stat := _stats records k label in
       match stat with
       | Some (c :: line) => Ok (lines ++ [c :: line])
       | _ => Ok lines
       end)
    lines.

(** [", ".join(f"{k}={r.get(k, '')}" for k in sample_keys if k in r)] *)
Definition sample_row (sample_keys : list pystr) (r : pyval) : res pystr :=
  let* parts :=
    for_each sample_keys
      (fun parts k =>
         let* present := py_in B k r in
         if present
         then let* v := get B r k (PStr []) in
              Ok (parts ++ [k ++ lit "=" ++ fmt B v])
         else Ok parts)
      [] in
  Ok (join (lit ", ") parts).

Definition append_rows (sample_keys : list pystr) (rows : list pyval)
    (lines : list pystr) : res (list pystr) :=
  for_each rows
    (fun lines r =>
       let* row := sample_row sample_keys r in
       Ok (lines ++ [lit "  " ++ row]))
    lines.

Definition index_error {A} (o : option A) (records : list pyval) : res A :=
  match o with
  | Some a => Ok a
  | None => raise B IndexError (PList records)
  end.

(** The value of [lines] when [_summarize_station_data] joins it, for
    [records] a list. *)
Definition summary_lines (records : list pyval) (stat_code : pystr)
    : res (list pystr) :=
  let total := List.length records in
  let lines := [ lit "Station: " ++ stat_code;
                 lit "Total data points: " ++ Str.of_Z (Z.of_nat total) ] in
  let* r0 := index_error (list_first records) records in
  let* first_ts := get B r0 (lit "timestamp") (PStr (lit "?")) in
  let* rn := index_error (list_last records) records in
  let* last_ts := get B rn (lit "timestamp") (PStr (lit "?")) in
  let lines := lines ++ [ lit "Time range: " ++ fmt B first_ts
                          ++ lit " to " ++ fmt B last_ts ] in
  let* lat := get B r0 (lit "lat") PNone in
  let* lng := get B r0 (lit "lng") PNone in
  let lines :=
    if truthy lat && truthy lng
    then lines ++ [ lit "Location: lat=" ++ fmt B lat
                    ++ lit ", lng=" ++ fmt B lng ]
    else lines in
  let lines := lines ++ [nl ++ lit "--- Displacement Statistics ---"] in
  let* lines := append_stats records DISPLACEMENT_KEYS lines in
  let lines := lines ++ [nl ++ lit "--- Data Quality ---"] in
  let* lines := append_stats records QUALITY_KEYS lines in
  let sample_keys := [lit "timestamp"] ++ DISPLACEMENT_KEYS in
  let lines :=
    lines ++ [nl ++ lit "First 3 records (timestamp, de, dn, dh):"] in
  let* lines := append_rows sample_keys (firstn 3 records) lines in
  if (6 <? total)%nat
  then append_rows sample_keys (last3 records) (lines ++ [lit "Last 3 records:"])
  else Ok lines.

(** [_summarize_station_data(station_data, stat_code)] *)
Definition _summarize_station_data (station_data : pyval) (stat_code : pystr)
    : res pystr :=
  let* records :=
    match station_data with
    | PList _ => Ok station_data
    | _ =>
      let* under_records := get B station_data (lit "records") PNone in
      let* under_data := get B station_data (lit "data") PNone in
      Ok (py_or under_records (py_or under_data (PList [])))
    end in
  if negb (truthy records)
  then Ok (lit "Station: " ++ stat_code ++ nl ++ lit "No data records found.")
  else
    match records with
    | PList rs =>
      let* lines := summary_lines rs stat_code in
      Ok (join nl lines)
    (* [len(records)] succeeds, [records[0]] is a one-character [str] *)
    | PStr s => raise B AttributeError (PStr (firstn 1 s))
    (* [len(records)] succeeds, [records[0]] looks up the key [0] *)
    | PDict _ => raise B KeyError (PInt 0)
    (* [len(records)] of a number or of [True] *)
    | _ => raise B TypeError records
    end.

End WithBuiltins.

End Summarizer.

Import Summarizer.

(** ** HTTP endpoint layer *)

Module Endpoints.

Local Open Scope action_scope.

(** FastAPI's [UploadFile], with the bytes [await file.read()] gives. *)
Record UploadFile := {
  content_type : option pystr;
  filename : option pystr;
  content : list N
}.

Module ChartDetails.
Record t := {
  vision_model : pystr;
  text_model : pystr;
  model_mode : pystr;
  original_filename : option pystr;
  file_size_kb : float;
  language : pystr
}.
End ChartDetails.

Module AnalysisResponse.
Record t := {
  id : pystr;
  filename : pystr;
  description : pystr;
  summary : pystr;
  details : ChartDetails.t;
  timestamp : pystr;
  chart_url : pystr
}.
End AnalysisResponse.

Module StationDetails.
Record t := {
  text_model : pystr;
  model_mode : pystr;
  language : pystr;
  start_date : pystr;
  end_date : pystr;
  data_points : pyval
}.
End StationDetails.

Module StationAnalysisResponse.
Record t := {
  id : pystr;
  stat_code : pystr;
  description : pystr;
  summary : pystr;
  details : StationDetails.t;
  station_data : pyval;
  timestamp : pystr
}.
End StationAnalysisResponse.

(** [MODEL_MODES[key]] *)
Definition modes_getitem (B : Builtins) (key : pystr) : res mode_config :=
  match modes_lookup MODEL_MODES key with
  | Some m => Ok m
  | None => raise B KeyError (PStr key)
  end.

(** The instruction blocks and prompts of [analyze_chart]. *)
Definition chart_lang_instruction (language : pystr) : pystr :=
  if Str.eqb language (lit "th")
  then lit "IMPORTANT: You MUST respond entirely in Thai language (ภาษาไทย). 
Use Thai for all explanations, descriptions, and interpretations. 
Technical terms like GNSS, ITRF, mm/year can remain in English, but all sentences and descriptions must be in Thai."
  else lit "Please respond in English.".

Definition vision_prompt (lang_instruction : pystr) : pystr :=
  lit "You are an expert geodetic engineer and GNSS data analyst. 
Analyze this chart image in detail. It likely shows GNSS (Global Navigation Satellite System) 
point displacement data.

"
  ++ lang_instruction ++
  lit "

Please provide a comprehensive analysis covering:

1. **Chart Type & Components**: What type of chart is this? What are the axes, labels, and components shown?

2. **Displacement Analysis**: 
   - Describe the displacement patterns for each component (East, North, Up/Vertical) if visible.
   - Identify any linear trends (magnitude and direction).
   - Note seasonal/periodic variations if present.
   - Highlight any anomalous points or sudden jumps.

3. **Station Information**: What station name, reference frame, or time period is shown?

4. **Interpretation**: 
   - What does this displacement pattern suggest about ground movement?
   - Is there evidence of land subsidence, tectonic motion, or structural deformation?
   - What is the approximate rate of displacement per year?

5. **Data Quality**: Comment on the scatter/noise level and overall data quality.

Please be specific with numbers and measurements where visible.".

Definition chart_summary_lang_instruction (language : pystr) : pystr :=
  if Str.eqb language (lit "th")
  then lit "IMPORTANT: You MUST write the summary entirely in Thai language (ภาษาไทย).
Use simple Thai that non-technical users can understand easily.
Technical terms like GNSS, mm/year can stay in English, but the sentences must be in Thai."
  else lit "Please write the summary in English.".

Definition chart_summary_prompt (summary_lang_instruction description : pystr)
    : pystr :=
  lit "Based on the following technical analysis of a GNSS displacement chart, 
create a concise, easy-to-understand summary for a non-technical user. 
Explain what the chart shows and what it means in simple terms.

"
  ++ summary_lang_instruction ++
  lit "

Technical Analysis:
"
  ++ description ++
  lit "

Please write a 3-5 sentence summary that:
- Explains what the chart is measuring (ground/point movement)
- Highlights the key findings (direction and amount of movement)
- Explains any potential implications (e.g., subsidence risk, structural monitoring)
Keep it simple and informative.".

(** The instruction blocks and prompts of [analyze_station_data]. *)
Definition station_lang_instruction (language : pystr) : pystr :=
  if Str.eqb language (lit "th")
  then lit "IMPORTANT: You MUST respond entirely in Thai language (ภาษาไทย).
Use Thai for all explanations, descriptions, and interpretations.
Technical terms like GNSS, ITRF, mm/year can remain in English, but all sentences must be in Thai."
  else lit "Please respond in English.".

Definition analysis_prompt (stat_code lang_instruction data_summary : pystr)
    : pystr :=
  lit "You are an expert geodetic engineer analyzing GNSS monitoring data from station "
  ++ stat_code ++
  lit ".

Field definitions:
- de, dn, dh = displacement from initial coordinate in East, North, and Height (meters)
- sde, sdn, sdh = standard deviation of each displacement component (meters)
- pdop = Position Dilution of Precision (lower is better)
- no_satellite = number of satellites used

"
  ++ lang_instruction ++
  lit "

"
  ++ data_summary ++
  lit "

Analyze this data:
1. What is the displacement trend for East (de), North (dn), and Height (dh)?
2. Is there land subsidence (negative dh trend) or uplift?
3. What is the approximate displacement rate per year for each component?
4. Are there any anomalies or sudden jumps?
5. Comment on data quality based on S.D. values and PDOP.".

Definition station_summary_lang (language : pystr) : pystr :=
  if Str.eqb language (lit "th")
  then lit "IMPORTANT: Write entirely in Thai (ภาษาไทย). Use simple Thai."
  else lit "Please write in English.".

Definition station_summary_prompt (stat_code summary_lang description : pystr)
    : pystr :=
  lit "Based on the following technical analysis of GNSS station data (station: "
  ++ stat_code ++
  lit "),
create a concise, easy-to-understand summary for a non-technical user.

"
  ++ summary_lang ++
  lit "

Technical Analysis:
"
  ++ description ++
  lit "

Write a 3-5 sentence summary that:
- Explains what was measured (ground/point movement at this station)
- Highlights the key findings (direction and amount of movement)
- Explains any potential implications
Keep it simple and informative.".

(** [s or default] for an optional [str]. *)
Definition str_or (s : option pystr) (default : pystr) : pystr :=
  match s with
  | Some (c :: r) => c :: r
  | _ => default
  end.

(** The query parameters both station endpoints send. *)
Definition station_params (stat_code start_date end_date : pystr)
    : list (pystr * pystr) :=
  [(lit "stat_code", stat_code)]
  ++ (match start_date with [] => [] | _ => [(lit "start_date", start_date)] end)
  ++ (match end_date with [] => [] | _ => [(lit "end_date", end_date)] end).

(** [resp.text[:300] if resp.text else f"status {resp.status_code}"] *)
Definition upstream_detail (resp : http_response) : pystr :=
  match text resp with
  | [] => lit "status " ++ Str.of_Z (status_code resp)
  | t => slice_to 300 t
  end.

Section WithContext.
Context (B : Builtins) (cfg : config) (E : env).

(** [POST /api/analyze]: [analyze_chart(file, language, model_mode)] *)
Definition analyze_chart (file : UploadFile) (language model_mode : pystr)
    : M AnalysisResponse.t :=
  default_mode <- lift (modes_getitem B DEFAULT_MODEL_MODE) ;;
  let mode := match modes_lookup MODEL_MODES model_mode with
              | Some m => m
              | None => default_mode
              end in
  let active_vision_model := vision_model mode in
  let active_text_model := text_model mode in
  if negb (match content_type file with
           | Some ct => startswith ct (lit "image/")
           | None => false
           end)
  then throw (HTTPException 400 (lit "Only image files are accepted."))
  else
  vision_ready <- ensure_model_pulled B cfg E active_vision_model ;;
  if negb vision_ready
  then throw (HTTPException 503
         (lit "Vision model '" ++ active_vision_model
          ++ lit "' is not available and could not be pulled. "
          ++ lit "Please check that Ollama is running and has enough resources."))
  else
  text_ready <- ensure_model_pulled B cfg E active_text_model ;;
  (if negb text_ready
   then log WARNING (lit "Text model '" ++ active_text_model
                     ++ lit "' not available, will attempt anyway")
   else ret tt) ;;
  u <- fresh_uuid E ;;
  let chart_id := slice_to 8 u in
  let ext := str_or (Some (path_suffix B (str_or (filename file) (lit "chart.png"))))
                    (lit ".png") in
  let filename := lit "chart_" ++ chart_id ++ ext in
  let filepath := UPLOAD_DIR ++ lit "/" ++ filename in
  let content := content file in
  write_file E filepath content ;;
  let img_base64 := b64encode B content in
  let lang_instruction := chart_lang_instruction language in
  description <- query_ollama_vision B cfg E img_base64
                   (vision_prompt lang_instruction) (Some active_vision_model) ;;
  match description with
  | PStr description =>
    if startswith description (lit "Error:")
    then throw (HTTPException 503 description)
    else
    let summary_lang_instruction := chart_summary_lang_instruction language in
    summary <- query_ollama_text B cfg E
                 (chart_summary_prompt summary_lang_instruction description)
                 (Some active_text_model) 2048 ;;
    match summary with
    | PStr summary =>
      let summary :=
        if startswith summary (lit "Error:")
        then (if (300 <? List.length description)%nat
              then slice_to 300 description ++ lit "..."
              else description)
        else summary in
      timestamp <- now E ;;
      ret {| AnalysisResponse.id := chart_id;
             AnalysisResponse.filename := filename;
             AnalysisResponse.description := description;
             AnalysisResponse.summary := summary;
             AnalysisResponse.details :=
               {| ChartDetails.vision_model := active_vision_model;
                  ChartDetails.text_model := active_text_model;
                  ChartDetails.model_mode := model_mode;
                  ChartDetails.original_filename := Endpoints.filename file;
                  ChartDetails.file_size_kb :=
                    py_round1 B (float_of_len (List.length content) / 1024)%float;
                  ChartDetails.language := language |};
             AnalysisResponse.timestamp := timestamp;
             AnalysisResponse.chart_url := lit "/api/charts/" ++ filename |}
    (* [summary.startswith] on a value that is no [str] *)
    | _ => lift (raise B AttributeError summary)
    end
  (* [description.startswith] on a value that is no [str] *)
  | _ => lift (raise B AttributeError description)
  end.

(** [GET /api/station/data]:
    [get_station_data(stat_code, start_date, end_date)] *)
Definition get_station_data (stat_code start_date end_date : pystr)
    : M pyval :=
  let params := station_params stat_code start_date end_date in
  try_except
    (resp <- send E (GET (LANDMOS_API_BASE cfg
                          ++ lit "/stations/data_by_stat_code") params 30.0) ;;
     if status_code resp =? 200
     then lift (json resp)
     else throw (HTTPException (status_code resp)
                   (lit "LandMOS API error: " ++ upstream_detail resp)))
    (fun e =>
       match e with
       | Exc ConnectError _ =>
         throw (HTTPException 502 (lit "Cannot connect to LandMOS API server."))
       | Exc TimeoutException _ =>
         throw (HTTPException 504 (lit "LandMOS API request timed out."))
       | HTTPException _ _ => throw e
       | _ =>
         log ERROR (lit "Error fetching station data: " ++ exc_str e) ;;
         throw (HTTPException 500
                  (lit "Error fetching station data: " ++ exc_str e))
       end).

(** [POST /api/station/analyze]:
    [analyze_station_data(stat_code, start_date, end_date, language,
    model_mode)] *)
Definition analyze_station_data
    (stat_code start_date end_date language model_mode : pystr)
    : M StationAnalysisResponse.t :=
  default_mode <- lift (modes_getitem B DEFAULT_MODEL_MODE) ;;
  let mode := match modes_lookup MODEL_MODES model_mode with
              | Some m => m
              | None => default_mode
              end in
  let active_text_model := text_model mode in
  text_ready <- ensure_model_pulled B cfg E active_text_model ;;
  if negb text_ready
  then throw (HTTPException 503
         (lit "Text model '" ++ active_text_model ++ lit "' is not available. "
          ++ lit "Please check that Ollama is running."))
  else
  let params := station_params stat_code start_date end_date in
  station_data <-
    try_except
      (resp <- send E (GET (LANDMOS_API_BASE cfg
                            ++ lit "/stations/data_by_stat_code") params 30.0) ;;
       if negb (status_code resp =? 200)
       then throw (HTTPException 502
                     (lit "LandMOS API error: " ++ upstream_detail resp))
       else lift (json resp))
      (fun e =>
         match e with
         | Exc ConnectError _ =>
           throw (HTTPException 502 (lit "Cannot connect to LandMOS API server."))
         | Exc TimeoutException _ =>
           throw (HTTPException 504 (lit "LandMOS API request timed out."))
         | HTTPException _ _ => throw e
         | _ =>
           log ERROR (lit "Error fetching station data: " ++ exc_str e) ;;
           throw (HTTPException 500
                    (lit "Error fetching station data: " ++ exc_str e))
         end) ;;
  data_summary <- lift (_summarize_station_data B station_data stat_code) ;;
  let lang_instruction := station_lang_instruction language in
  description <- query_ollama_text B cfg E
                   (analysis_prompt stat_code lang_instruction data_summary)
                   (Some active_text_model) 4096 ;;
  match description with
  | PStr description =>
    if startswith description (lit "Error:")
    then throw (HTTPException 503 description)
    else
    let summary_lang := station_summary_lang language in
    summary <- query_ollama_text B cfg E
                 (station_summary_prompt stat_code summary_lang description)
                 (Some active_text_model) 4096 ;;
    match summary with
    | PStr summary =>
      let summary :=
        if startswith summary (lit "Error:")
        then (if (300 <? List.length description)%nat
              then slice_to 300 description ++ lit "..."
              else description)
        else summary in
      u <- fresh_uuid E ;;
      let chart_id := slice_to 8 u in
      timestamp <- now E ;;
      ret {| StationAnalysisResponse.id := chart_id;
             StationAnalysisResponse.stat_code := stat_code;
             StationAnalysisResponse.description := description;
             StationAnalysisResponse.summary := summary;
             StationAnalysisResponse.details :=
               {| StationDetails.text_model := active_text_model;
                  StationDetails.model_mode := model_mode;
                  StationDetails.language := language;
                  StationDetails.start_date := start_date;
                  StationDetails.end_date := end_date;
                  StationDetails.data_points :=
                    match station_data with
                    | PList l => PInt (Z.of_nat (List.length l))
                    | _ => PStr (lit "N/A")
                    end |};
             StationAnalysisResponse.station_data :=
               match station_data with
               | PDict _ => station_data
               | _ => PDict [(lit "records", station_data)]
               end;
             StationAnalysisResponse.timestamp := timestamp |}
    | _ => lift (raise B AttributeError summary)
    end
  | _ => lift (raise B AttributeError description)
  end.

End WithContext.

End Endpoints.

Import Endpoints.

(** ** The model status endpoint *)

Module Status.

Local Open Scope action_scope.

Module ModeStatus.
Record t := {
  name : pystr;
  description : pystr;
  description_th : pystr;
  icon : pystr;
  vision_model : pystr;
  text_model : pystr;
  vision_ready : bool;
  text_ready : bool;
  ready : bool
}.
End ModeStatus.

Module ModelStatus.
Record t := {
  ollama_status : pystr;
  vision_model : pystr;
  text_model : pystr;
  vision_model_ready : bool;
  text_model_ready : bool;
  available_modes : list (pystr * ModeStatus.t)
}.
End ModelStatus.

(** [for x in xs: acc = body(acc, x)] with effects. *)
Fixpoint for_each_M {A S} (xs : list A) (body : S -> A -> M S) (acc : S)
    : M S :=
  match xs with
  | [] => ret acc
  | x :: rest => acc' <- body acc x ;; for_each_M rest body acc'
  end.

Section WithContext.
Context (B : Builtins) (cfg : config) (E : env).

(** [GET /api/models/status]: [get_model_status()] *)
Definition get_model_status : M ModelStatus.t :=
  ollama_ok <-
    try_except
      (resp <- send E (GET (OLLAMA_BASE_URL cfg ++ lit "/api/tags") [] 5.0) ;;
       ret (status_code resp =? 200))
      (fun _ => ret false) ;;
  vision_ready <- (if ollama_ok : bool
                   then check_ollama_model B cfg E (VISION_MODEL cfg)
                   else ret false) ;;
  text_ready <- (if ollama_ok : bool
                 then check_ollama_model B cfg E (TEXT_MODEL cfg)
                 else ret false) ;;
  available_modes <-
    for_each_M MODEL_MODES
      (fun available_modes entry =>
         let mode_key := fst entry in
         let mode_config := snd entry in
         readiness <-
           (if ollama_ok : bool
            then
              v_ready <- check_ollama_model B cfg E (vision_model mode_config) ;;
              t_ready <- check_ollama_model B cfg E (text_model mode_config) ;;
              ret (v_ready, t_ready)
            else ret (false, false)) ;;
         let v_ready := fst readiness in
         let t_ready := snd readiness in
         ret (available_modes ++
              [(mode_key,
                {| ModeStatus.name := name mode_config;
                   ModeStatus.description := description mode_config;
                   ModeStatus.description_th := description_th mode_config;
                   ModeStatus.icon := icon mode_config;
                   ModeStatus.vision_model := vision_model mode_config;
                   ModeStatus.text_model := text_model mode_config;
                   ModeStatus.vision_ready := v_ready;
                   ModeStatus.text_ready := t_ready;
                   ModeStatus.ready := v_ready && t_ready |})]))
      [] ;;
  ret {| ModelStatus.ollama_status :=
           if ollama_ok : bool then lit "connected" else lit "disconnected";
         ModelStatus.vision_model := VISION_MODEL cfg;
         ModelStatus.text_model := TEXT_MODEL cfg;
         ModelStatus.vision_model_ready := vision_ready;
         ModelStatus.text_model_ready := text_ready;
         ModelStatus.available_modes := available_modes |}.

End WithContext.

End Status.

Import Status.

(** ** Notions the properties are stated with *)

Module Spec.

(** [p] occurs in [s]: the meaning of "[s] contains [p]". *)
Definition occurs_in (p s : pystr) : Prop :=
  exists before after, s = before ++ p ++ after.

Definition colon : N := 58.

(** An entry of the tag listing that carries the model name [n]. *)
Definition entry_named (entry : pyval) (n : pystr) : Prop :=
  exists d, entry = PDict d /\ dict_lookup d (lit "name") = Some (PStr n).

(** The JSON object [body] of the tag-listing endpoint lists exactly the
    model names [names], in order. *)
Definition lists_models (body : list (pystr * pyval)) (names : list pystr)
    : Prop :=
  exists entries,
    dict_lookup body (lit "models") = Some (PList entries) /\
    Forall2 entry_named entries names.

(** The request [check_ollama_model] sends. *)
Definition tags_request (cfg : config) : http_request :=
  GET (OLLAMA_BASE_URL cfg ++ lit "/api/tags") [] 10.0.

(** The request [get_station_data] and [analyze_station_data] send. *)
Definition station_request (cfg : config)
    (stat_code start_date end_date : pystr) : http_request :=
  GET (LANDMOS_API_BASE cfg ++ lit "/stations/data_by_stat_code")
      (station_params stat_code start_date end_date) 30.0.

(** The mode a request runs with. *)
Definition resolve_mode (model_mode : pystr) : mode_config :=
  match modes_lookup MODEL_MODES model_mode with
  | Some m => m
  | None => moondream_mode
  end.

(** The upload has an image content type. *)
Definition is_image (file : UploadFile) : bool :=
  match content_type file with
  | Some ct => startswith ct (lit "image/")
  | None => false
  end.

(** The error marker of an inference result. *)
Definition error_marked (s : pystr) : bool := startswith s (lit "Error:").

Definition NO_RESPONSE : pystr := lit "No response generated.".

(** The summary the endpoints fall back to. *)
Definition fallback_summary (description : pystr) : pystr :=
  if (300 <? List.length description)%nat
  then firstn 300 description ++ lit "..."
  else description.

(** A request to the inference endpoint, and one that carries no image:
    a text inference. *)
Definition generate_url (cfg : config) : pystr :=
  OLLAMA_BASE_URL cfg ++ lit "/api/generate".

Definition is_text_inference (cfg : config) (ev : event) : Prop :=
  exists payload timeout result,
    ev = EvHttp (POST (generate_url cfg) (PDict payload) timeout) result /\
    dict_lookup payload (lit "images") = None.

(** An outbound call or a write to the upload directory. *)
Definition is_outbound (ev : event) : Prop :=
  match ev with
  | EvHttp _ _ | EvWrite _ _ _ => True
  | _ => False
  end.

Section Phases.
Context (B : Builtins) (cfg : config) (E : env).

Local Open Scope action_scope.

(** The steps of [analyze_chart] before its vision inference: the
    content-type check, the two model checks, the fresh identifier and
    the stored file.  It yields the identifier and the stored name;
    [analyze_chart_phases] below proves that [analyze_chart] is these
    steps followed by the two inferences. *)
Definition chart_setup (file : UploadFile) (model_mode : pystr)
    : M (pystr * pystr) :=
  let mode := resolve_mode model_mode in
  if negb (is_image file)
  then throw (HTTPException 400 (lit "Only image files are accepted."))
  else
  vision_ready <- ensure_model_pulled B cfg E (vision_model mode) ;;
  if negb vision_ready
  then throw (HTTPException 503
         (lit "Vision model '" ++ vision_model mode
          ++ lit "' is not available and could not be pulled. "
          ++ lit "Please check that Ollama is running and has enough resources."))
  else
  text_ready <- ensure_model_pulled B cfg E (text_model mode) ;;
  (if negb text_ready
   then log WARNING (lit "Text model '" ++ text_model mode
                     ++ lit "' not available, will attempt anyway")
   else ret tt) ;;
  u <- fresh_uuid E ;;
  let chart_id := slice_to 8 u in
  let ext := str_or (Some (path_suffix B (str_or (filename file) (lit "chart.png"))))
                    (lit ".png") in
  let filename := lit "chart_" ++ chart_id ++ ext in
  write_file E (UPLOAD_DIR ++ lit "/" ++ filename) (content file) ;;
  ret (chart_id, filename).

(** The vision inference of [analyze_chart]. *)
Definition chart_vision (file : UploadFile) (language model_mode : pystr)
    : M pyval :=
  query_ollama_vision B cfg E (b64encode B (content file))
    (vision_prompt (chart_lang_instruction language))
    (Some (vision_model (resolve_mode model_mode))).

(** The lay-summary text inference of [analyze_chart] on a description. *)
Definition chart_summary (language model_mode description : pystr)
    : M pyval :=
  query_ollama_text B cfg E
    (chart_summary_prompt (chart_summary_lang_instruction language) description)
    (Some (text_model (resolve_mode model_mode))) 2048.

(** What [analyze_chart] returns from the results of its steps. *)
Definition chart_response (file : UploadFile) (language model_mode : pystr)
    (chart_id filename description summary timestamp : pystr)
    : AnalysisResponse.t :=
  {| AnalysisResponse.id := chart_id;
     AnalysisResponse.filename := filename;
     AnalysisResponse.description := description;
     AnalysisResponse.summary := summary;
     AnalysisResponse.details :=
       {| ChartDetails.vision_model := vision_model (resolve_mode model_mode);
          ChartDetails.text_model := text_model (resolve_mode model_mode);
          ChartDetails.model_mode := model_mode;
          ChartDetails.original_filename := Endpoints.filename file;
          ChartDetails.file_size_kb :=
            py_round1 B (float_of_len (List.length (content file)) / 1024)%float;
          ChartDetails.language := language |};
     AnalysisResponse.timestamp := timestamp;
     AnalysisResponse.chart_url := lit "/api/charts/" ++ filename |}.

End Phases.

Section StationPhases.
Context (B : Builtins) (cfg : config) (E : env).

Local Open Scope action_scope.

(** The steps of [analyze_station_data] before its first inference: the
    model check, the fetch and the digest.  It yields the station data
    and the digest; [analyze_station_data_phases] below proves that the
    endpoint is these steps followed by the two inferences. *)
Definition station_setup (stat_code start_date end_date model_mode : pystr)
    : M (pyval * pystr) :=
  let active_text_model := text_model (resolve_mode model_mode) in
  text_ready <- ensure_model_pulled B cfg E active_text_model ;;
  if negb text_ready
  then throw (HTTPException 503
         (lit "Text model '" ++ active_text_model ++ lit "' is not available. "
          ++ lit "Please check that Ollama is running."))
  else
  station_data <-
    try_except
      (resp <- send E (station_request cfg stat_code start_date end_date) ;;
       if negb (status_code resp =? 200)
       then throw (HTTPException 502
                     (lit "LandMOS API error: " ++ upstream_detail resp))
       else lift (json resp))
      (fun e =>
         match e with
         | Exc ConnectError _ =>
           throw (HTTPException 502 (lit "Cannot connect to LandMOS API server."))
         | Exc TimeoutException _ =>
           throw (HTTPException 504 (lit "LandMOS API request timed out."))
         | HTTPException _ _ => throw e
         | _ =>
           log ERROR (lit "Error fetching station data: " ++ exc_str e) ;;
           throw (HTTPException 500
                    (lit "Error fetching station data: " ++ exc_str e))
         end) ;;
  data_summary <- lift (_summarize_station_data B station_data stat_code) ;;
  ret (station_data, data_summary).

(** The technical-analysis inference of [analyze_station_data]. *)
Definition station_analysis (stat_code language model_mode data_summary : pystr)
    : M pyval :=
  query_ollama_text B cfg E
    (analysis_prompt stat_code (station_lang_instruction language) data_summary)
    (Some (text_model (resolve_mode model_mode))) 4096.

(** The lay-summary inference of [analyze_station_data]. *)
Definition station_summary (stat_code language model_mode description : pystr)
    : M pyval :=
  query_ollama_text B cfg E
    (station_summary_prompt stat_code (station_summary_lang language)
       description)
    (Some (text_model (resolve_mode model_mode))) 4096.

(** What [analyze_station_data] returns from the results of its steps. *)
Definition station_response
    (stat_code start_date end_date language model_mode : pystr)
    (station_data : pyval) (description summary chart_id timestamp : pystr)
    : StationAnalysisResponse.t :=
  {| StationAnalysisResponse.id := chart_id;
     StationAnalysisResponse.stat_code := stat_code;
     StationAnalysisResponse.description := description;
     StationAnalysisResponse.summary := summary;
     StationAnalysisResponse.details :=
       {| StationDetails.text_model := text_model (resolve_mode model_mode);
          StationDetails.model_mode := model_mode;
          StationDetails.language := language;
          StationDetails.start_date := start_date;
          StationDetails.end_date := end_date;
          StationDetails.data_points :=
            match station_data with
            | PList l => PInt (Z.of_nat (List.length l))
            | _ => PStr (lit "N/A")
            end |};
     StationAnalysisResponse.station_data :=
       match station_data with
       | PDict _ => station_data
       | _ => PDict [(lit "records", station_data)]
       end;
     StationAnalysisResponse.timestamp := timestamp |}.

End StationPhases.

(** An answer of the inference service with status 200 whose JSON object
    has no ["response"] entry. *)
Definition no_response_answer (resp : http_response) : Prop :=
  status_code resp = 200 /\
  exists d, json resp = Ok (PDict d) /\ dict_lookup d (lit "response") = None.

Section Fields.
Context (B : Builtins).

(** The value a record holds for a field, when it holds one. *)
Definition field (key : pystr) (r : pyval) : option pyval :=
  match getitem B r key with
  | Ok v => Some v
  | Raise _ => None
  end.

(** The number a record holds for a field: [None] when the value is
    missing, null or not numeric. *)
Definition field_value (key : pystr) (r : pyval) : option float :=
  match field key r with
  | Some v =>
    match py_float B v with
    | Ok f => Some f
    | Raise _ => None
    end
  | None => None
  end.

(** The first record, in order, that holds a number for the field. *)
Fixpoint first_valid (key : pystr) (records : list pyval) : option float :=
  match records with
  | [] => None
  | r :: rest =>
    match field_value key r with
    | Some f => Some f
    | None => first_valid key rest
    end
  end.

(** The last such record. *)
Definition last_valid (key : pystr) (records : list pyval) : option float :=
  first_valid key (rev records).

(** The field's valid subsequence. *)
Fixpoint valid_values (key : pystr) (records : list pyval) : list float :=
  match records with
  | [] => []
  | r :: rest =>
    match field_value key r with
    | Some f => f :: valid_values key rest
    | None => valid_values key rest
    end
  end.

(** The record holds, for the field, an integer too large for a float. *)
Definition overflows (key : pystr) (r : pyval) : Prop :=
  exists z, field key r = Some (PInt z) /\ float_of_Z z = None.

End Fields.

(** A key of the wrapper is absent, or holds an empty list (or another
    value Python takes as false). *)
Definition absent_or_empty (d : list (pystr * pyval)) (key : pystr) : Prop :=
  dict_lookup d key = None \/
  exists v, dict_lookup d key = Some v /\ truthy v = false.

Definition no_data_notice (stat_code : pystr) : pystr :=
  lit "Station: " ++ stat_code ++ nl ++ lit "No data records found.".

(** The fields the summarizer gives statistics for. *)
Definition STATS_KEYS : list pystr := DISPLACEMENT_KEYS ++ QUALITY_KEYS.

Definition label_of (key : pystr) : pystr :=
  labels_get LANDMOS_FIELD_LABELS key key.

(** A statistics line of the field [key]. *)
Definition is_stats_line (key line : pystr) : Prop :=
  exists rest, line = label_of key ++ lit ": min=" ++ rest.

(** A line that is no statistics line of any field. *)
Definition plain (line : pystr) : Prop :=
  forall key, In key STATS_KEYS -> ~ is_stats_line key line.

(** One round of the loop of [_stats], from the value the record holds
    for the field. *)
Definition stats_round (B : Builtins) (vals : list float)
    (held : option pyval) : res (list float) :=
  match held with
  | Some v =>
    catch stats_caught (Py.bind (py_float B v) (fun f => Ok (vals ++ [f])))
          (Ok vals)
  | None => Ok vals
  end.

(** Every run of [c] extends the world by events that satisfy [P]. *)
Definition adds {A} (P : event -> Prop) (c : M A) : Prop :=
  forall w, exists evs, snd (c w) = w ++ evs /\ Forall P evs.

(** An event that is no text inference. *)
Definition quiet (cfg : config) (ev : event) : Prop :=
  ~ is_text_inference cfg ev.

(** A record that is a JSON object. *)
Definition is_object (r : pyval) : Prop := exists d, r = PDict d.

End Spec.

Import Spec.

(** ** Requests and events, for the properties of whole runs *)

Module Requests.

(** The request [ensure_model_pulled] sends to pull a model. *)
Definition pull_request (cfg : config) (model_name : pystr) : http_request :=
  POST (OLLAMA_BASE_URL cfg ++ lit "/api/pull")
       (PDict [(lit "name", PStr model_name)]) 600.0.

(** The request [query_ollama_vision] sends. *)
Definition vision_request (cfg : config) (image_base64 prompt : pystr)
    (model : option pystr) : http_request :=
  POST (generate_url cfg)
       (PDict [ (lit "model", PStr (or_default model (VISION_MODEL cfg)));
                (lit "prompt", PStr prompt);
                (lit "images", PList [PStr image_base64]);
                (lit "stream", PBool false);
                (lit "options",
                 PDict [ (lit "temperature", PFloat 0.3);
                         (lit "num_predict", PInt 2048) ]) ])
       300.0.

(** The request [query_ollama_text] sends. *)
Definition text_request (cfg : config) (prompt : pystr)
    (model : option pystr) (num_ctx : Z) : http_request :=
  POST (generate_url cfg)
       (PDict [ (lit "model", PStr (or_default model (TEXT_MODEL cfg)));
                (lit "prompt", PStr prompt);
                (lit "stream", PBool false);
                (lit "options",
                 PDict [ (lit "temperature", PFloat 0.3);
                         (lit "num_predict", PInt 1024);
                         (lit "num_ctx", PInt num_ctx) ]) ])
       180.0.

(** The request [get_model_status] probes the service with. *)
Definition probe_request (cfg : config) : http_request :=
  GET (OLLAMA_BASE_URL cfg ++ lit "/api/tags") [] 5.0.

(** A request to the inference endpoint. *)
Definition is_generate (cfg : config) (ev : event) : Prop :=
  exists payload timeout result,
    ev = EvHttp (POST (generate_url cfg) payload timeout) result.

(** A write to the upload directory. *)
Definition is_write (ev : event) : Prop :=
  exists path content failure, ev = EvWrite path content failure.

(** A request of any kind. *)
Definition is_request (ev : event) : bool :=
  match ev with
  | EvHttp _ _ => true
  | _ => false
  end.

(** The number of requests among events. *)
Definition requests (evs : list event) : nat :=
  List.length (filter is_request evs).

(** Every run of [c] sends at most [n] requests. *)
Definition sends {A} (n : nat) (c : M A) : Prop :=
  forall w, exists evs, snd (c w) = w ++ evs /\ (requests evs <= n)%nat.

(** Every run of [c] returns. *)
Definition returns {A} (c : M A) : Prop :=
  forall w, exists a w', c w = (Ok a, w').

(** The line [check_ollama_model] logs for an exception. *)
Definition check_error_log (model_name : pystr) (e : pyexc) : event :=
  EvLog ERROR (lit "Error checking model " ++ model_name ++ lit ": "
               ++ exc_str e).

(** An entry of the status report with no readiness flag set. *)
Definition mode_not_ready (entry : pystr * ModeStatus.t) : Prop :=
  ModeStatus.vision_ready (snd entry) = false /\
  ModeStatus.text_ready (snd entry) = false /\
  ModeStatus.ready (snd entry) = false.

(** An entry of the status report that agrees with its mode of the
    table, and whose [ready] flag is the conjunction of the other two. *)
Definition mode_consistent (entry : pystr * ModeStatus.t)
    (mode : pystr * mode_config) : Prop :=
  fst entry = fst mode /\
  ModeStatus.vision_model (snd entry) = vision_model (snd mode) /\
  ModeStatus.text_model (snd entry) = text_model (snd mode) /\
  ModeStatus.ready (snd entry)
  = ModeStatus.vision_ready (snd entry) && ModeStatus.text_ready (snd entry).

(** An event that is neither an inference request nor a write. *)
Definition idle (cfg : config) (ev : event) : Prop :=
  ~ is_generate cfg ev /\ ~ is_write ev.

(** A request to the station API. *)
Definition is_station_call (cfg : config) (ev : event) : Prop :=
  exists stat_code start_date end_date result,
    ev = EvHttp (station_request cfg stat_code start_date end_date) result.

(** An event that is a request neither to the station API nor to the
    inference endpoint. *)
Definition offline (cfg : config) (ev : event) : Prop :=
  ~ is_station_call cfg ev /\ ~ is_generate cfg ev.

(** An answer with status 200 and a JSON object, read as the text the
    inference helpers return for it: its ["response"] entry, or [No
    response generated.] when it has none; the text carries no error
    marker. *)
Definition reads (resp : http_response) (t : pystr) : Prop :=
  status_code resp = 200 /\
  exists body,
    json resp = Ok (PDict body) /\
    error_marked t = false /\
    (dict_lookup body (lit "response") = Some (PStr t) \/
     dict_lookup body (lit "response") = None /\ t = NO_RESPONSE).

(** An event that names no model but the default mode's: if it is a
    request, it is the listing, the pull of one of the two default
    models, a vision inference on [moondream], or a summary inference on
    [llama3.2:1b]. *)
Definition default_models_only (cfg : config) (ev : event) : Prop :=
  forall rq result,
    ev = EvHttp rq result ->
    rq = tags_request cfg \/
    rq = pull_request cfg (lit "moondream") \/
    rq = pull_request cfg (lit "llama3.2:1b") \/
    (exists image_base64 prompt,
       rq = vision_request cfg image_base64 prompt (Some (lit "moondream"))) \/
    (exists prompt,
       rq = text_request cfg prompt (Some (lit "llama3.2:1b")) 2048).

End Requests.

Import Requests.

(** ** The layout of the digest *)

Module Layout.

Definition SAMPLE_KEYS : list pystr := [lit "timestamp"] ++ DISPLACEMENT_KEYS.

Definition DISPLACEMENT_HEADING : pystr :=
  nl ++ lit "--- Displacement Statistics ---".

Definition QUALITY_HEADING : pystr := nl ++ lit "--- Data Quality ---".

Definition FIRST_HEADING : pystr :=
  nl ++ lit "First 3 records (timestamp, de, dn, dh):".

Definition LAST_HEADING : pystr := lit "Last 3 records:".

(** The location line of a digest. *)
Definition location_line (B : Builtins) (lat lng : pyval) : pystr :=
  lit "Location: lat=" ++ fmt B lat ++ lit ", lng=" ++ fmt B lng.

(** The sample line of a record. *)
Definition is_sample_of (B : Builtins) (r : pyval) (line : pystr) : Prop :=
  exists row, sample_row B SAMPLE_KEYS r = Ok row /\ line = lit "  " ++ row.

(** The number of [keys] for which some record holds a valid number. *)
Definition valid_count (B : Builtins) (records : list pyval)
    (keys : list pystr) : nat :=
  List.length
    (filter (fun key => match first_valid B key records with
                        | Some _ => true
                        | None => false
                        end) keys).

(** The record list a wrapper is summarized from. *)
Definition wrapped (d : list (pystr * pyval)) (records : list pyval) : Prop :=
  (exists r rest, records = r :: rest /\
     dict_lookup d (lit "records") = Some (PList records)) \/
  (absent_or_empty d (lit "records") /\
   dict_lookup d (lit "data") = Some (PList records)).

End Layout.

Import Layout.

(** ** An interpretation of the builtins, and sample environments

    Every property below is proved for all [Builtins] and all [env]; the
    definitions of this module give one of each, so that the model runs
    on concrete requests. *)

Module Demo.

Definition round_half_even (n d : Z) : Z :=
  let q := n / d in
  let r := n mod d in
  if 2 * r <? d then q
  else if d <? 2 * r then q + 1
  else if Z.even q then q else q + 1.

(** The sign of [f] and [|f| * scale] rounded to an integer, half to
    even, for a finite [f]. *)
Definition scaled (f : float) (scale : Z) : option (bool * Z) :=
  match Prim2SF f with
  | S754_zero s => Some (s, 0)
  | S754_finite s m e =>
    let n := Zpos m * scale in
    Some (s, if 0 <=? e then n * 2 ^ e else round_half_even n (2 ^ (- e)))
  | _ => None
  end.

Definition pad4 (digits : pystr) : pystr :=
  repeat 48%N (4 - List.length digits) ++ digits.

(** Fixed-point rendering with four decimals; [plus] asks for the sign of
    a value that is not negative. *)
Definition fixed4 (plus : bool) (f : float) : pystr :=
  let sign (s : bool) := if s then lit "-" else if plus then lit "+" else [] in
  match scaled f 10000 with
  | Some (s, n) =>
    sign s ++ Str.of_Z (n / 10000) ++ lit "." ++ pad4 (Str.of_Z (n mod 10000))
  | None =>
    if is_nan f then sign false ++ lit "nan"
    else sign (f <? 0)%float ++ lit "inf"
  end.

(** The float nearest to [n / d], ties to even, for [0 <= n] and
    [0 < d]: the quotient is taken with 64 bits or more and a sticky
    last bit, then rounded once. *)
Definition nearest (n d : Z) : float :=
  if n =? 0 then zero
  else
    let s := Z.max 0 (64 + Z.log2 d - Z.log2 n) in
    let q := n * 2 ^ s / d in
    let sticky := if n * 2 ^ s mod d =? 0 then 0 else 1 in
    SF2Prim (binary_normalize prec emax (2 * q + sticky) (- s - 1) false).

(** The float nearest to [m * 10 ^ e10], for [0 <= m]. *)
Definition decimal (m e10 : Z) : float :=
  if m =? 0 then zero
  else
    let nd := Z.of_nat (List.length (Str.of_Z m)) in
    if 310 <? nd + e10 then infinity
    else if nd + e10 <? -330 then zero
    else if 0 <=? e10 then nearest (m * 10 ^ e10) 1
    else nearest m (10 ^ (- e10)).

(** [round(f, 1)]: [f] rounded to one decimal, half to even on its exact
    value, and the nearest float to that. *)
Definition round1 (f : float) : float :=
  match scaled f 10 with
  | Some (s, n) => if s then (- nearest n 10)%float else nearest n 10
  | None => f
  end.

Definition is_digit (c : N) : bool := ((48 <=? c) && (c <=? 57))%N.

(** A run of digits with single underscores between them, read onto
    [acc]: the value, the number of digits, and what follows. *)
Fixpoint read_digits (acc : Z) (count : nat) (s : pystr)
    : Z * nat * pystr :=
  match s with
  | c :: r =>
    if is_digit c then read_digits (10 * acc + Z.of_N (c - 48)) (S count) r
    else if ((c =? 95)%N && (0 <? count)%nat)%bool then
      match r with
      | c' :: _ =>
        if is_digit c' then read_digits acc count r else (acc, count, s)
      | [] => (acc, count, s)
      end
    else (acc, count, s)
  | [] => (acc, count, s)
  end.

Definition lower (c : N) : N :=
  if ((65 <=? c) && (c <=? 90))%N then (c + 32)%N else c.

(** The exponent part of a numeral, [Some 0] when there is none. *)
Definition read_exponent (s : pystr) : option Z :=
  match s with
  | [] => Some 0
  | c :: r =>
    if ((c =? 101) || (c =? 69))%N then
      let '(neg, r) :=
        match r with
        | 45%N :: r' => (true, r')
        | 43%N :: r' => (false, r')
        | _ => (false, r)
        end in
      match read_digits 0 0 r with
      | (e, S _, []) => Some (if neg then - e else e)
      | _ => None
      end
    else None
  end.

(** [float(s)] for the numerals written with ASCII digits: surrounding
    whitespace, a sign, [inf], [infinity] or [nan] in any case, or
    digits with an optional point and exponent. *)
Definition parse_float (s : pystr) : option float :=
  let '(neg, body) :=
    match strip s with
    | 45%N :: r => (true, r)
    | 43%N :: r => (false, r)
    | r => (false, r)
    end in
  let signed (f : float) := if neg then (- f)%float else f in
  let word := map lower body in
  if (Str.eqb word (lit "inf") || Str.eqb word (lit "infinity"))%bool
  then Some (signed infinity)
  else if Str.eqb word (lit "nan") then Some nan
  else
    let '(whole, nw, rest) := read_digits 0 0 body in
    let '(mant, nf, rest) :=
      match rest with
      | 46%N :: r => read_digits whole 0 r
      | _ => (whole, 0%nat, rest)
      end in
    if (nw + nf =? 0)%nat then None
    else
      match read_exponent rest with
      | Some e => Some (signed (decimal mant (e - Z.of_nat nf)))
      | None => None
      end.

(** [sum(vals)] as the interpreters before 3.12 compute it, adding from
    the left. *)
Definition sum_floats (vals : list float) : float :=
  fold_left PrimFloat.add vals zero.

(** The position of the decimal point of [n / d], for positive [n] and
    [d]: the [p] with [10 ^ (p - 1) <= n / d < 10 ^ p]. *)
Definition point_of (n d : Z) : Z :=
  let a := Z.of_nat (List.length (Str.of_Z n))
           - Z.of_nat (List.length (Str.of_Z d)) in
  if (if 0 <=? a then d * 10 ^ a <=? n else d <=? n * 10 ^ (- a))
  then a + 1 else a.

(** The decimal with [k] digits nearest to [n / d] that reads back as
    [f], when there is one: its digits as a number, and its exponent. *)
Definition candidate (f : float) (n d k : Z) : option (Z * Z) :=
  let p := point_of n d - k in
  let num := n * 10 ^ Z.max 0 (- p) in
  let den := d * 10 ^ Z.max 0 p in
  let lo := num / den in
  let hi := lo + 1 in
  let r := num mod den in
  let back (c : Z) := (decimal c p =? f)%float in
  if r =? 0 then Some (lo, p)
  else
    match back lo, back hi with
    | true, true =>
      if 2 * r <? den then Some (lo, p)
      else if den <? 2 * r then Some (hi, p)
      else Some (if Z.even lo then lo else hi, p)
    | true, false => Some (lo, p)
    | false, true => Some (hi, p)
    | false, false => None
    end.

Fixpoint shortest (fuel : nat) (f : float) (n d k : Z) : Z * Z :=
  match fuel with
  | O => (n, 0)
  | S fuel' =>
    match candidate f n d k with
    | Some c => c
    | None => shortest fuel' f n d (k + 1)
    end
  end.

Fixpoint strip_zeros (ds : pystr) : pystr :=
  match ds with
  | [] => []
  | c :: r =>
    match strip_zeros r with
    | [] => if (c =? 48)%N then [] else [c]
    | r' => c :: r'
    end
  end.

(** [repr(f)]: the shortest digits that read back as [f], with an
    exponent below [1e-4] and from [1e16] on. *)
Definition repr_float (f : float) : pystr :=
  match Prim2SF f with
  | S754_nan => lit "nan"
  | S754_infinity s => if s then lit "-inf" else lit "inf"
  | S754_zero s => if s then lit "-0.0" else lit "0.0"
  | S754_finite s m e =>
    let n := if 0 <=? e then Zpos m * 2 ^ e else Zpos m in
    let d := if 0 <=? e then 1 else 2 ^ (- e) in
    let '(c, p) := shortest 17 (abs f) n d 1 in
    let all := Str.of_Z c in
    let ds := strip_zeros all in
    let point := Z.of_nat (List.length all) + p in
    let len := Z.of_nat (List.length ds) in
    let sign := if s then lit "-" else [] in
    if ((point <=? -4) || (16 <? point))%bool then
      let ex := Str.of_Z (Z.abs (point - 1)) in
      sign
      ++ match ds with
         | c0 :: (_ :: _) as r => c0 :: 46%N :: r
         | _ => ds
         end
      ++ lit "e" ++ (if point - 1 <? 0 then lit "-" else lit "+")
      ++ (if (List.length ex <? 2)%nat then 48%N :: ex else ex)
    else if point <=? 0 then
      sign ++ lit "0." ++ repeat 48%N (Z.to_nat (- point)) ++ ds
    else if len <=? point then
      sign ++ ds ++ repeat 48%N (Z.to_nat (point - len)) ++ lit ".0"
    else
      sign ++ firstn (Z.to_nat point) ds ++ lit "."
      ++ skipn (Z.to_nat point) ds
  end.

Definition hex_digit (n : N) : N :=
  if (n <? 10)%N then (48 + n)%N else (87 + n)%N.

(** [repr(s)] for a [str]; of the code points from U+0080 on, those up
    to U+00A0 and U+00AD are escaped, the others are taken as printable. *)
Definition repr_str (s : pystr) : pystr :=
  let has (q : N) := existsb (N.eqb q) s in
  let quote := if (has 39%N && negb (has 34%N))%bool then 34%N else 39%N in
  let escaped (c : N) : pystr :=
    if (c =? 92)%N then [92; 92]%N
    else if (c =? quote)%N then [92%N; quote]
    else if (c =? 10)%N then [92; 110]%N
    else if (c =? 13)%N then [92; 114]%N
    else if (c =? 9)%N then [92; 116]%N
    else if ((c <? 32) || (c =? 127) || (127 <? c) && (c <? 161)
             || (c =? 173))%N
    then [92; 120; hex_digit (c / 16); hex_digit (c mod 16)]%N
    else [c] in
  quote :: flat_map escaped s ++ [quote].

(** [repr(v)] *)
Fixpoint py_repr (v : pyval) : pystr :=
  match v with
  | PNone => lit "None"
  | PBool true => lit "True"
  | PBool false => lit "False"
  | PInt z => Str.of_Z z
  | PFloat f => repr_float f
  | PStr s => repr_str s
  | PList items => lit "[" ++ join (lit ", ") (map py_repr items) ++ lit "]"
  | PDict entries =>
    lit "{"
    ++ join (lit ", ")
         (map (fun '(k, x) => repr_str k ++ lit ": " ++ py_repr x) entries)
    ++ lit "}"
  end.

(** [f"{v}"], that is [str(v)]: a [str] as it is, any other value as
    [repr] gives it. *)
Definition format_value (v : pyval) : pystr :=
  match v with
  | PStr s => s
  | _ => py_repr v
  end.

Definition b64_char (i : N) : N :=
  if (i <? 26)%N then (65 + i)%N
  else if (i <? 52)%N then (97 + (i - 26))%N
  else if (i <? 62)%N then (48 + (i - 52))%N
  else if (i =? 62)%N then 43%N else 47%N.

Fixpoint b64 (bytes : list N) : pystr :=
  match bytes with
  | [] => []
  | [a] =>
    [b64_char (a / 4); b64_char (a mod 4 * 16); 61; 61]%N
  | [a; b] =>
    [b64_char (a / 4); b64_char (a mod 4 * 16 + b / 16);
     b64_char (b mod 16 * 4); 61]%N
  | a :: b :: c :: rest =>
    [b64_char (a / 4); b64_char (a mod 4 * 16 + b / 16);
     b64_char (b mod 16 * 4 + c / 64); b64_char (c mod 64)]%N ++ b64 rest
  end.

(** The parts of a path between slashes. *)
Fixpoint parts (s : pystr) : list pystr :=
  match s with
  | [] => [[]]
  | c :: r =>
    if (c =? 47)%N then [] :: parts r
    else match parts r with
         | p :: ps => (c :: p) :: ps
         | [] => [[c]]
         end
  end.

(** [Path(name).suffix]: the last part of the path that is neither empty
    nor a single dot, from its last dot on, when that dot is neither its
    first nor its last character. *)
Definition suffix (path : pystr) : pystr :=
  let kept := filter (fun p => negb (Str.eqb p [] || Str.eqb p (lit ".")))
                     (parts path) in
  let name := last kept [] in
  let ext := rev (split_head 46 (rev name)) in
  let dot_at := (List.length name - List.length ext - 1)%nat in
  if (List.length ext =? List.length name)%nat then []
  else match ext, dot_at with
       | [], _ | _, O => []
       | _, _ => 46%N :: ext
       end.

(** A stand-in for the text of an exception the interpreter raises: the
    name of its class.  The source only logs such a text or passes it on
    in a detail. *)
Definition class_name (cls : exc_class) : pystr :=
  match cls with
  | ConnectError => lit "ConnectError"
  | TimeoutException => lit "TimeoutException"
  | KeyError => lit "KeyError"
  | TypeError => lit "TypeError"
  | ValueError => lit "ValueError"
  | AttributeError => lit "AttributeError"
  | OverflowError => lit "OverflowError"
  | IndexError => lit "IndexError"
  | OSError => lit "OSError"
  | OtherError => lit "Exception"
  end.

Definition builtins : Builtins := {|
  float_of_str := parse_float;
  py_sum := sum_floats;
  format_4f := fixed4 false;
  format_signed_4f := fixed4 true;
  py_format := format_value;
  py_round1 := round1;
  b64encode := b64;
  path_suffix := suffix;
  error_text := fun cls _ => class_name cls
|}.

(** A JSON answer with the given status. *)
Definition answer (status : Z) (body : pyval) : http_result :=
  Response {| status_code := status; text := []; json := Ok body |}.

(** The body of a tag listing with the given model names. *)
Definition listing (names : list pystr) : pyval :=
  PDict [ (lit "models",
           PList (map (fun n => PDict [ (lit "name", PStr n);
                                         (lit "size", PInt 1) ]) names)) ].

Definition is_path (url path : pystr) : bool :=
  Str.eqb (skipn (List.length url - List.length path) url) path.

(** An Ollama that lists [names], pulls nothing, and answers a vision
    request with [vision] and a text request with [text]; a station API
    that answers with [station]. *)
Definition serving (names : list pystr) (vision text station : http_result)
    : env := {|
  http := fun _ rq =>
    match rq with
    | GET url _ _ =>
      if is_path url (lit "/api/tags") then answer 200 (listing names)
      else station
    | POST url payload _ =>
      if is_path url (lit "/api/pull") then answer 500 PNone
      else match payload with
           | PDict d =>
             match dict_lookup d (lit "images") with
             | Some _ => vision
             | None => text
             end
           | _ => text
           end
    end;
  fs_write := fun _ _ _ => None;
  uuid4 := fun _ => lit "3f2b8c1e-7a4d-4e9b-9c0a-5d6e7f8091a2";
  now_isoformat := fun _ => lit "2025-01-01T00:00:00"
|}.

Definition generated (response : pystr) : http_result :=
  answer 200 (PDict [(lit "response", PStr response)]).

Definition all_models : list pystr :=
  [lit "moondream:latest"; lit "llama3.2:1b"; lit "llava:7b"; lit "llama3.2:3b"].

Definition png : UploadFile := {|
  content_type := Some (lit "image/png");
  filename := Some (lit "plot.png");
  content := [137; 80; 78; 71]%N
|}.

(** Three records: [de] is a number, null, an integer; [dn] is text. *)
Definition records : list pyval :=
  [ PDict [ (lit "timestamp", PStr (lit "2024-01-01"));
            (lit "de", PFloat 1.5); (lit "dn", PStr (lit "n/a"));
            (lit "lat", PFloat 18.8); (lit "lng", PFloat 98.9) ];
    PDict [ (lit "timestamp", PStr (lit "2024-01-02"));
            (lit "de", PNone); (lit "dn", PStr (lit "0.25")) ];
    PDict [ (lit "timestamp", PStr (lit "2024-01-03"));
            (lit "de", PInt 2); (lit "pdop", PFloat 1.25) ] ].

(** The digest of [records], empty if the summarizer raised. *)
Definition digest : pystr :=
  match _summarize_station_data builtins (PList records) (lit "CM01") with
  | Ok out => out
  | Raise _ => []
  end.

(** A listing with an entry that has no name. *)
Definition nameless_listing : http_response := {|
  status_code := 200;
  text := [];
  json := Ok (PDict [ (lit "models",
                       PList [ PDict [(lit "name", PStr (lit "llava:7b"))];
                               PDict [(lit "model", PStr (lit "llama3.2:3b"))] ]) ])
|}.

(** A service that gives every request the same result. *)
Definition always (result : http_result) : env := {|
  http := fun _ _ => result;
  fs_write := fun _ _ _ => None;
  uuid4 := fun _ => lit "3f2b8c1e-7a4d-4e9b-9c0a-5d6e7f8091a2";
  now_isoformat := fun _ => lit "2025-01-01T00:00:00"
|}.

(** An inference was requested in [w]. *)
Definition asked (w : world) : bool :=
  existsb (fun ev => match ev with
                     | EvHttp (POST url _ _) _ => is_path url (lit "/api/generate")
                     | _ => false
                     end) w.

(** [serving], with a text model that fails once it has answered. *)
Definition tiring (names : list pystr) (text station : http_result) : env := {|
  http := fun w rq =>
    if asked w then answer 500 PNone
    else http (serving names text text station) w rq;
  fs_write := fun _ _ _ => None;
  uuid4 := fun _ => lit "3f2b8c1e-7a4d-4e9b-9c0a-5d6e7f8091a2";
  now_isoformat := fun _ => lit "2025-01-01T00:00:00"
|}.

(** A record on the equator, and one with an integer beyond the floats. *)
Definition equator : pyval :=
  PDict [ (lit "timestamp", PStr (lit "2024-01-01"));
          (lit "de", PFloat 1.5);
          (lit "lat", PInt 0); (lit "lng", PFloat 98.9) ].

(** The digest of a record list, empty if the summarizer raised. *)
Definition digest_of (records : list pyval) : pystr :=
  match _summarize_station_data builtins (PList records) (lit "CM01") with
  | Ok out => out
  | Raise _ => []
  end.

(** The reading of a day of January 2024, and those of a week. *)
Definition reading (day : Z) : pyval :=
  PDict [ (lit "timestamp", PStr (lit "2024-01-0" ++ Str.of_Z day));
          (lit "de", PInt day); (lit "dh", PStr (lit "-0.5"));
          (lit "lat", PFloat 18.8); (lit "lng", PFloat 98.9) ].

Definition week_rest : list pyval := map reading [2; 3; 4; 5; 6; 7].

Definition huge : list pyval :=
  [ PDict [ (lit "timestamp", PStr (lit "2024-01-01"));
            (lit "de", PInt (2 ^ 1024)) ] ].

End Demo.

(** ** Facts about strings *)

Lemma eqb_eq (s t : pystr) : Str.eqb s t = true <-> s = t.
Proof.
  revert t. induction s as [|a s IH]; intros [|b t]; simpl; split;
    try congruence; try reflexivity.
  - rewrite andb_true_iff, N.eqb_eq, IH. intros [-> ->]. reflexivity.
  - intros H. injection H as -> ->. rewrite N.eqb_refl. simpl.
    apply IH. reflexivity.
Qed.

Lemma eqb_refl (s : pystr) : Str.eqb s s = true.
Proof. apply eqb_eq. reflexivity. Qed.

Lemma startswith_iff (s p : pystr) :
  startswith s p = true <-> exists rest, s = p ++ rest.
Proof.
  revert s. induction p as [|a p IH]; intros s.
  - destruct s; simpl; split; eauto.
  - destruct s as [|b s]; simpl.
    + split; [discriminate | intros [rest H]; discriminate].
    + rewrite andb_true_iff, N.eqb_eq, IH. split.
      * intros [-> [rest ->]]. eauto.
      * intros [rest H]. injection H as -> ->. eauto.
Qed.

Lemma contains_iff (s p : pystr) : contains s p = true <-> occurs_in p s.
Proof.
  unfold occurs_in. induction s as [|c s IH].
  - cbn [contains]. rewrite orb_false_r, startswith_iff. split.
    + intros [rest H]. exists [], rest. exact H.
    + intros [[|x before] [after H]]; [eauto | discriminate].
  - cbn [contains]. rewrite orb_true_iff, startswith_iff, IH. split.
    + intros [[rest H] | [before [after H]]].
      * exists [], rest. exact H.
      * exists (c :: before), after. rewrite H. reflexivity.
    + intros [[|x before] [after H]].
      * left. eauto.
      * right. injection H as -> ->. eauto.
Qed.

Lemma split_head_no_sep (sep : N) (s : pystr) :
  ~ In sep s -> split_head sep s = s.
Proof.
  induction s as [|c s IH]; simpl; intros H; [reflexivity|].
  destruct (N.eqb_spec c sep) as [->|_]; [tauto|].
  rewrite IH; tauto.
Qed.

Lemma split_head_at_sep (sep : N) (p rest : pystr) :
  ~ In sep p -> split_head sep (p ++ sep :: rest) = p.
Proof.
  induction p as [|c p IH]; simpl; intros H.
  - rewrite N.eqb_refl. reflexivity.
  - destruct (N.eqb_spec c sep) as [->|_]; [tauto|].
    rewrite IH; tauto.
Qed.

(** ** The availability check *)

Section CheckModel.
Context (B : Builtins) (cfg : config) (E : env).

Lemma names_of_entries (entries : list pyval) (names : list pystr) :
  Forall2 entry_named entries names ->
  map_res (fun m => getitem B m (lit "name")) entries = Ok (map PStr names).
Proof.
  induction 1 as [|entry n entries names [d [-> Hd]] _ IH]; [reflexivity|].
  cbn [map_res map]. unfold getitem at 1. rewrite Hd. cbn [Py.bind].
  rewrite IH. reflexivity.
Qed.

Lemma exact_entry_iff (model_name : pystr) (names : list pystr) :
  existsb (is_str model_name) (map PStr names) = true <-> In model_name names.
Proof.
  rewrite existsb_exists. split.
  - intros [v [Hin Hv]]. apply in_map_iff in Hin as [n [<- Hn]].
    simpl in Hv. apply eqb_eq in Hv. subst. exact Hn.
  - intros Hin. exists (PStr model_name). split.
    + apply in_map. exact Hin.
    + simpl. apply eqb_refl.
Qed.

Lemma any_entry_contains (p : pystr) (names : list pystr) :
  py_any (py_in B p) (map PStr names)
  = Ok (existsb (fun m => contains m p) names).
Proof.
  induction names as [|n names IH]; [reflexivity|].
  cbn [map py_any py_in Py.bind existsb].
  destruct (contains n p); [reflexivity | exact IH].
Qed.

Lemma check_ollama_model_listing (w : world) (model_name : pystr)
    (resp : http_response) (body : list (pystr * pyval))
    (names : list pystr) :
  http E w (tags_request cfg) = Response resp ->
  status_code resp = 200 ->
  json resp = Ok (PDict body) ->
  lists_models body names ->
  check_ollama_model B cfg E model_name w
  = (Ok (existsb (is_str model_name) (map PStr names)
         || existsb (fun m => contains m (split_head colon model_name)) names),
     w ++ [EvHttp (tags_request cfg) (Response resp)]).
Proof.
  intros Hhttp Hstatus Hjson [entries [Hmodels Hentries]].
  unfold check_ollama_model, try_except, World.bind, send.
  fold (tags_request cfg). rewrite Hhttp, Hstatus. cbn [Z.eqb Pos.eqb].
  unfold lift. rewrite Hjson. cbn [get Py.bind]. rewrite Hmodels.
  cbn [py_iter]. rewrite (names_of_entries Hentries).
  destruct (existsb (is_str model_name) (map PStr names)); cbn [orb].
  - reflexivity.
  - fold colon. rewrite any_entry_contains. reflexivity.
Qed.

End CheckModel.

(** C1 (amended).  When the tag-listing endpoint answers 200 with a
    listing of the model names [names], [check_ollama_model] returns
    without raising, after that one request, and it returns true exactly
    when the name is an entry of the listing or some listed entry
    contains the part of the name before its first colon.  For a name
    without a colon that part is the whole name, so such a name matches
    exactly when some listed entry contains it. *)
Theorem check_ollama_model_matches (B : Builtins) (cfg : config) (E : env)
    (w : world) (model_name : pystr) (resp : http_response)
    (body : list (pystr * pyval)) (names : list pystr) :
  http E w (tags_request cfg) = Response resp ->
  status_code resp = 200 ->
  json resp = Ok (PDict body) ->
  lists_models body names ->
  exists available : bool,
    check_ollama_model B cfg E model_name w
    = (Ok available, w ++ [EvHttp (tags_request cfg) (Response resp)]) /\
    (available = true <->
     In model_name names \/
     exists m, In m names /\ occurs_in (split_head colon model_name) m) /\
    (~ In colon model_name ->
     (available = true <-> exists m, In m names /\ occurs_in model_name m)).
Proof.
  intros Hhttp Hstatus Hjson Hlist.
  eexists. split; [eapply check_ollama_model_listing; eassumption|].
  assert (Hmatch : forall p,
    existsb (fun m => contains m p) names = true <->
    exists m, In m names /\ occurs_in p m).
  { intros p. rewrite existsb_exists.
    split; intros [m [Hin Hm]]; exists m; split; trivial;
      apply contains_iff; exact Hm. }
  split.
  - rewrite orb_true_iff, exact_entry_iff, Hmatch. reflexivity.
  - intros Hcolon. rewrite split_head_no_sep by exact Hcolon.
    rewrite orb_true_iff, exact_entry_iff, Hmatch. split.
    + intros [Hin | Hex]; [|exact Hex].
      exists model_name. split; [exact Hin|].
      exists [], []. rewrite app_nil_r. reflexivity.
    + intros Hex. right. exact Hex.
Qed.

Lemma check_ollama_model_matches_witness :
  exists available : bool,
    check_ollama_model Demo.builtins default_config
      (Demo.serving [lit "llava:7b"] (Failed (Exc OtherError []))
         (Failed (Exc OtherError [])) (Failed (Exc OtherError [])))
      (lit "llava:latest") []
    = (Ok available,
       [] ++ [EvHttp (tags_request default_config)
                (Demo.answer 200 (Demo.listing [lit "llava:7b"]))]) /\
    (available = true <->
     In (lit "llava:latest") [lit "llava:7b"] \/
     exists m, In m [lit "llava:7b"]
               /\ occurs_in (split_head colon (lit "llava:latest")) m) /\
    (~ In colon (lit "llava:latest") ->
     (available = true <->
      exists m, In m [lit "llava:7b"] /\ occurs_in (lit "llava:latest") m)).
Proof.
  apply (@check_ollama_model_matches Demo.builtins default_config _ []
           (lit "llava:latest") _
           [ (lit "models",
              PList [PDict [ (lit "name", PStr (lit "llava:7b"));
                             (lit "size", PInt 1) ]]) ]).
  - reflexivity.
  - reflexivity.
  - reflexivity.
  - eexists. split; [reflexivity|].
    constructor; [|constructor].
    eexists. split; reflexivity.
Defined.

(** C1 as stated fails: the colon-free name [llava] is no entry of the
    listing [llava:7b], and the check still answers true. *)
Lemma check_ollama_model_colon_free_counterexample :
  ~ In colon (lit "llava") /\
  ~ In (lit "llava") [lit "llava:7b"] /\
  fst (check_ollama_model Demo.builtins default_config
         (Demo.serving [lit "llava:7b"] (Failed (Exc OtherError []))
            (Failed (Exc OtherError [])) (Failed (Exc OtherError [])))
         (lit "llava") [])
  = Ok true.
Proof.
  split; [|split].
  - vm_compute. intuition discriminate.
  - vm_compute. intuition discriminate.
  - vm_compute. reflexivity.
Qed.

(** ** The events a run adds *)

Section Adds.
Context (E : env) (P : event -> Prop).

Lemma adds_ret {A} (a : A) : adds P (ret a).
Proof. intros w. exists []. rewrite app_nil_r. auto. Qed.

Lemma adds_throw {A} (e : pyexc) : adds P (@throw A e).
Proof. intros w. exists []. rewrite app_nil_r. auto. Qed.

Lemma adds_lift {A} (c : res A) : adds P (lift c).
Proof. intros w. exists []. rewrite app_nil_r. auto. Qed.

Lemma adds_bind {A C} (c : M A) (k : A -> M C) :
  adds P c -> (forall a, adds P (k a)) -> adds P (World.bind c k).
Proof.
  intros Hc Hk w. unfold World.bind.
  destruct (Hc w) as [evs [Hw Hevs]].
  destruct (c w) as [[a|e] w1]; simpl in Hw; subst w1.
  - destruct (Hk a (w ++ evs)) as [evs' [Hw' Hevs']].
    exists (evs ++ evs'). rewrite Hw', app_assoc. split; [reflexivity|].
    apply Forall_app. auto.
  - exists evs. auto.
Qed.

Lemma adds_try_except {A} (c : M A) (h : pyexc -> M A) :
  adds P c -> (forall e, adds P (h e)) -> adds P (try_except c h).
Proof.
  intros Hc Hh w. unfold try_except.
  destruct (Hc w) as [evs [Hw Hevs]].
  destruct (c w) as [[a|e] w1]; simpl in Hw; subst w1.
  - exists evs. auto.
  - destruct (Hh e (w ++ evs)) as [evs' [Hw' Hevs']].
    exists (evs ++ evs'). rewrite Hw', app_assoc. split; [reflexivity|].
    apply Forall_app. auto.
Qed.

Lemma adds_log (level : log_level) (msg : pystr) :
  P (EvLog level msg) -> adds P (log level msg).
Proof. intros H w. exists [EvLog level msg]. auto. Qed.

Lemma adds_send (rq : http_request) :
  (forall result, P (EvHttp rq result)) -> adds P (send E rq).
Proof.
  intros H w. exists [EvHttp rq (http E w rq)]. unfold send.
  destruct (http E w rq); auto.
Qed.

Lemma adds_write_file (path : pystr) (content : list N) :
  (forall failure, P (EvWrite path content failure)) ->
  adds P (write_file E path content).
Proof.
  intros H w. exists [EvWrite path content (fs_write E w path content)].
  unfold write_file. destruct (fs_write E w path content); auto.
Qed.

Lemma adds_fresh_uuid : (forall u, P (EvUuid u)) -> adds P (fresh_uuid E).
Proof. intros H w. exists [EvUuid (uuid4 E w)]. auto. Qed.

Lemma adds_now : (forall t, P (EvNow t)) -> adds P (now E).
Proof. intros H w. exists [EvNow (now_isoformat E w)]. auto. Qed.

End Adds.

(** Takes a run apart along its steps; what is left are the events. *)
Ltac adds_steps :=
  repeat first
    [ apply adds_ret | apply adds_throw | apply adds_lift
    | apply adds_bind | apply adds_try_except
    | apply adds_log | apply adds_send | apply adds_write_file
    | apply adds_fresh_uuid | apply adds_now
    | match goal with
      | |- forall _, _ => intro
      | |- adds _ (if ?b then _ else _) => destruct b
      | |- adds _ (match ?x with _ => _ end) => destruct x
      end ].

Section NoTextInference.
Context (B : Builtins) (cfg : config) (E : env).

Lemma quiet_log (level : log_level) (msg : pystr) : quiet cfg (EvLog level msg).
Proof. intros [payload [t [r [H _]]]]. discriminate. Qed.

Lemma quiet_get url params timeout result :
  quiet cfg (EvHttp (GET url params timeout) result).
Proof. intros [payload [t [r [H _]]]]. discriminate. Qed.

Lemma quiet_pull payload timeout result :
  quiet cfg (EvHttp (POST (OLLAMA_BASE_URL cfg ++ lit "/api/pull") payload timeout)
                result).
Proof.
  intros [payload' [t [r [H _]]]]. injection H as Hurl _ _ _.
  unfold generate_url in Hurl. apply app_inv_head in Hurl. discriminate.
Qed.

Lemma quiet_with_images url payload timeout result v :
  dict_lookup payload (lit "images") = Some v ->
  quiet cfg (EvHttp (POST url (PDict payload) timeout) result).
Proof.
  intros Hv [payload' [t [r [H Hnone]]]]. injection H as _ <- _ _.
  congruence.
Qed.

Lemma quiet_write path content failure : quiet cfg (EvWrite path content failure).
Proof. intros [payload [t [r [H _]]]]. discriminate. Qed.

Lemma quiet_uuid u : quiet cfg (EvUuid u).
Proof. intros [payload [t [r [H _]]]]. discriminate. Qed.

Lemma quiet_now t : quiet cfg (EvNow t).
Proof. intros [payload [t' [r [H _]]]]. discriminate. Qed.

Create HintDb quiet.
#[local] Hint Resolve quiet_log quiet_get quiet_pull quiet_write quiet_uuid quiet_now
  : quiet.

Lemma check_ollama_model_quiet (model_name : pystr) :
  adds (quiet cfg) (check_ollama_model B cfg E model_name).
Proof. unfold check_ollama_model. adds_steps; auto with quiet. Qed.

Lemma ensure_model_pulled_quiet (model_name : pystr) :
  adds (quiet cfg) (ensure_model_pulled B cfg E model_name).
Proof.
  unfold ensure_model_pulled.
  apply adds_bind; [apply check_ollama_model_quiet|].
  adds_steps; auto with quiet.
Qed.

Lemma chart_setup_quiet (file : UploadFile) (model_mode : pystr) :
  adds (quiet cfg) (chart_setup B cfg E file model_mode).
Proof.
  unfold chart_setup. destruct (negb (is_image file)); [apply adds_throw|].
  apply adds_bind; [apply ensure_model_pulled_quiet|]. intros vision_ready.
  destruct (negb vision_ready); [apply adds_throw|].
  apply adds_bind; [apply ensure_model_pulled_quiet|].
  adds_steps; auto with quiet.
Qed.

Lemma query_ollama_vision_quiet (image_base64 prompt : pystr)
    (model : option pystr) :
  adds (quiet cfg) (query_ollama_vision B cfg E image_base64 prompt model).
Proof.
  unfold query_ollama_vision. adds_steps; auto with quiet.
  all: eapply quiet_with_images; reflexivity.
Qed.

(** A guarded request is the first event of its run. *)
Lemma guarded_send_first {A} (rq : http_request) (k : http_response -> M A)
    (h : pyexc -> M A) (w : world) :
  (forall resp, adds (fun _ => True) (k resp)) ->
  (forall e, adds (fun _ => True) (h e)) ->
  exists rest,
    snd (try_except (World.bind (send E rq) k) h w)
    = w ++ EvHttp rq (http E w rq) :: rest.
Proof.
  intros Hk Hh. unfold try_except, World.bind, send.
  destruct (http E w rq) as [resp|e].
  - destruct (Hk resp (w ++ [EvHttp rq (Response resp)])) as [evs [Hw _]].
    destruct (k resp (w ++ [EvHttp rq (Response resp)])) as [[a|e] w1];
      cbn [snd] in Hw; subst w1.
    + exists evs. rewrite <- app_assoc. reflexivity.
    + destruct (Hh e ((w ++ [EvHttp rq (Response resp)]) ++ evs))
        as [evs' [-> _]].
      exists (evs ++ evs'). rewrite <- !app_assoc. reflexivity.
  - destruct (Hh e (w ++ [EvHttp rq (Failed e)])) as [evs [-> _]].
    exists evs. rewrite <- app_assoc. reflexivity.
Qed.

(** The request of [query_ollama_text] is a text inference. *)
Lemma query_ollama_text_sends (prompt : pystr) (model : option pystr)
    (num_ctx : Z) (w : world) :
  exists ev rest,
    snd (query_ollama_text B cfg E prompt model num_ctx w) = w ++ ev :: rest /\
    is_text_inference cfg ev.
Proof.
  unfold query_ollama_text. fold (generate_url cfg).
  match goal with
  | |- context [try_except (World.bind (send E ?rq) ?k) ?h] =>
    destruct (@guarded_send_first _ rq k h w) as [rest Hrest]
  end.
  - adds_steps; exact I.
  - adds_steps; exact I.
  - eexists. exists rest. split; [exact Hrest|].
    do 3 eexists. split; reflexivity.
Qed.

End NoTextInference.

(** ** The chart analysis flow *)

(** Case analysis on the next step of a run. *)
Ltac run_step :=
  match goal with
  | |- context [match ?c ?w with pair _ _ => _ end] =>
    match type of (c w) with
    | (res _ * world)%type =>
      let r := fresh "r" in
      let w' := fresh "w" in
      destruct (c w) as [[r|?] w']
    end
  end.

Lemma default_mode_found (B : Builtins) :
  modes_getitem B DEFAULT_MODEL_MODE = Ok moondream_mode.
Proof. reflexivity. Qed.

Section ChartFlow.
Context (B : Builtins) (cfg : config) (E : env).

Local Open Scope action_scope.

(** [analyze_chart] is its setup, its vision inference and its summary
    inference, in this order. *)
Lemma analyze_chart_phases (file : UploadFile) (language model_mode : pystr)
    (w : world) :
  analyze_chart B cfg E file language model_mode w
  = (ids <- chart_setup B cfg E file model_mode ;;
     description <- chart_vision B cfg E file language model_mode ;;
     match description with
     | PStr d =>
       if error_marked d then throw (HTTPException 503 d)
       else
         summary <- chart_summary B cfg E language model_mode d ;;
         match summary with
         | PStr s =>
           timestamp <- now E ;;
           ret (chart_response B file language model_mode (fst ids) (snd ids)
                  d (if error_marked s then fallback_summary d else s)
                  timestamp)
         | _ => lift (raise B AttributeError summary)
         end
     | _ => lift (raise B AttributeError description)
     end) w.
Proof.
  unfold analyze_chart, chart_setup, chart_vision, chart_summary.
  unfold World.bind at 1. unfold lift at 1.
  rewrite default_mode_found. fold (resolve_mode model_mode).
  fold (is_image file).
  destruct (is_image file); cbn [negb]; [|reflexivity].
  unfold World.bind.
  repeat (run_step; try reflexivity;
          repeat match goal with
                 | |- context [negb ?b] => is_var b; destruct b; cbn [negb]
                 end; try reflexivity).
Qed.

End ChartFlow.

Lemma adds_run {A} (P : event -> Prop) (c : M A) (w w' : world) (r : res A) :
  adds P c -> c w = (r, w') -> exists evs, w' = w ++ evs /\ Forall P evs.
Proof.
  intros Hc Hrun. destruct (Hc w) as [evs [Hw Hevs]].
  rewrite Hrun in Hw. exists evs. auto.
Qed.

Lemma error_marked_iff (s : pystr) :
  error_marked s = true <-> exists rest, s = lit "Error:" ++ rest.
Proof. apply startswith_iff. Qed.

Lemma is_image_iff (file : UploadFile) :
  is_image file = true <->
  exists ct rest, content_type file = Some ct /\ ct = lit "image/" ++ rest.
Proof.
  unfold is_image. destruct (content_type file) as [ct|].
  - rewrite startswith_iff. split.
    + intros [rest H]. eauto.
    + intros [ct' [rest [H1 H2]]]. injection H1 as <-. eauto.
  - split; [discriminate | intros [ct [rest [H _]]]; discriminate].
Qed.

Section ChartClaims.
Context (B : Builtins) (cfg : config) (E : env).

(** C8.  An upload whose content type is missing, or does not start with
    [image/], makes [analyze_chart] fail with status 400 and leaves the
    world as it was: no request was sent (no availability check, no
    pull, no inference) and no file was written. *)
Theorem analyze_chart_rejects_non_image (file : UploadFile)
    (language model_mode : pystr) (w : world) :
  (content_type file = None \/
   exists ct, content_type file = Some ct /\
              forall rest, ct <> lit "image/" ++ rest) ->
  analyze_chart B cfg E file language model_mode w
  = (Raise (HTTPException 400 (lit "Only image files are accepted.")), w).
Proof.
  intros Hct.
  assert (Himg : is_image file = false).
  { destruct (is_image file) eqn:Himg; [|reflexivity].
    apply is_image_iff in Himg as [ct [rest [Hsome Hprefix]]].
    destruct Hct as [Hnone | [ct' [Hsome' Hno]]]; [congruence|].
    rewrite Hsome in Hsome'. injection Hsome' as <-.
    destruct (Hno rest Hprefix). }
  rewrite analyze_chart_phases. unfold World.bind, chart_setup.
  rewrite Himg. reflexivity.
Qed.

(** C5.  When the vision inference of [analyze_chart] returns a string
    that starts with [Error:], the endpoint fails with status 503 and
    that string as detail; the world is the one the vision inference
    left, and no event of the whole request is a text inference. *)
Theorem analyze_chart_vision_error (file : UploadFile)
    (language model_mode : pystr) (w0 w1 w2 : world)
    (ids : pystr * pystr) (d : pystr) :
  chart_setup B cfg E file model_mode w0 = (Ok ids, w1) ->
  chart_vision B cfg E file language model_mode w1 = (Ok (PStr d), w2) ->
  (exists rest, d = lit "Error:" ++ rest) ->
  analyze_chart B cfg E file language model_mode w0
  = (Raise (HTTPException 503 d), w2) /\
  exists evs, w2 = w0 ++ evs /\
              Forall (fun ev => ~ is_text_inference cfg ev) evs.
Proof.
  intros Hsetup Hvision Hmarked. split.
  - rewrite analyze_chart_phases. unfold World.bind.
    rewrite Hsetup, Hvision.
    apply error_marked_iff in Hmarked. rewrite Hmarked. reflexivity.
  - destruct (@adds_run _ _ _ _ _ _
                 (chart_setup_quiet B cfg E file model_mode) Hsetup)
      as [evs1 [-> H1]].
    destruct (@adds_run _ _ _ _ _ _
                 (query_ollama_vision_quiet B cfg E _ _ _) Hvision)
      as [evs2 [-> H2]].
    exists (evs1 ++ evs2). rewrite app_assoc. split; [reflexivity|].
    apply Forall_app. split; assumption.
Qed.

(** C4.  When the vision inference of [analyze_chart] returns a string
    without the error marker and the lay-summary inference returns a
    string with it, the endpoint returns a response; its description is
    the vision result, and its summary is the first 300 characters of
    the description followed by [...] when the description is longer
    than 300 characters, and the description itself otherwise. *)
Theorem analyze_chart_summary_fallback (file : UploadFile)
    (language model_mode : pystr) (w0 w1 w2 w3 : world)
    (ids : pystr * pystr) (d s : pystr) :
  chart_setup B cfg E file model_mode w0 = (Ok ids, w1) ->
  chart_vision B cfg E file language model_mode w1 = (Ok (PStr d), w2) ->
  ~ (exists rest, d = lit "Error:" ++ rest) ->
  chart_summary B cfg E language model_mode d w2 = (Ok (PStr s), w3) ->
  (exists rest, s = lit "Error:" ++ rest) ->
  exists response w4,
    analyze_chart B cfg E file language model_mode w0 = (Ok response, w4) /\
    AnalysisResponse.description response = d /\
    ((300 < List.length d)%nat ->
     AnalysisResponse.summary response = firstn 300 d ++ lit "...") /\
    ((List.length d <= 300)%nat -> AnalysisResponse.summary response = d).
Proof.
  intros Hsetup Hvision Hclean Hsummary Hmarked.
  rewrite <- error_marked_iff in Hclean, Hmarked.
  apply not_true_is_false in Hclean.
  eexists. eexists. split.
  - rewrite analyze_chart_phases. unfold World.bind.
    rewrite Hsetup, Hvision, Hclean, Hsummary, Hmarked.
    unfold now, ret. reflexivity.
  - cbn [AnalysisResponse.description AnalysisResponse.summary chart_response].
    unfold fallback_summary. split; [reflexivity|]. split; intros Hlen.
    + apply Nat.ltb_lt in Hlen. rewrite Hlen. reflexivity.
    + apply Nat.ltb_ge in Hlen. rewrite Hlen. reflexivity.
Qed.

End ChartClaims.

Lemma analyze_chart_rejects_non_image_witness :
  analyze_chart Demo.builtins default_config
    (Demo.serving Demo.all_models (Demo.generated (lit "A chart."))
       (Demo.generated (lit "A summary.")) (Failed (Exc ConnectError [])))
    {| content_type := Some (lit "text/plain");
       filename := Some (lit "notes.txt");
       content := [104; 105]%N |}
    (lit "en") (lit "llava") []
  = (Raise (HTTPException 400 (lit "Only image files are accepted.")), []).
Proof.
  apply analyze_chart_rejects_non_image.
  right. eexists. split; [reflexivity|].
  intros rest H. vm_compute in H. discriminate.
Defined.

Lemma analyze_chart_vision_error_witness :
  exists w2,
    analyze_chart Demo.builtins default_config
      (Demo.serving Demo.all_models (Failed (Exc ConnectError []))
         (Demo.generated (lit "A summary.")) (Failed (Exc ConnectError [])))
      Demo.png (lit "en") (lit "llava") []
    = (Raise (HTTPException 503 ERROR_CANNOT_CONNECT), w2) /\
    exists evs, w2 = [] ++ evs /\
                Forall (fun ev => ~ is_text_inference default_config ev) evs.
Proof.
  set (E := Demo.serving Demo.all_models (Failed (Exc ConnectError []))
              (Demo.generated (lit "A summary."))
              (Failed (Exc ConnectError []))).
  set (setup := chart_setup Demo.builtins default_config E Demo.png
                  (lit "llava") []).
  exists (snd (chart_vision Demo.builtins default_config E Demo.png (lit "en")
                 (lit "llava") (snd setup))).
  apply (@analyze_chart_vision_error Demo.builtins default_config E Demo.png
           (lit "en") (lit "llava") [] (snd setup) _
           (lit "3f2b8c1e", lit "chart_3f2b8c1e.png") ERROR_CANNOT_CONNECT).
  - vm_compute. reflexivity.
  - vm_compute. reflexivity.
  - eexists. vm_compute. reflexivity.
Defined.

Lemma analyze_chart_summary_fallback_witness :
  exists response w4,
    analyze_chart Demo.builtins default_config
      (Demo.serving Demo.all_models (Demo.generated (lit "A chart."))
         (Demo.answer 500 PNone) (Failed (Exc ConnectError [])))
      Demo.png (lit "en") (lit "llava") []
    = (Ok response, w4) /\
    AnalysisResponse.description response = lit "A chart." /\
    ((300 < List.length (lit "A chart."))%nat ->
     AnalysisResponse.summary response = firstn 300 (lit "A chart.") ++ lit "...") /\
    ((List.length (lit "A chart.") <= 300)%nat ->
     AnalysisResponse.summary response = lit "A chart.").
Proof.
  set (E := Demo.serving Demo.all_models (Demo.generated (lit "A chart."))
              (Demo.answer 500 PNone) (Failed (Exc ConnectError []))).
  set (setup := chart_setup Demo.builtins default_config E Demo.png
                  (lit "llava") []).
  set (vision := chart_vision Demo.builtins default_config E Demo.png
                   (lit "en") (lit "llava") (snd setup)).
  set (summary := chart_summary Demo.builtins default_config E (lit "en")
                    (lit "llava") (lit "A chart.") (snd vision)).
  apply (@analyze_chart_summary_fallback Demo.builtins default_config E
           Demo.png (lit "en") (lit "llava") [] (snd setup) (snd vision)
           (snd summary) (lit "3f2b8c1e", lit "chart_3f2b8c1e.png")
           (lit "A chart.") (lit "Error: status 500")).
  - vm_compute. reflexivity.
  - vm_compute. reflexivity.
  - intros [rest H]. vm_compute in H. discriminate.
  - vm_compute. reflexivity.
  - eexists. vm_compute. reflexivity.
Defined.

(** ** The station data endpoint *)

Section StationData.
Context (cfg : config) (E : env).

(** C2 (amended).  [get_station_data] sends one request to the station
    API.  A connect failure makes it fail with status 502 and a timeout
    with status 504; an upstream answer whose status is not 200 makes it
    fail with that same upstream status; an upstream answer with status
    200 and a JSON body makes it return that body as it is.  In each of
    these cases the request is the only event. *)
Theorem get_station_data_outcomes (stat_code start_date end_date : pystr)
    (w : world) :
  let rq := station_request cfg stat_code start_date end_date in
  let run := get_station_data cfg E stat_code start_date end_date w in
  let sent := w ++ [EvHttp rq (http E w rq)] in
  (forall msg, http E w rq = Failed (Exc ConnectError msg) ->
     run = (Raise (HTTPException 502
                     (lit "Cannot connect to LandMOS API server.")), sent)) /\
  (forall msg, http E w rq = Failed (Exc TimeoutException msg) ->
     run = (Raise (HTTPException 504
                     (lit "LandMOS API request timed out.")), sent)) /\
  (forall resp, http E w rq = Response resp -> status_code resp <> 200 ->
     run = (Raise (HTTPException (status_code resp)
                     (lit "LandMOS API error: " ++ upstream_detail resp)),
            sent)) /\
  (forall resp body, http E w rq = Response resp -> status_code resp = 200 ->
     json resp = Ok body -> run = (Ok body, sent)).
Proof.
  intros rq run sent. subst run sent.
  unfold get_station_data, try_except, World.bind, send.
  fold (station_request cfg stat_code start_date end_date). fold rq.
  split; [|split; [|split]].
  - intros msg ->. reflexivity.
  - intros msg ->. reflexivity.
  - intros resp -> Hstatus.
    destruct (Z.eqb_spec (status_code resp) 200); [contradiction|reflexivity].
  - intros resp body -> Hstatus Hjson. rewrite Hstatus. cbn [Z.eqb Pos.eqb].
    unfold lift. rewrite Hjson. reflexivity.
Qed.

End StationData.

Lemma get_station_data_outcomes_witness :
  get_station_data default_config
    (Demo.serving [] (Failed (Exc OtherError []))
       (Failed (Exc OtherError []))
       (Demo.answer 200 (PList [PDict [(lit "de", PFloat 0.5)]])))
    (lit "CM01") [] [] []
  = (Ok (PList [PDict [(lit "de", PFloat 0.5)]]),
     [] ++ [EvHttp (station_request default_config (lit "CM01") [] [])
              (Demo.answer 200 (PList [PDict [(lit "de", PFloat 0.5)]]))]).
Proof.
  apply (get_station_data_outcomes default_config
           (Demo.serving [] (Failed (Exc OtherError []))
              (Failed (Exc OtherError []))
              (Demo.answer 200 (PList [PDict [(lit "de", PFloat 0.5)]])))
           (lit "CM01") [] [] [])
    with (resp := {| status_code := 200; text := [];
                     json := Ok (PList [PDict [(lit "de", PFloat 0.5)]]) |});
    reflexivity.
Defined.

(** C2 as stated fails: an upstream 404 makes the endpoint fail with 404,
    not with 502. *)
Lemma get_station_data_upstream_status_counterexample :
  fst (get_station_data default_config
         (Demo.serving [] (Failed (Exc OtherError []))
            (Failed (Exc OtherError [])) (Demo.answer 404 PNone))
         (lit "CM01") [] [] [])
  = Raise (HTTPException 404 (lit "LandMOS API error: status 404")) /\
  HTTPException 404 (lit "LandMOS API error: status 404")
  <> HTTPException 502 (lit "LandMOS API error: status 404").
Proof.
  split; [vm_compute; reflexivity | discriminate].
Qed.

(** ** The station analysis flow *)

Section StationFlow.
Context (B : Builtins) (cfg : config) (E : env).

Local Open Scope action_scope.

(** [analyze_station_data] is its setup and its two text inferences, in
    this order. *)
Lemma analyze_station_data_phases
    (stat_code start_date end_date language model_mode : pystr) (w : world) :
  analyze_station_data B cfg E stat_code start_date end_date language
    model_mode w
  = (fetched <- station_setup B cfg E stat_code start_date end_date
                  model_mode ;;
     description <- station_analysis B cfg E stat_code language model_mode
                      (snd fetched) ;;
     match description with
     | PStr d =>
       if error_marked d then throw (HTTPException 503 d)
       else
         summary <- station_summary B cfg E stat_code language model_mode d ;;
         match summary with
         | PStr s =>
           u <- fresh_uuid E ;;
           timestamp <- now E ;;
           ret (station_response stat_code start_date end_date language
                  model_mode (fst fetched) d
                  (if error_marked s then fallback_summary d else s)
                  (slice_to 8 u) timestamp)
         | _ => lift (raise B AttributeError summary)
         end
     | _ => lift (raise B AttributeError description)
     end) w.
Proof.
  unfold analyze_station_data, station_setup, station_analysis,
    station_summary, station_request.
  unfold World.bind at 1. unfold lift at 1.
  rewrite default_mode_found. fold (resolve_mode model_mode).
  unfold World.bind.
  repeat (run_step; try reflexivity;
          repeat match goal with
                 | |- context [negb ?b] => is_var b; destruct b; cbn [negb]
                 end; try reflexivity).
Qed.

(** X13.  A failed fetch ends [analyze_station_data] right after the
    request: a connect failure with status 502, a timeout with 504, and
    an upstream answer whose status is not 200 with 502 (where
    [get_station_data] passes the upstream status on). *)
Lemma analyze_station_data_fetch_failure
    (stat_code start_date end_date language model_mode : pystr)
    (w0 w1 : world) :
  let rq := station_request cfg stat_code start_date end_date in
  let run := analyze_station_data B cfg E stat_code start_date end_date
               language model_mode w0 in
  let sent := w1 ++ [EvHttp rq (http E w1 rq)] in
  ensure_model_pulled B cfg E (text_model (resolve_mode model_mode)) w0
  = (Ok true, w1) ->
  (forall msg, http E w1 rq = Failed (Exc ConnectError msg) ->
     run = (Raise (HTTPException 502
                     (lit "Cannot connect to LandMOS API server.")), sent)) /\
  (forall msg, http E w1 rq = Failed (Exc TimeoutException msg) ->
     run = (Raise (HTTPException 504
                     (lit "LandMOS API request timed out.")), sent)) /\
  (forall resp, http E w1 rq = Response resp -> status_code resp <> 200 ->
     run = (Raise (HTTPException 502
                     (lit "LandMOS API error: " ++ upstream_detail resp)),
            sent)).
Proof.
  intros rq run sent Hready. subst run sent.
  rewrite analyze_station_data_phases.
  unfold station_setup, World.bind, try_except, send. cbv beta.
  rewrite Hready. cbn [negb]. fold rq.
  split; [|split].
  - intros msg Hhttp. rewrite Hhttp. reflexivity.
  - intros msg Hhttp. rewrite Hhttp. reflexivity.
  - intros resp Hhttp Hstatus. rewrite Hhttp.
    destruct (Z.eqb_spec (status_code resp) 200); [contradiction|reflexivity].
Qed.

(** X15.  [analyze_station_data] has the fallback of [analyze_chart]:
    when its analysis inference returns a string without the error
    marker and its summary inference one with it, the response carries
    the analysis as description and, as summary, the description cut to
    300 characters and [...] when it is longer, the description itself
    otherwise. *)
Lemma analyze_station_data_summary_fallback
    (stat_code start_date end_date language model_mode : pystr)
    (w0 w1 w2 w3 : world) (fetched : pyval * pystr) (d s : pystr) :
  station_setup B cfg E stat_code start_date end_date model_mode w0
  = (Ok fetched, w1) ->
  station_analysis B cfg E stat_code language model_mode (snd fetched) w1
  = (Ok (PStr d), w2) ->
  error_marked d = false ->
  station_summary B cfg E stat_code language model_mode d w2
  = (Ok (PStr s), w3) ->
  error_marked s = true ->
  exists response w4,
    analyze_station_data B cfg E stat_code start_date end_date language
      model_mode w0 = (Ok response, w4) /\
    StationAnalysisResponse.description response = d /\
    StationAnalysisResponse.summary response = fallback_summary d.
Proof.
  intros Hsetup Hanalysis Hclean Hsummary Hmarked.
  eexists. eexists. split.
  - rewrite analyze_station_data_phases. unfold World.bind.
    rewrite Hsetup, Hanalysis, Hclean, Hsummary, Hmarked.
    unfold fresh_uuid, now, ret. reflexivity.
  - split; reflexivity.
Qed.

End StationFlow.

(** ** Answers without a response text *)

Section NoResponse.
Context (B : Builtins) (cfg : config) (E : env).

Lemma no_response_not_marked : error_marked NO_RESPONSE = false.
Proof. reflexivity. Qed.

Lemma query_ollama_vision_answer (image_base64 prompt : pystr)
    (model : option pystr) (w : world) (resp : http_response)
    (d : list (pystr * pyval)) (answer : pyval) :
  let rq := vision_request cfg image_base64 prompt model in
  http E w rq = Response resp -> status_code resp = 200 ->
  json resp = Ok (PDict d) -> dict_lookup d (lit "response") = Some answer ->
  query_ollama_vision B cfg E image_base64 prompt model w
  = (Ok answer, w ++ [EvHttp rq (Response resp)]).
Proof.
  intros rq Hhttp Hstatus Hjson Hanswer.
  unfold query_ollama_vision, try_except, World.bind, send, lift.
  fold (generate_url cfg). fold (vision_request cfg image_base64 prompt model).
  fold rq. rewrite Hhttp, Hstatus, Hjson. cbn [Z.eqb Pos.eqb get].
  rewrite Hanswer. reflexivity.
Qed.

Lemma query_ollama_text_answer (prompt : pystr) (model : option pystr)
    (num_ctx : Z) (w : world) (resp : http_response)
    (d : list (pystr * pyval)) (answer : pyval) :
  let rq := text_request cfg prompt model num_ctx in
  http E w rq = Response resp -> status_code resp = 200 ->
  json resp = Ok (PDict d) -> dict_lookup d (lit "response") = Some answer ->
  query_ollama_text B cfg E prompt model num_ctx w
  = (Ok answer, w ++ [EvHttp rq (Response resp)]).
Proof.
  intros rq Hhttp Hstatus Hjson Hanswer.
  unfold query_ollama_text, try_except, World.bind, send, lift.
  fold (generate_url cfg). fold (text_request cfg prompt model num_ctx).
  fold rq. rewrite Hhttp, Hstatus, Hjson. cbn [Z.eqb Pos.eqb get].
  rewrite Hanswer. reflexivity.
Qed.

Lemma query_ollama_vision_no_response (w : world)
    (image_base64 prompt : pystr) (model : option pystr)
    (resp : http_response) :
  let rq := vision_request cfg image_base64 prompt model in
  http E w rq = Response resp -> no_response_answer resp ->
  query_ollama_vision B cfg E image_base64 prompt model w
  = (Ok (PStr NO_RESPONSE), w ++ [EvHttp rq (Response resp)]).
Proof.
  intros rq Hhttp [Hstatus [d [Hjson Hnone]]].
  unfold query_ollama_vision, try_except, World.bind, send, lift.
  fold (generate_url cfg). fold (vision_request cfg image_base64 prompt model).
  fold rq. rewrite Hhttp, Hstatus, Hjson. cbn [Z.eqb Pos.eqb get].
  rewrite Hnone. reflexivity.
Qed.

Lemma query_ollama_text_no_response (w : world) (prompt : pystr)
    (model : option pystr) (num_ctx : Z) (resp : http_response) :
  let rq := text_request cfg prompt model num_ctx in
  http E w rq = Response resp -> no_response_answer resp ->
  query_ollama_text B cfg E prompt model num_ctx w
  = (Ok (PStr NO_RESPONSE), w ++ [EvHttp rq (Response resp)]).
Proof.
  intros rq Hhttp [Hstatus [d [Hjson Hnone]]].
  unfold query_ollama_text, try_except, World.bind, send, lift.
  fold (generate_url cfg). fold (text_request cfg prompt model num_ctx).
  fold rq. rewrite Hhttp, Hstatus, Hjson. cbn [Z.eqb Pos.eqb get].
  rewrite Hnone. reflexivity.
Qed.

Lemma query_ollama_vision_reads (w : world) (image_base64 prompt : pystr)
    (model : option pystr) (resp : http_response) (t : pystr) :
  let rq := vision_request cfg image_base64 prompt model in
  http E w rq = Response resp -> reads resp t ->
  query_ollama_vision B cfg E image_base64 prompt model w
  = (Ok (PStr t), w ++ [EvHttp rq (Response resp)]) /\
  error_marked t = false.
Proof.
  intros rq Hhttp [Hstatus [body [Hjson [Hclean [Hentry | [Hnone ->]]]]]];
    (split; [|exact Hclean]).
  - exact (query_ollama_vision_answer _ _ _ _ Hhttp Hstatus Hjson Hentry).
  - apply query_ollama_vision_no_response; [exact Hhttp|].
    split; [exact Hstatus|]. eauto.
Qed.

Lemma query_ollama_text_reads (w : world) (prompt : pystr)
    (model : option pystr) (num_ctx : Z) (resp : http_response) (t : pystr) :
  let rq := text_request cfg prompt model num_ctx in
  http E w rq = Response resp -> reads resp t ->
  query_ollama_text B cfg E prompt model num_ctx w
  = (Ok (PStr t), w ++ [EvHttp rq (Response resp)]) /\
  error_marked t = false.
Proof.
  intros rq Hhttp [Hstatus [body [Hjson [Hclean [Hentry | [Hnone ->]]]]]];
    (split; [|exact Hclean]).
  - exact (query_ollama_text_answer _ _ _ _ Hhttp Hstatus Hjson Hentry).
  - apply query_ollama_text_no_response; [exact Hhttp|].
    split; [exact Hstatus|]. eauto.
Qed.

(** C9.  An answer of the inference service with status 200 and no
    ["response"] entry makes [query_ollama_vision] and [query_ollama_text]
    return [No response generated.] after their one request; that string
    does not start with [Error:]; and the endpoints take it as the text
    of a successful inference.  Whichever of its two inferences is
    answered that way, and whatever text without the marker the other
    one is answered with, [analyze_chart] sends the vision request and
    then the summary request built from the description, and returns the
    response that carries the two texts as description and summary: the
    fixed string is neither turned into a failure nor replaced by the
    fallback summary.  [analyze_station_data] does the same with its
    analysis and summary inferences. *)
Theorem no_response_is_success :
  (forall w image_base64 prompt model resp,
     let rq := vision_request cfg image_base64 prompt model in
     http E w rq = Response resp -> no_response_answer resp ->
     query_ollama_vision B cfg E image_base64 prompt model w
     = (Ok (PStr (lit "No response generated.")),
        w ++ [EvHttp rq (Response resp)])) /\
  (forall w prompt model num_ctx resp,
     let rq := text_request cfg prompt model num_ctx in
     http E w rq = Response resp -> no_response_answer resp ->
     query_ollama_text B cfg E prompt model num_ctx w
     = (Ok (PStr (lit "No response generated.")),
        w ++ [EvHttp rq (Response resp)])) /\
  ~ (exists rest, lit "No response generated." = lit "Error:" ++ rest) /\
  (forall file language model_mode w0 ids w1 seen told d s,
     let mode := resolve_mode model_mode in
     let vision := vision_request cfg (b64encode B (content file))
                     (vision_prompt (chart_lang_instruction language))
                     (Some (vision_model mode)) in
     let text := text_request cfg
                   (chart_summary_prompt
                      (chart_summary_lang_instruction language) d)
                   (Some (text_model mode)) 2048 in
     let w2 := w1 ++ [EvHttp vision (Response seen)] in
     let w3 := w2 ++ [EvHttp text (Response told)] in
     chart_setup B cfg E file model_mode w0 = (Ok ids, w1) ->
     http E w1 vision = Response seen -> reads seen d ->
     http E w2 text = Response told -> reads told s ->
     analyze_chart B cfg E file language model_mode w0
     = (Ok (chart_response B file language model_mode (fst ids) (snd ids)
              d s (now_isoformat E w3)),
        w3 ++ [EvNow (now_isoformat E w3)])) /\
  (forall stat_code start_date end_date language model_mode w0 fetched w1
          seen told d s,
     let mode := resolve_mode model_mode in
     let analysis := text_request cfg
                       (analysis_prompt stat_code
                          (station_lang_instruction language) (snd fetched))
                       (Some (text_model mode)) 4096 in
     let summary := text_request cfg
                      (station_summary_prompt stat_code
                         (station_summary_lang language) d)
                      (Some (text_model mode)) 4096 in
     let w2 := w1 ++ [EvHttp analysis (Response seen)] in
     let w3 := w2 ++ [EvHttp summary (Response told)] in
     let u := uuid4 E w3 in
     let w4 := w3 ++ [EvUuid u] in
     station_setup B cfg E stat_code start_date end_date model_mode w0
     = (Ok fetched, w1) ->
     http E w1 analysis = Response seen -> reads seen d ->
     http E w2 summary = Response told -> reads told s ->
     analyze_station_data B cfg E stat_code start_date end_date language
       model_mode w0
     = (Ok (station_response stat_code start_date end_date language
              model_mode (fst fetched) d s (slice_to 8 u)
              (now_isoformat E w4)),
        w4 ++ [EvNow (now_isoformat E w4)])).
Proof.
  split; [|split; [|split; [|split]]].
  - intros. apply query_ollama_vision_no_response; assumption.
  - intros. apply query_ollama_text_no_response; assumption.
  - rewrite <- error_marked_iff. fold NO_RESPONSE.
    rewrite no_response_not_marked. discriminate.
  - intros file language model_mode w0 ids w1 seen told d s mode vision text
      w2 w3 Hsetup Hseen Hd Htold Hs.
    subst w3 w2 text vision mode.
    destruct (query_ollama_vision_reads _ _ _ _ Hseen Hd) as [Hvision Hd_ok].
    destruct (query_ollama_text_reads _ _ _ _ Htold Hs) as [Htext Hs_ok].
    rewrite analyze_chart_phases. unfold World.bind at 1. rewrite Hsetup.
    unfold World.bind at 1. unfold chart_vision. rewrite Hvision, Hd_ok.
    unfold World.bind at 1. unfold chart_summary. rewrite Htext, Hs_ok.
    reflexivity.
  - intros stat_code start_date end_date language model_mode w0 fetched w1
      seen told d s mode analysis summary w2 w3 u w4 Hsetup Hseen Hd Htold Hs.
    subst w4 u w3 w2 summary analysis mode.
    destruct (query_ollama_text_reads _ _ _ _ Hseen Hd) as [Hanalysis Hd_ok].
    destruct (query_ollama_text_reads _ _ _ _ Htold Hs) as [Hsummary Hs_ok].
    rewrite analyze_station_data_phases. unfold World.bind at 1.
    rewrite Hsetup.
    unfold World.bind at 1. unfold station_analysis.
    rewrite Hanalysis, Hd_ok.
    unfold World.bind at 1. unfold station_summary.
    rewrite Hsummary, Hs_ok. reflexivity.
Qed.

End NoResponse.

Lemma no_response_is_success_witness :
  let silent := Demo.answer 200 (PDict [(lit "done", PBool true)]) in
  let chart_E := Demo.serving Demo.all_models
                   (Demo.generated (lit "A chart.")) silent
                   (Failed (Exc ConnectError [])) in
  let station_E := Demo.serving Demo.all_models silent silent
                     (Demo.answer 200 (PList Demo.records)) in
  let vision := vision_request default_config
                  (b64encode Demo.builtins (content Demo.png))
                  (vision_prompt (chart_lang_instruction (lit "en")))
                  (Some (lit "llava:7b")) in
  let text := text_request default_config
                (chart_summary_prompt (chart_summary_lang_instruction (lit "en"))
                   (lit "A chart."))
                (Some (lit "llama3.2:3b")) 2048 in
  let analysis := text_request default_config
                    (analysis_prompt (lit "CM01")
                       (station_lang_instruction (lit "en")) Demo.digest)
                    (Some (lit "llama3.2:3b")) 4096 in
  let summary := text_request default_config
                   (station_summary_prompt (lit "CM01")
                      (station_summary_lang (lit "en"))
                      (lit "No response generated."))
                   (Some (lit "llama3.2:3b")) 4096 in
  let chart_w1 := snd (chart_setup Demo.builtins default_config chart_E
                         Demo.png (lit "llava") []) in
  let station_w1 := snd (station_setup Demo.builtins default_config station_E
                           (lit "CM01") [] [] (lit "llava") []) in
  analyze_chart Demo.builtins default_config chart_E Demo.png (lit "en")
    (lit "llava") []
  = (Ok (chart_response Demo.builtins Demo.png (lit "en") (lit "llava")
           (lit "3f2b8c1e") (lit "chart_3f2b8c1e.png")
           (lit "A chart.") (lit "No response generated.")
           (lit "2025-01-01T00:00:00")),
     ((chart_w1 ++ [EvHttp vision (Demo.generated (lit "A chart."))])
      ++ [EvHttp text silent])
     ++ [EvNow (lit "2025-01-01T00:00:00")]) /\
  analyze_station_data Demo.builtins default_config station_E (lit "CM01")
    [] [] (lit "en") (lit "llava") []
  = (Ok (station_response (lit "CM01") [] [] (lit "en") (lit "llava")
           (PList Demo.records) (lit "No response generated.")
           (lit "No response generated.") (lit "3f2b8c1e")
           (lit "2025-01-01T00:00:00")),
     (((station_w1 ++ [EvHttp analysis silent]) ++ [EvHttp summary silent])
      ++ [EvUuid (lit "3f2b8c1e-7a4d-4e9b-9c0a-5d6e7f8091a2")])
     ++ [EvNow (lit "2025-01-01T00:00:00")]).
Proof.
  intros silent chart_E station_E vision text analysis summary chart_w1
    station_w1.
  pose proof (@no_response_is_success Demo.builtins default_config chart_E)
    as [_ [_ [_ [Hchart _]]]].
  pose proof (@no_response_is_success Demo.builtins default_config station_E)
    as [_ [_ [_ [_ Hstation]]]].
  set (quiet_resp := {| status_code := 200; text := [];
                        json := Ok (PDict [(lit "done", PBool true)]) |}).
  set (chart_resp := {| status_code := 200; text := [];
                        json := Ok (PDict [(lit "response",
                                            PStr (lit "A chart."))]) |}).
  assert (Hsilent : reads quiet_resp (lit "No response generated.")).
  { split; [reflexivity|]. eexists. split; [reflexivity|].
    split; [reflexivity|]. right. split; reflexivity. }
  assert (Hseen : reads chart_resp (lit "A chart.")).
  { split; [reflexivity|]. eexists. split; [reflexivity|].
    split; [reflexivity|]. left. reflexivity. }
  split.
  - rewrite (Hchart Demo.png (lit "en") (lit "llava") []
               (lit "3f2b8c1e", lit "chart_3f2b8c1e.png") chart_w1
               chart_resp quiet_resp
               (lit "A chart.") (lit "No response generated.")).
    + vm_compute. reflexivity.
    + vm_compute. reflexivity.
    + vm_compute. reflexivity.
    + exact Hseen.
    + vm_compute. reflexivity.
    + exact Hsilent.
  - rewrite (Hstation (lit "CM01") [] [] (lit "en") (lit "llava") []
               (PList Demo.records, Demo.digest) station_w1
               quiet_resp quiet_resp
               (lit "No response generated.") (lit "No response generated.")).
    + vm_compute. reflexivity.
    + vm_compute. reflexivity.
    + vm_compute. reflexivity.
    + exact Hsilent.
    + vm_compute. reflexivity.
    + exact Hsilent.
Defined.

(** ** Unrecognized model modes *)

Lemma unknown_mode_lookup (model_mode : pystr) :
  ~ In model_mode (map fst MODEL_MODES) ->
  modes_lookup MODEL_MODES model_mode = None.
Proof.
  intros Hnot. unfold MODEL_MODES in *. cbn [modes_lookup map fst In] in *.
  destruct (Str.eqb (lit "moondream") model_mode) eqn:H1.
  { apply eqb_eq in H1. tauto. }
  destruct (Str.eqb (lit "llava") model_mode) eqn:H2.
  { apply eqb_eq in H2. tauto. }
  reflexivity.
Qed.

Lemma adds_ext {A} (P : event -> Prop) (c c' : M A) :
  (forall w, c w = c' w) -> adds P c' -> adds P c.
Proof. intros Hsame Hc w. rewrite Hsame. apply Hc. Qed.

(** Settles that an event names the default models only. *)
Ltac default_only :=
  let rq := fresh "rq" in
  let result := fresh "result" in
  let H := fresh "H" in
  intros rq result H;
  first
    [ discriminate H
    | injection H as <- <-;
      first [ left; reflexivity
            | right; left; reflexivity
            | right; right; left; reflexivity
            | right; right; right; left; do 2 eexists; reflexivity
            | right; right; right; right; eexists; reflexivity ] ].

Section UnknownMode.
Context (B : Builtins) (cfg : config) (E : env).

Lemma unknown_mode_resolved (model_mode : pystr) :
  ~ In model_mode (map fst MODEL_MODES) ->
  resolve_mode model_mode = moondream_mode.
Proof.
  intros Hunknown. unfold resolve_mode.
  rewrite (unknown_mode_lookup Hunknown). reflexivity.
Qed.

Lemma analyze_chart_default_only (file : UploadFile)
    (language model_mode : pystr) :
  ~ In model_mode (map fst MODEL_MODES) ->
  adds (default_models_only cfg)
       (analyze_chart B cfg E file language model_mode).
Proof.
  intros Hunknown.
  eapply adds_ext; [intros w; apply analyze_chart_phases|].
  unfold chart_setup, chart_vision, chart_summary, ensure_model_pulled,
    check_ollama_model, query_ollama_vision, query_ollama_text.
  rewrite (unknown_mode_resolved Hunknown).
  adds_steps; default_only.
Qed.

(** C10.  With a [model_mode] that is no key of [MODEL_MODES],
    [analyze_chart] runs with the default mode's models and reports the
    requested key.  Every request of every run is the listing, the pull
    of [moondream] or of [llama3.2:1b], the vision inference on
    [moondream] or the summary inference on [llama3.2:1b].  The model
    that is checked first is [moondream]: when it cannot be made ready,
    the run fails with status 503 and a detail that names it.  When it
    is ready, whatever the check of [llama3.2:1b] gives, and the file is
    stored, the run sends the vision request with [moondream] and then
    the summary request with [llama3.2:1b], and for answers without the
    error marker returns a response with their texts.  Every response
    reports the requested key in [details.model_mode], next to the names
    of the two default models. *)
Theorem analyze_chart_unknown_mode (file : UploadFile)
    (language model_mode : pystr) (w0 : world) :
  ~ In model_mode (map fst MODEL_MODES) ->
  let run := analyze_chart B cfg E file language model_mode w0 in
  (exists evs,
     snd run = w0 ++ evs /\ Forall (default_models_only cfg) evs) /\
  (forall w1,
     is_image file = true ->
     ensure_model_pulled B cfg E (lit "moondream") w0 = (Ok false, w1) ->
     run = (Raise (HTTPException 503
                     (lit "Vision model 'moondream' is not available and could not be pulled. Please check that Ollama is running and has enough resources.")),
            w1)) /\
  (forall w1 w2 text_ready seen told d s,
     let warned :=
       w2 ++ (if text_ready : bool then []
              else [EvLog WARNING
                      (lit "Text model 'llama3.2:1b' not available, will attempt anyway")]) in
     let u := uuid4 E warned in
     let stored :=
       lit "chart_" ++ slice_to 8 u
       ++ str_or (Some (path_suffix B (str_or (filename file) (lit "chart.png"))))
                 (lit ".png") in
     let path := UPLOAD_DIR ++ lit "/" ++ stored in
     let w3 := warned ++ [EvUuid u; EvWrite path (content file) None] in
     let vision := vision_request cfg (b64encode B (content file))
                     (vision_prompt (chart_lang_instruction language))
                     (Some (lit "moondream")) in
     let text := text_request cfg
                   (chart_summary_prompt
                      (chart_summary_lang_instruction language) d)
                   (Some (lit "llama3.2:1b")) 2048 in
     let w4 := w3 ++ [EvHttp vision (Response seen)] in
     let w5 := w4 ++ [EvHttp text (Response told)] in
     is_image file = true ->
     ensure_model_pulled B cfg E (lit "moondream") w0 = (Ok true, w1) ->
     ensure_model_pulled B cfg E (lit "llama3.2:1b") w1
     = (Ok text_ready, w2) ->
     fs_write E (warned ++ [EvUuid u]) path (content file) = None ->
     http E w3 vision = Response seen -> reads seen d ->
     http E w4 text = Response told -> reads told s ->
     exists response,
       run = (Ok response, w5 ++ [EvNow (now_isoformat E w5)]) /\
       AnalysisResponse.description response = d /\
       AnalysisResponse.summary response = s /\
       AnalysisResponse.filename response = stored /\
       ChartDetails.model_mode (AnalysisResponse.details response)
       = model_mode /\
       ChartDetails.vision_model (AnalysisResponse.details response)
       = lit "moondream" /\
       ChartDetails.text_model (AnalysisResponse.details response)
       = lit "llama3.2:1b") /\
  (forall response w',
     run = (Ok response, w') ->
     ChartDetails.model_mode (AnalysisResponse.details response)
     = model_mode /\
     ChartDetails.vision_model (AnalysisResponse.details response)
     = lit "moondream" /\
     ChartDetails.text_model (AnalysisResponse.details response)
     = lit "llama3.2:1b").
Proof.
  intros Hunknown run. subst run.
  pose proof (unknown_mode_resolved Hunknown) as Hmode.
  split; [|split; [|split]].
  - destruct (analyze_chart_default_only file language Hunknown w0)
      as [evs [Hw Hevs]].
    eauto.
  - intros w1 Himage Hvision.
    rewrite analyze_chart_phases. unfold World.bind at 1.
    unfold chart_setup. rewrite Himage, Hmode. cbn [negb].
    unfold World.bind at 1.
    change (vision_model moondream_mode) with (lit "moondream").
    rewrite Hvision. cbn [negb].
    assert (Hdetail :
      lit "Vision model '" ++ lit "moondream"
      ++ lit "' is not available and could not be pulled. "
      ++ lit "Please check that Ollama is running and has enough resources."
      = lit "Vision model 'moondream' is not available and could not be pulled. Please check that Ollama is running and has enough resources.")
      by (vm_compute; reflexivity).
    rewrite Hdetail. reflexivity.
  - intros w1 w2 text_ready seen told d s warned u stored path w3 vision text
      w4 w5 Himage Hvision Htext Hwrite Hseen Hd Htold Hs.
    assert (Hsetup : chart_setup B cfg E file model_mode w0
                     = (Ok (slice_to 8 u, stored), w3)).
    { assert (Hwarning :
        lit "Text model '" ++ lit "llama3.2:1b"
        ++ lit "' not available, will attempt anyway"
        = lit "Text model 'llama3.2:1b' not available, will attempt anyway")
        by (vm_compute; reflexivity).
      unfold chart_setup. rewrite Himage, Hmode. cbn [negb].
      unfold World.bind at 1.
      change (vision_model moondream_mode) with (lit "moondream").
      rewrite Hvision. cbn [negb]. unfold World.bind at 1.
      change (text_model moondream_mode) with (lit "llama3.2:1b").
      rewrite Htext, Hwarning.
      subst w3 path stored u warned.
      destruct text_ready; cbn [negb];
        unfold World.bind, log, emit, ret, fresh_uuid, write_file;
        cbv beta zeta; rewrite ?app_nil_r in *;
        rewrite <- ?app_assoc in *; cbn [app] in *;
        rewrite Hwrite; reflexivity. }
    destruct (@query_ollama_vision_reads B cfg E w3 (b64encode B (content file))
                (vision_prompt (chart_lang_instruction language))
                (Some (lit "moondream")) seen d Hseen Hd)
      as [Hvision_run Hd_ok].
    destruct (@query_ollama_text_reads B cfg E w4
                (chart_summary_prompt
                   (chart_summary_lang_instruction language) d)
                (Some (lit "llama3.2:1b")) 2048 told s Htold Hs)
      as [Htext_run Hs_ok].
    eexists. split.
    + rewrite analyze_chart_phases. unfold World.bind at 1. rewrite Hsetup.
      unfold World.bind at 1. unfold chart_vision. rewrite Hmode.
      change (vision_model moondream_mode) with (lit "moondream").
      fold vision in Hvision_run. fold w4 in Hvision_run.
      rewrite Hvision_run, Hd_ok.
      unfold World.bind at 1. unfold chart_summary. rewrite Hmode.
      change (text_model moondream_mode) with (lit "llama3.2:1b").
      fold text in Htext_run. fold w5 in Htext_run.
      rewrite Htext_run, Hs_ok. unfold World.bind, now, ret. reflexivity.
    + unfold chart_response. rewrite Hmode. cbn. auto 10.
  - intros response w' Hrun. rewrite analyze_chart_phases in Hrun.
    revert Hrun. unfold World.bind, chart_response. rewrite Hmode.
    repeat (run_step; try discriminate;
            repeat match goal with
                   | |- context [match ?v with PStr _ => _ | _ => _ end] =>
                     is_var v; destruct v
                   | |- context [if error_marked ?d then _ else _] =>
                     destruct (error_marked d)
                   end; try discriminate).
    all: unfold ret; intros H; injection H as <- _; cbn; auto.
Qed.

End UnknownMode.

Lemma analyze_chart_unknown_mode_witness :
  let E := Demo.serving Demo.all_models (Demo.generated (lit "A chart."))
             (Demo.generated (lit "A summary."))
             (Failed (Exc ConnectError [])) in
  let w1 := snd (ensure_model_pulled Demo.builtins default_config E
                   (lit "moondream") []) in
  let w2 := snd (ensure_model_pulled Demo.builtins default_config E
                   (lit "llama3.2:1b") w1) in
  let vision := vision_request default_config
                  (b64encode Demo.builtins (content Demo.png))
                  (vision_prompt (chart_lang_instruction (lit "en")))
                  (Some (lit "moondream")) in
  let text := text_request default_config
                (chart_summary_prompt (chart_summary_lang_instruction (lit "en"))
                   (lit "A chart."))
                (Some (lit "llama3.2:1b")) 2048 in
  exists response,
    analyze_chart Demo.builtins default_config E Demo.png (lit "en")
      (lit "turbo") []
    = (Ok response,
       w2 ++ [ EvUuid (lit "3f2b8c1e-7a4d-4e9b-9c0a-5d6e7f8091a2");
               EvWrite (UPLOAD_DIR ++ lit "/" ++ lit "chart_3f2b8c1e.png")
                 (content Demo.png) None;
               EvHttp vision (Demo.generated (lit "A chart."));
               EvHttp text (Demo.generated (lit "A summary."));
               EvNow (lit "2025-01-01T00:00:00") ]) /\
    AnalysisResponse.description response = lit "A chart." /\
    AnalysisResponse.summary response = lit "A summary." /\
    AnalysisResponse.filename response = lit "chart_3f2b8c1e.png" /\
    ChartDetails.model_mode (AnalysisResponse.details response)
    = lit "turbo" /\
    ChartDetails.vision_model (AnalysisResponse.details response)
    = lit "moondream" /\
    ChartDetails.text_model (AnalysisResponse.details response)
    = lit "llama3.2:1b".
Proof.
  intros E w1 w2 vision text.
  assert (Hunknown : ~ In (lit "turbo") (map fst MODEL_MODES))
    by (vm_compute; intuition discriminate).
  pose proof (@analyze_chart_unknown_mode Demo.builtins default_config E
                Demo.png (lit "en") (lit "turbo") [] Hunknown)
    as [_ [_ [Hrun _]]].
  destruct (Hrun w1 w2 true
              {| status_code := 200; text := [];
                 json := Ok (PDict [(lit "response", PStr (lit "A chart."))]) |}
              {| status_code := 200; text := [];
                 json := Ok (PDict [(lit "response", PStr (lit "A summary."))]) |}
              (lit "A chart.") (lit "A summary."))
    as [response [Hresponse Hfields]].
  - reflexivity.
  - vm_compute. reflexivity.
  - vm_compute. reflexivity.
  - reflexivity.
  - vm_compute. reflexivity.
  - split; [reflexivity|]. eexists. split; [reflexivity|].
    split; [reflexivity|]. left. reflexivity.
  - vm_compute. reflexivity.
  - split; [reflexivity|]. eexists. split; [reflexivity|].
    split; [reflexivity|]. left. reflexivity.
  - exists response. split; [|exact Hfields].
    rewrite Hresponse. f_equal.
Defined.

(** ** The station data summarizer *)

Section SummarizerFacts.
Context (B : Builtins).

(** C6.  On an empty record list, on a wrapper with neither a
    ["records"] nor a ["data"] key, and on a wrapper whose record list
    is empty, [_summarize_station_data] returns, without raising, the
    notice made of the station code and [No data records found.]. *)
Theorem summarize_no_data (station_data : pyval) (stat_code : pystr) :
  (station_data = PList [] \/
   exists d, station_data = PDict d /\
             absent_or_empty d (lit "records") /\
             absent_or_empty d (lit "data")) ->
  _summarize_station_data B station_data stat_code
  = Ok (lit "Station: " ++ stat_code ++ nl ++ lit "No data records found.").
Proof.
  intros [-> | [d [-> [Hrecords Hdata]]]]; [reflexivity|].
  unfold _summarize_station_data. cbn [get Py.bind].
  assert (Hfalsy : forall key, absent_or_empty d key ->
    truthy (match dict_lookup d key with Some v => v | None => PNone end)
    = false).
  { intros key [-> | [v [-> Hv]]]; [reflexivity | exact Hv]. }
  unfold py_or. rewrite (Hfalsy _ Hrecords), (Hfalsy _ Hdata).
  reflexivity.
Qed.

End SummarizerFacts.

Lemma summarize_no_data_witness :
  _summarize_station_data Demo.builtins
    (PDict [(lit "status", PStr (lit "ok")); (lit "data", PList [])])
    (lit "CM01")
  = Ok (lit "Station: " ++ lit "CM01" ++ nl ++ lit "No data records found.").
Proof.
  apply summarize_no_data. right. eexists. split; [reflexivity|]. split.
  - left. reflexivity.
  - right. eexists. split; reflexivity.
Defined.

Section StatsFacts.
Context (B : Builtins).

Lemma collect_vals_rounds (records : list pyval) (key : pystr)
    (acc : list float) :
  for_each records
    (fun vals r =>
       catch stats_caught
         (let* v := getitem B r key in
          let* f := py_float B v in
          Ok (vals ++ [f]))%res
         (Ok vals))
    acc
  = for_each (map (field B key) records) (stats_round B) acc.
Proof.
  revert acc. induction records as [|r records IH]; intros acc;
    [reflexivity|].
  cbn [for_each map].
  replace (catch stats_caught _ (Ok acc))
    with (stats_round B acc (field B key r)).
  - destruct (stats_round B acc (field B key r)); [apply IH | reflexivity].
  - unfold stats_round, field.
    destruct r as [| | | | | |d]; try reflexivity.
    cbn [getitem]. destruct (dict_lookup d key); reflexivity.
Qed.

Lemma stats_round_cases (key : pystr) (vals : list float) (r : pyval) :
  (stats_round B vals (field B key r)
   = Ok (match field_value B key r with
         | Some f => vals ++ [f]
         | None => vals
         end) /\ ~ overflows B key r) \/
  (exists e, stats_round B vals (field B key r) = Raise e /\ overflows B key r).
Proof.
  unfold field_value, overflows, stats_round.
  destruct (field B key r) as [v|].
  - destruct v as [|b|z|f|s|l|d]; cbn [py_float].
    + left. split; [reflexivity|]. intros [z [H _]]. discriminate.
    + left. split; [reflexivity|]. intros [z [H _]]. discriminate.
    + destruct (float_of_Z z) as [f|] eqn:Hz.
      * left. split; [reflexivity|]. intros [z' [H Hz']].
        injection H as <-. congruence.
      * right. eexists. split; [reflexivity|]. exists z. auto.
    + left. split; [reflexivity|]. intros [z [H _]]. discriminate.
    + left. split.
      * destruct (float_of_str B s); reflexivity.
      * intros [z [H _]]. discriminate.
    + left. split; [reflexivity|]. intros [z [H _]]. discriminate.
    + left. split; [reflexivity|]. intros [z [H _]]. discriminate.
  - left. split; [reflexivity|]. intros [z [H _]]. discriminate.
Qed.

Lemma collect_vals_from (key : pystr) (records : list pyval)
    (acc vals : list float) :
  for_each (map (field B key) records) (stats_round B) acc = Ok vals ->
  vals = acc ++ valid_values B key records /\
  Forall (fun r => ~ overflows B key r) records.
Proof.
  revert acc. induction records as [|r records IH]; intros acc Hrun.
  - injection Hrun as <-. rewrite app_nil_r. auto.
  - cbn [map for_each valid_values] in *.
    destruct (stats_round_cases key acc r) as [[Hround Hfits] | [e [Hround _]]];
      rewrite Hround in Hrun; [|discriminate].
    cbn [Py.bind] in Hrun. apply IH in Hrun as [-> Hrest].
    split; [|constructor; assumption].
    destruct (field_value B key r); [|reflexivity].
    rewrite <- app_assoc. reflexivity.
Qed.

Lemma collect_vals_total (key : pystr) (records : list pyval)
    (acc : list float) :
  Forall (fun r => ~ overflows B key r) records ->
  for_each (map (field B key) records) (stats_round B) acc
  = Ok (acc ++ valid_values B key records).
Proof.
  intros Hfit. revert acc.
  induction Hfit as [|r records Hr _ IH]; intros acc.
  - cbn. rewrite app_nil_r. reflexivity.
  - cbn [map for_each valid_values].
    destruct (stats_round_cases key acc r) as [[Hround _] | [e [_ Hover]]];
      [|contradiction].
    rewrite Hround. cbn [Py.bind]. rewrite IH.
    destruct (field_value B key r); [|reflexivity].
    rewrite <- app_assoc. reflexivity.
Qed.

Lemma valid_values_app (key : pystr) (xs ys : list pyval) :
  valid_values B key (xs ++ ys) = valid_values B key xs ++ valid_values B key ys.
Proof.
  induction xs as [|r xs IH]; [reflexivity|].
  cbn [app valid_values]. destruct (field_value B key r); rewrite IH;
    reflexivity.
Qed.

Lemma valid_values_rev (key : pystr) (records : list pyval) :
  valid_values B key (rev records) = rev (valid_values B key records).
Proof.
  induction records as [|r records IH]; [reflexivity|].
  cbn [rev valid_values]. rewrite valid_values_app, IH.
  cbn [valid_values]. destruct (field_value B key r); cbn [rev];
    [reflexivity | apply app_nil_r].
Qed.

Lemma first_valid_head (key : pystr) (records : list pyval) :
  first_valid B key records = hd_error (valid_values B key records).
Proof.
  induction records as [|r records IH]; [reflexivity|].
  cbn [first_valid valid_values]. destruct (field_value B key r);
    [reflexivity | exact IH].
Qed.

Lemma last_valid_last (key : pystr) (records : list pyval) (v0 : float)
    (rest : list float) :
  valid_values B key records = v0 :: rest ->
  last_valid B key records = Some (last (v0 :: rest) v0).
Proof.
  intros Hvals. unfold last_valid.
  rewrite first_valid_head, valid_values_rev, Hvals.
  destruct (exists_last (l := v0 :: rest)) as [front [x Hx]]; [discriminate|].
  rewrite Hx, rev_app_distr, last_last. reflexivity.
Qed.


(** The line [_stats] gives, from the field's valid subsequence. *)
Lemma stats_line (records : list pyval) (key label line : pystr) :
  _stats B records key label = Ok (Some line) ->
  exists v0 rest mn mx avg,
    valid_values B key records = v0 :: rest /\
    line = label ++ lit ": min=" ++ format_4f B mn
           ++ lit ", max=" ++ format_4f B mx
           ++ lit ", mean=" ++ format_4f B avg
           ++ lit ", total_change="
           ++ format_signed_4f B (last (v0 :: rest) v0 - v0)%float.
Proof.
  intros Hstats.
  unfold _stats, collect_vals in Hstats. rewrite collect_vals_rounds in Hstats.
  destruct (for_each (map (field B key) records) (stats_round B) [])
    as [vals|e] eqn:Hvals; [|discriminate].
  apply collect_vals_from in Hvals as [Hvals _]. cbn [app] in Hvals.
  cbn [Py.bind] in Hstats.
  destruct vals as [|v0 rest]; [discriminate|].
  injection Hstats as <-.
  exists v0, rest. do 3 eexists. split; [symmetry; exact Hvals | reflexivity].
Qed.


(** [_stats] raises only on an integer too large for a float, and gives
    no line only when no record holds a valid number. *)
Lemma stats_defined (records : list pyval) (key label : pystr) :
  Forall (fun r => ~ overflows B key r) records ->
  match first_valid B key records with
  | Some _ => exists line, _stats B records key label = Ok (Some line)
  | None => _stats B records key label = Ok None
  end.
Proof.
  intros Hfit. unfold _stats, collect_vals.
  rewrite collect_vals_rounds, (@collect_vals_total key records [] Hfit).
  cbn [app Py.bind]. rewrite first_valid_head.
  destruct (valid_values B key records); cbn [hd_error]; eauto.
Qed.

End StatsFacts.

(** ** The lines of the digest *)

(** Settles [plain] for a line that starts with a fixed text. *)
Ltac plain_by_prefix :=
  let key := fresh "key" in
  let Hkey := fresh "Hkey" in
  let rest := fresh "rest" in
  let H := fresh "H" in
  intros key Hkey [rest H];
  cbv [STATS_KEYS DISPLACEMENT_KEYS QUALITY_KEYS app In] in Hkey;
  repeat (destruct Hkey as [<-|Hkey]; [vm_compute in H; discriminate|]);
  exact Hkey.

Section LinesFacts.
Context (B : Builtins).

Lemma plain_station (x : pystr) : plain (lit "Station: " ++ x).
Proof. plain_by_prefix. Qed.

Lemma plain_total (x : pystr) : plain (lit "Total data points: " ++ x).
Proof. plain_by_prefix. Qed.

Lemma plain_time_range (x : pystr) : plain (lit "Time range: " ++ x).
Proof. plain_by_prefix. Qed.

Lemma plain_location (x : pystr) : plain (lit "Location: lat=" ++ x).
Proof. plain_by_prefix. Qed.

Lemma plain_heading (x : pystr) : plain (nl ++ x).
Proof. plain_by_prefix. Qed.

Lemma plain_row (x : pystr) : plain (lit "  " ++ x).
Proof. plain_by_prefix. Qed.

Lemma plain_last3 : plain (lit "Last 3 records:").
Proof. plain_by_prefix. Qed.

Lemma plain_no_data : plain (lit "No data records found.").
Proof. plain_by_prefix. Qed.

(** The label tells the field. *)
Lemma stats_line_key (key key' line : pystr) :
  In key STATS_KEYS -> In key' STATS_KEYS ->
  is_stats_line key line -> is_stats_line key' line -> key = key'.
Proof.
  intros Hkey Hkey' [rest ->] [rest' H].
  cbv [STATS_KEYS DISPLACEMENT_KEYS QUALITY_KEYS app In] in Hkey, Hkey'.
  repeat (destruct Hkey as [<-|Hkey]);
    repeat (destruct Hkey' as [<-|Hkey']);
    try reflexivity; try contradiction;
    vm_compute in H; discriminate.
Qed.

Lemma first_valid_exists (key : pystr) (records : list pyval) :
  first_valid B key records <> None <->
  exists r, In r records /\ field_value B key r <> None.
Proof.
  induction records as [|r records IH]; cbn [first_valid].
  - split; [congruence | intros [r [[] _]]].
  - destruct (field_value B key r) as [f|] eqn:Hr.
    + split; [|congruence]. intros _. exists r. split; [left; reflexivity|].
      congruence.
    + rewrite IH. split.
      * intros [r' [Hin Hr']]. exists r'. split; [right|]; assumption.
      * intros [r' [[<-|Hin] Hr']]; [congruence|]. eauto.
Qed.

(** What [_stats] returns, in terms of the field's valid records. *)
Lemma stats_cases (records : list pyval) (key : pystr) (stat : option pystr) :
  _stats B records key (label_of key) = Ok stat ->
  match stat with
  | Some line =>
    is_stats_line key line /\ line <> [] /\ first_valid B key records <> None
  | None => first_valid B key records = None
  end.
Proof.
  intros Hstats. destruct stat as [line|].
  - apply stats_line in Hstats as [v0 [rest [mn [mx [avg [Hvals ->]]]]]].
    split; [eexists; reflexivity|]. split;
      [|rewrite first_valid_head, Hvals; discriminate].
    intros Hempty. apply app_eq_nil in Hempty as [_ Hempty].
    vm_compute in Hempty. discriminate.
  - unfold _stats, collect_vals in Hstats.
    rewrite collect_vals_rounds in Hstats.
    destruct (for_each (map (field B key) records) (stats_round B) [])
      as [vals|e] eqn:Hvals; [|discriminate].
    apply collect_vals_from in Hvals as [-> _]. cbn [app Py.bind] in Hstats.
    rewrite first_valid_head.
    destruct (valid_values B key records); [reflexivity|discriminate].
Qed.

(** The lines a loop over field keys appends. *)
Lemma append_stats_lines (records : list pyval) (keys : list pystr)
    (lines0 lines : list pystr) :
  append_stats B records keys lines0 = Ok lines ->
  exists added,
    lines = lines0 ++ added /\
    (forall line, In line added ->
       exists key, In key keys /\
                   _stats B records key (label_of key) = Ok (Some line) /\
                   is_stats_line key line /\
                   first_valid B key records <> None) /\
    (forall key, In key keys -> first_valid B key records <> None ->
       exists line, In line added /\ is_stats_line key line).
Proof.
  unfold append_stats. revert lines0.
  induction keys as [|k keys IH]; intros lines0 Hrun; cbn [for_each] in Hrun.
  - injection Hrun as <-. exists []. rewrite app_nil_r.
    split; [reflexivity|]. split; intros ? [].
  - fold (label_of k) in Hrun.
    destruct (_stats B records k (label_of k)) as [stat|e] eqn:Hrun_k;
      [|discriminate].
    pose proof Hrun_k as Hstat.
    apply stats_cases in Hstat. cbn [Py.bind] in Hrun.
    destruct stat as [[|c line]|].
    + destruct Hstat as [_ [Hne _]]. congruence.
    + destruct Hstat as [Hline [_ Hvalid]]. cbn [Py.bind] in Hrun.
      apply IH in Hrun as [added [-> [Hfrom Hto]]].
      exists ((c :: line) :: added). rewrite <- app_assoc.
      split; [reflexivity|]. split.
      * intros l [<-|Hin].
        -- exists k. split; [left; reflexivity|]. auto.
        -- destruct (Hfrom l Hin) as [key [Hkey H]]. exists key.
           split; [right; exact Hkey | exact H].
      * intros key [<-|Hkey] Hv.
        -- exists (c :: line). split; [left; reflexivity | exact Hline].
        -- destruct (Hto key Hkey Hv) as [l [Hin Hl]]. exists l.
           split; [right; exact Hin | exact Hl].
    + cbn [Py.bind] in Hrun.
      apply IH in Hrun as [added [-> [Hfrom Hto]]].
      exists added. split; [reflexivity|]. split.
      * intros l Hin. destruct (Hfrom l Hin) as [key [Hkey H]]. exists key.
        split; [right; exact Hkey | exact H].
      * intros key [<-|Hkey] Hv; [congruence|]. auto.
Qed.

(** The lines a loop over sample records appends. *)
Lemma append_rows_lines (sample_keys : list pystr) (rows : list pyval)
    (lines0 lines : list pystr) :
  append_rows B sample_keys rows lines0 = Ok lines ->
  exists added, lines = lines0 ++ added /\ Forall plain added.
Proof.
  unfold append_rows. revert lines0.
  induction rows as [|r rows IH]; intros lines0 Hrun; cbn [for_each] in Hrun.
  - injection Hrun as <-. exists []. rewrite app_nil_r. auto.
  - destruct (sample_row B sample_keys r) as [row|e]; [|discriminate].
    cbn [Py.bind] in Hrun. apply IH in Hrun as [added [-> Hplain]].
    exists ((lit "  " ++ row) :: added). rewrite <- app_assoc.
    split; [reflexivity|]. constructor; [apply plain_row | exact Hplain].
Qed.

End LinesFacts.

Section DigestClaims.
Context (B : Builtins).

(** The digest is plain lines around the statistics lines of the two
    loops. *)
Lemma summary_lines_shape (records : list pyval) (stat_code : pystr)
    (lines : list pystr) :
  summary_lines B records stat_code = Ok lines ->
  exists head displacement middle quality tail,
    lines = head ++ displacement ++ middle ++ quality ++ tail /\
    Forall plain head /\ Forall plain middle /\ Forall plain tail /\
    append_stats B records DISPLACEMENT_KEYS head = Ok (head ++ displacement) /\
    append_stats B records QUALITY_KEYS (head ++ displacement ++ middle)
    = Ok (head ++ displacement ++ middle ++ quality).
Proof.
  intros H. unfold summary_lines in H.
  repeat match type of H with
         | Py.bind ?c _ = Ok _ =>
           let E := fresh "E" in
           destruct c eqn:E; cbn [Py.bind] in H; [|discriminate]
         end.
  match type of E5 with
  | append_stats _ _ _ ?h = _ => set (head := h) in *
  end.
  assert (Hhead : Forall plain head).
  { subst head. apply Forall_app. split.
    - destruct (truthy a3 && truthy a4);
        repeat (apply Forall_app; split);
        repeat constructor;
        first [ apply plain_station | apply plain_total
              | apply plain_time_range | apply plain_location ].
    - repeat constructor. apply plain_heading. }
  pose proof E5 as HD. apply append_stats_lines in HD as [displacement [-> _]].
  pose proof E6 as HQ. apply append_stats_lines in HQ as [quality [-> _]].
  apply append_rows_lines in E7 as [rows [-> Hrows]].
  set (middle := [nl ++ lit "--- Data Quality ---"]) in *.
  set (first3 := [nl ++ lit "First 3 records (timestamp, de, dn, dh):"]) in *.
  assert (Hmiddle : Forall plain middle)
    by (repeat constructor; apply plain_heading).
  assert (Hfirst3 : Forall plain first3)
    by (repeat constructor; apply plain_heading).
  destruct (6 <? List.length records)%nat.
  - apply append_rows_lines in H as [rows' [-> Hrows']].
    exists head, displacement, middle, quality,
      (first3 ++ rows ++ [lit "Last 3 records:"] ++ rows').
    repeat rewrite <- app_assoc in *. split; [reflexivity|].
    repeat split; try assumption.
    repeat (apply Forall_app; split); try assumption.
    repeat constructor. apply plain_last3.
  - injection H as <-.
    exists head, displacement, middle, quality, (first3 ++ rows).
    repeat rewrite <- app_assoc in *. split; [reflexivity|].
    repeat split; try assumption.
    apply Forall_app. split; assumption.
Qed.

(** A statistics line of the digest is the line [_stats] gives for its
    field, and every line [_stats] gives is in the digest. *)
Lemma digest_stats_line (records : list pyval) (stat_code : pystr)
    (lines : list pystr) (key : pystr) :
  summary_lines B records stat_code = Ok lines ->
  In key STATS_KEYS ->
  (forall line, In line lines -> is_stats_line key line ->
     _stats B records key (label_of key) = Ok (Some line)) /\
  (first_valid B key records <> None ->
     exists line, In line lines /\ is_stats_line key line).
Proof.
  intros Hlines Hkey.
  apply summary_lines_shape in Hlines
    as [head [displacement [middle [quality [tail
         [-> [Hhead [Hmiddle [Htail [HD HQ]]]]]]]]]].
  apply append_stats_lines in HD as [added [Hadded [HDfrom HDto]]].
  apply app_inv_head in Hadded. subst added.
  apply append_stats_lines in HQ as [added [Hadded [HQfrom HQto]]].
  rewrite !app_assoc in Hadded. apply app_inv_head in Hadded. subst added.
  split.
  - intros line Hin Hline.
    assert (Hplain : forall part, Forall plain part -> ~ In line part).
    { intros part Hpart Hmem. rewrite Forall_forall in Hpart.
      exact (Hpart line Hmem key Hkey Hline). }
    assert (Hsame : forall key', In key' STATS_KEYS ->
              is_stats_line key' line ->
              _stats B records key' (label_of key') = Ok (Some line) ->
              _stats B records key (label_of key) = Ok (Some line)).
    { intros key' Hkey' Hline' Hstats.
      rewrite (stats_line_key (line := line) Hkey Hkey' Hline Hline').
      exact Hstats. }
    apply in_app_or in Hin as [Hin|Hin];
      [destruct (Hplain head Hhead Hin)|].
    apply in_app_or in Hin as [Hin|Hin];
      [|apply in_app_or in Hin as [Hin|Hin];
        [destruct (Hplain middle Hmiddle Hin)|];
        apply in_app_or in Hin as [Hin|Hin];
        [|destruct (Hplain tail Htail Hin)]].
    + destruct (HDfrom line Hin) as [key' [Hkey' [Hstats [Hline' _]]]].
      apply (Hsame key'); try assumption.
      apply in_or_app. left. exact Hkey'.
    + destruct (HQfrom line Hin) as [key' [Hkey' [Hstats [Hline' _]]]].
      apply (Hsame key'); try assumption.
      apply in_or_app. right. exact Hkey'.
  - intros Hvalid. apply in_app_or in Hkey as [Hkey|Hkey].
    + destruct (HDto key Hkey Hvalid) as [line [Hin Hline]].
      exists line. split; [|exact Hline].
      apply in_or_app. right. apply in_or_app. left. exact Hin.
    + destruct (HQto key Hkey Hvalid) as [line [Hin Hline]].
      exists line. split; [|exact Hline].
      do 3 (apply in_or_app; right). apply in_or_app. left. exact Hin.
Qed.

(** C7.  For every record list, the digest [_summarize_station_data]
    returns is lines joined by newlines, and for each field of the two
    statistics blocks these lines hold a statistics line of the field
    exactly when some record holds a valid number for the field: without
    such a record the line is left out, with one it is there. *)
Theorem stats_line_iff_valid (records : list pyval) (stat_code out : pystr) :
  _summarize_station_data B (PList records) stat_code = Ok out ->
  exists lines,
    out = join nl lines /\
    (records <> [] -> summary_lines B records stat_code = Ok lines) /\
    forall key, In key STATS_KEYS ->
      ((exists line, In line lines /\ is_stats_line key line) <->
       (exists r, In r records /\ field_value B key r <> None)).
Proof.
  intros Hout. destruct records as [|r0 records].
  - injection Hout as <-.
    exists [lit "Station: " ++ stat_code; lit "No data records found."].
    split; [cbn [join]; rewrite <- app_assoc; reflexivity|].
    split; [congruence|]. intros key Hkey. split.
    + intros [line [[<-|[<-|[]]] Hline]].
      * destruct (@plain_station stat_code key Hkey Hline).
      * destruct (plain_no_data Hkey Hline).
    + intros [r [[] _]].
  - unfold _summarize_station_data in Hout. cbn [Py.bind truthy negb] in Hout.
    destruct (summary_lines B (r0 :: records) stat_code) as [lines|e] eqn:Hlines;
      [|discriminate].
    injection Hout as <-. exists lines. split; [reflexivity|].
    split; [intros _; reflexivity|]. intros key Hkey.
    destruct (@digest_stats_line _ _ _ key Hlines Hkey) as [Hfrom Hto].
    rewrite <- first_valid_exists. split.
    + intros [line [Hin Hline]].
      apply (Hfrom line Hin) in Hline. apply stats_cases in Hline.
      apply Hline.
    + exact Hto.
Qed.

(** The [total_change] of a statistics line of the digest: the last
    valid number of its field minus the first. *)
Corollary digest_total_change (records : list pyval) (stat_code : pystr)
    (lines : list pystr) (key line : pystr) :
  summary_lines B records stat_code = Ok lines ->
  In key STATS_KEYS -> In line lines -> is_stats_line key line ->
  exists first last mn mx avg,
    first_valid B key records = Some first /\
    last_valid B key records = Some last /\
    line = label_of key ++ lit ": min=" ++ format_4f B mn
           ++ lit ", max=" ++ format_4f B mx
           ++ lit ", mean=" ++ format_4f B avg
           ++ lit ", total_change="
           ++ format_signed_4f B (last - first)%float.
Proof.
  intros Hlines Hkey Hin Hline.
  destruct (@digest_stats_line _ _ _ key Hlines Hkey) as [Hfrom _].
  apply (Hfrom line Hin) in Hline.
  apply stats_line in Hline as [v0 [rest [mn [mx [avg [Hvals ->]]]]]].
  exists v0, (last (v0 :: rest) v0), mn, mx, avg. split; [|split].
  - rewrite first_valid_head, Hvals. reflexivity.
  - apply last_valid_last. exact Hvals.
  - reflexivity.
Qed.

End DigestClaims.

(** ** When the summarizer returns *)

Section SummarizerReturns.
Context (B : Builtins).

Lemma sample_row_object (sample_keys : list pystr) (d : list (pystr * pyval)) :
  exists row, sample_row B sample_keys (PDict d) = Ok row.
Proof.
  unfold sample_row.
  assert (H : forall parts, exists parts',
    for_each sample_keys
      (fun parts k =>
         let* present := py_in B k (PDict d) in
         if present
         then let* v := get B (PDict d) k (PStr []) in
              Ok (parts ++ [k ++ lit "=" ++ fmt B v])
         else Ok parts)%res parts = Ok parts').
  { induction sample_keys as [|k keys IH]; intros parts; cbn [for_each].
    - eauto.
    - cbn [py_in get Py.bind]. destruct (dict_lookup d k); cbn [Py.bind]; apply IH. }
  destruct (H []) as [parts ->]. cbn [Py.bind]. eauto.
Qed.

Lemma append_rows_objects (sample_keys : list pystr) (rows : list pyval)
    (lines0 : list pystr) :
  Forall is_object rows ->
  exists lines, append_rows B sample_keys rows lines0 = Ok lines.
Proof.
  intros Hrows. revert lines0. unfold append_rows.
  induction Hrows as [|r rows [d ->] _ IH]; intros lines0; cbn [for_each].
  - eauto.
  - destruct (sample_row_object sample_keys d) as [row ->]. cbn [Py.bind].
    apply IH.
Qed.

Lemma append_stats_total (records : list pyval) (keys : list pystr)
    (lines0 : list pystr) :
  (forall key, In key keys -> Forall (fun r => ~ overflows B key r) records) ->
  exists lines, append_stats B records keys lines0 = Ok lines.
Proof.
  unfold append_stats. revert lines0.
  induction keys as [|k keys IH]; intros lines0 Hfit; cbn [for_each].
  - eauto.
  - assert (Hk := stats_defined (labels_get LANDMOS_FIELD_LABELS k k)
                    (Hfit k (or_introl eq_refl))).
    destruct (first_valid B k records).
    + destruct Hk as [line ->]. cbn [Py.bind].
      destruct line; cbn [Py.bind]; apply IH; intros; apply Hfit; right; assumption.
    + rewrite Hk. cbn [Py.bind]. apply IH. intros; apply Hfit; right; assumption.
Qed.

Lemma Forall_parts {A} (P : A -> Prop) (n : nat) (l : list A) :
  Forall P l -> Forall P (firstn n l) /\ Forall P (skipn n l).
Proof.
  intros H. rewrite <- (firstn_skipn n l) in H. apply Forall_app in H.
  exact H.
Qed.

Lemma summary_lines_total (records : list pyval) (stat_code : pystr) :
  records <> [] ->
  Forall is_object records ->
  (forall key, In key STATS_KEYS ->
     Forall (fun r => ~ overflows B key r) records) ->
  exists lines, summary_lines B records stat_code = Ok lines.
Proof.
  intros Hne Hobj Hfit. unfold summary_lines.
  assert (Hfirst : exists d, list_first records = Some (PDict d)).
  { destruct records as [|r rest]; [congruence|].
    inversion Hobj as [|? ? [d ->] _]. exists d. reflexivity. }
  assert (Hlast : exists d, list_last records = Some (PDict d)).
  { unfold list_last. destruct records as [|r rest] eqn:Hr; [congruence|].
    rewrite <- Hr in *.
    destruct (nth_error records (List.length records - 1)) as [x|] eqn:Hx.
    - apply nth_error_In in Hx. rewrite Forall_forall in Hobj.
      destruct (Hobj x Hx) as [d ->]. eauto.
    - apply nth_error_None in Hx. rewrite Hr in Hx. cbn in Hx. lia. }
  destruct Hfirst as [d0 ->]. destruct Hlast as [dn ->].
  cbn [index_error get Py.bind].
  match goal with
  | |- context [append_stats B records DISPLACEMENT_KEYS ?h] =>
    destruct (@append_stats_total records DISPLACEMENT_KEYS h) as [l1 ->]
  end.
  { intros key Hkey. apply Hfit. apply in_or_app. left. exact Hkey. }
  cbn [Py.bind].
  match goal with
  | |- context [append_stats B records QUALITY_KEYS ?h] =>
    destruct (@append_stats_total records QUALITY_KEYS h) as [l2 ->]
  end.
  { intros key Hkey. apply Hfit. apply in_or_app. right. exact Hkey. }
  cbn [Py.bind].
  match goal with
  | |- context [append_rows B ?ks (firstn 3 records) ?h] =>
    destruct (@append_rows_objects ks (firstn 3 records) h) as [l3 ->]
  end.
  { apply Forall_parts. exact Hobj. }
  cbn [Py.bind].
  destruct (6 <? List.length records)%nat; [|eauto].
  apply append_rows_objects.
  apply Forall_parts. exact Hobj.
Qed.

(** X17.  On records that are objects and hold no integer beyond the
    range of a float in a statistics field, [_summarize_station_data]
    returns a digest: it does not raise. *)
Theorem summarize_returns (records : list pyval) (stat_code : pystr) :
  Forall is_object records ->
  (forall key, In key STATS_KEYS ->
     Forall (fun r => ~ overflows B key r) records) ->
  exists out, _summarize_station_data B (PList records) stat_code = Ok out.
Proof.
  intros Hobj Hfit. destruct records as [|r records]; [cbn; eauto|].
  unfold _summarize_station_data. cbn [Py.bind truthy negb].
  destruct (@summary_lines_total (r :: records) stat_code) as [lines ->];
    try assumption; [discriminate|].
  cbn [Py.bind]. eauto.
Qed.

(** A wrapper whose ["records"] list is empty is summarized from its
    ["data"] list when that one holds records. *)
Remark summarize_falls_back_to_data (r : pyval) (rest : list pyval)
    (stat_code : pystr) :
  _summarize_station_data B
    (PDict [(lit "records", PList []); (lit "data", PList (r :: rest))])
    stat_code
  = _summarize_station_data B (PList (r :: rest)) stat_code.
Proof. reflexivity. Qed.

End SummarizerReturns.


Lemma stats_line_iff_valid_witness :
  exists lines,
    Demo.digest = join nl lines /\
    (Demo.records <> [] ->
     summary_lines Demo.builtins Demo.records (lit "CM01") = Ok lines) /\
    forall key, In key STATS_KEYS ->
      ((exists line, In line lines /\ is_stats_line key line) <->
       (exists r, In r Demo.records
                  /\ field_value Demo.builtins key r <> None)).
Proof.
  apply (@stats_line_iff_valid Demo.builtins Demo.records (lit "CM01")).
  vm_compute. reflexivity.
Defined.

(** * Further properties of the code *)

(** ** The gateway never raises *)

Lemma returns_ret {A} (a : A) : returns (ret a).
Proof. intros w. unfold ret. eauto. Qed.

Lemma returns_bind {A C} (c : M A) (k : A -> M C) :
  returns c -> (forall a, returns (k a)) -> returns (World.bind c k).
Proof.
  intros Hc Hk w. unfold World.bind. destruct (Hc w) as [a [w1 ->]].
  apply Hk.
Qed.

Lemma returns_try_except {A} (c : M A) (h : pyexc -> M A) :
  (forall e, returns (h e)) -> returns (try_except c h).
Proof.
  intros Hh w. unfold try_except. destruct (c w) as [[a|e] w1];
    [eauto | apply Hh].
Qed.

Lemma returns_log (level : log_level) (msg : pystr) : returns (log level msg).
Proof. intros w. unfold log, emit. eauto. Qed.

Lemma map_res_raises {A C} (f : A -> res C) (xs : list A) (x : A) :
  In x xs -> (forall y, f x <> Ok y) -> exists e, map_res f xs = Raise e.
Proof.
  induction xs as [|x' xs IH]; intros Hin Hx; [destruct Hin|].
  cbn [map_res]. destruct (f x') as [y|e] eqn:Hfx; [|cbn; eauto].
  destruct Hin as [->|Hin]; [destruct (Hx y Hfx)|].
  destruct (IH Hin Hx) as [e ->]. cbn. eauto.
Qed.

Section GatewaySafety.
Context (B : Builtins) (cfg : config) (E : env).

Lemma check_ollama_model_returns (model_name : pystr) :
  returns (check_ollama_model B cfg E model_name).
Proof.
  unfold check_ollama_model. apply returns_try_except. intros e.
  apply returns_bind; [apply returns_log | intros _; apply returns_ret].
Qed.

(** X1.  [check_ollama_model] never raises, and every failure of the
    listing request makes it answer false: a transport failure and an
    unreadable body after the failure is logged, a status other than 200
    silently.  The request is sent once. *)
Theorem check_ollama_model_failures (model_name : pystr) (w : world) :
  let rq := tags_request cfg in
  let run := check_ollama_model B cfg E model_name w in
  (exists available w', run = (Ok available, w')) /\
  (forall e, http E w rq = Failed e ->
     run = (Ok false,
            w ++ [EvHttp rq (Failed e); check_error_log model_name e])) /\
  (forall resp, http E w rq = Response resp -> status_code resp <> 200 ->
     run = (Ok false, w ++ [EvHttp rq (Response resp)])) /\
  (forall resp e, http E w rq = Response resp -> status_code resp = 200 ->
     json resp = Raise e ->
     run = (Ok false,
            w ++ [EvHttp rq (Response resp); check_error_log model_name e])).
Proof.
  intros rq run. split; [apply check_ollama_model_returns|].
  subst run. unfold check_ollama_model, try_except, World.bind, send, lift,
    log, emit, ret.
  fold (tags_request cfg). fold rq. cbv beta.
  split; [|split].
  - intros e Hhttp. rewrite Hhttp. rewrite <- app_assoc. reflexivity.
  - intros resp Hhttp Hstatus. rewrite Hhttp.
    destruct (Z.eqb_spec (status_code resp) 200); [contradiction|reflexivity].
  - intros resp e Hhttp Hstatus Hjson. rewrite Hhttp, Hstatus, Hjson.
    cbn [Z.eqb Pos.eqb]. rewrite <- app_assoc. reflexivity.
Qed.

(** X2.  One entry without a ["name"] in the listing makes
    [check_ollama_model] answer false for every model name, listed or
    not, after logging the failure. *)
Theorem check_ollama_model_nameless_entry (model_name : pystr) (w : world)
    (resp : http_response) (body : list (pystr * pyval))
    (entries : list pyval) (entry : pyval) :
  http E w (tags_request cfg) = Response resp ->
  status_code resp = 200 ->
  json resp = Ok (PDict body) ->
  dict_lookup body (lit "models") = Some (PList entries) ->
  In entry entries ->
  field B (lit "name") entry = None ->
  exists e,
    check_ollama_model B cfg E model_name w
    = (Ok false,
       w ++ [EvHttp (tags_request cfg) (Response resp);
             check_error_log model_name e]).
Proof.
  intros Hhttp Hstatus Hjson Hmodels Hin Hnameless.
  destruct (@map_res_raises _ _ (fun m => getitem B m (lit "name"))
              entries entry Hin) as [e He].
  { intros y Hy. unfold field in Hnameless. rewrite Hy in Hnameless.
    discriminate. }
  exists e.
  unfold check_ollama_model, try_except, World.bind, send, lift, log, emit,
    ret.
  fold (tags_request cfg). cbv beta. rewrite Hhttp, Hstatus, Hjson.
  cbn [Z.eqb Pos.eqb get Py.bind]. rewrite Hmodels. cbn [py_iter].
  rewrite He. rewrite <- app_assoc. reflexivity.
Qed.

(** X3.  [ensure_model_pulled] never raises.  A model the check finds is
    ready without any pull request.  For one it does not find, the run
    logs the attempt, sends the pull request once, logs the outcome and
    ends: the model is ready when the request is answered with status
    200, and not ready when it is answered with another status or
    fails. *)
Theorem ensure_model_pulled_ready (model_name : pystr) (w : world) :
  let run := ensure_model_pulled B cfg E model_name w in
  (exists ready w', run = (Ok ready, w')) /\
  (forall w1, check_ollama_model B cfg E model_name w = (Ok true, w1) ->
     run = (Ok true, w1)) /\
  (forall w1, check_ollama_model B cfg E model_name w = (Ok false, w1) ->
     let w2 := w1 ++ [EvLog INFO (lit "Model " ++ model_name
                                  ++ lit " not found, attempting to pull...")] in
     let rq := pull_request cfg model_name in
     (forall resp,
        http E w2 rq = Response resp -> status_code resp = 200 ->
        run = (Ok true,
               w2 ++ [EvHttp rq (Response resp);
                      EvLog INFO (lit "Model " ++ model_name
                                  ++ lit " pulled successfully")])) /\
     (forall resp,
        http E w2 rq = Response resp -> status_code resp <> 200 ->
        run = (Ok false,
               w2 ++ [EvHttp rq (Response resp);
                      EvLog ERROR (lit "Failed to pull " ++ model_name
                                   ++ lit ": "
                                   ++ Str.of_Z (status_code resp))])) /\
     (forall e,
        http E w2 rq = Failed e ->
        run = (Ok false,
               w2 ++ [EvHttp rq (Failed e);
                      EvLog ERROR (lit "Error pulling model " ++ model_name
                                   ++ lit ": " ++ exc_str e)]))).
Proof.
  intros run. subst run. unfold ensure_model_pulled.
  split; [|split].
  - apply returns_bind; [apply check_ollama_model_returns|].
    intros [|]; [apply returns_ret|].
    apply returns_bind; [apply returns_log|]. intros _.
    apply returns_try_except. intros e.
    apply returns_bind; [apply returns_log | intros _; apply returns_ret].
  - intros w1 Hcheck. unfold World.bind at 1. rewrite Hcheck. reflexivity.
  - intros w1 Hcheck.
    set (rq := pull_request cfg model_name).
    set (w2 := w1 ++ [EvLog INFO _]).
    assert (Hpull :
      World.bind (check_ollama_model B cfg E model_name)
        (fun present : bool =>
           if present then ret true
           else
             World.bind
               (log INFO (lit "Model " ++ model_name
                          ++ lit " not found, attempting to pull..."))
               (fun _ =>
                  try_except
                    (World.bind (send E rq)
                       (fun resp =>
                          if status_code resp =? 200
                          then World.bind
                                 (log INFO (lit "Model " ++ model_name
                                            ++ lit " pulled successfully"))
                                 (fun _ => ret true)
                          else World.bind
                                 (log ERROR (lit "Failed to pull " ++ model_name
                                             ++ lit ": "
                                             ++ Str.of_Z (status_code resp)))
                                 (fun _ => ret false)))
                    (fun e =>
                       World.bind
                         (log ERROR (lit "Error pulling model " ++ model_name
                                     ++ lit ": " ++ exc_str e))
                         (fun _ => ret false)))) w
      = match http E w2 rq with
        | Response resp =>
          if status_code resp =? 200
          then (Ok true,
                w2 ++ [EvHttp rq (http E w2 rq);
                       EvLog INFO (lit "Model " ++ model_name
                                   ++ lit " pulled successfully")])
          else (Ok false,
                w2 ++ [EvHttp rq (http E w2 rq);
                       EvLog ERROR (lit "Failed to pull " ++ model_name
                                    ++ lit ": "
                                    ++ Str.of_Z (status_code resp))])
        | Failed e =>
          (Ok false,
           w2 ++ [EvHttp rq (http E w2 rq);
                  EvLog ERROR (lit "Error pulling model " ++ model_name
                               ++ lit ": " ++ exc_str e)])
        end).
    { unfold World.bind at 1. rewrite Hcheck.
      unfold try_except, World.bind, send, log, emit, ret. cbv beta.
      fold w2.
      destruct (http E w2 rq) as [resp|e]; [|rewrite <- app_assoc; reflexivity].
      destruct (status_code resp =? 200); rewrite <- app_assoc; reflexivity. }
    split; [|split].
    + intros resp Hhttp Hok. refine (eq_trans Hpull _).
      rewrite Hhttp, Hok. reflexivity.
    + intros resp Hhttp Hnot. refine (eq_trans Hpull _). rewrite Hhttp.
      destruct (Z.eqb_spec (status_code resp) 200); [contradiction|].
      reflexivity.
    + intros e Hhttp. refine (eq_trans Hpull _). rewrite Hhttp. reflexivity.
Qed.

End GatewaySafety.

(** ** The error marker of the inference helpers *)

Lemma error_prefix_marked (x : pystr) : error_marked (lit "Error: " ++ x) = true.
Proof. reflexivity. Qed.

Section InferenceContract.
Context (B : Builtins) (cfg : config) (E : env).

(** X4.  [_parse_ollama_error] returns the ["error"] entry of a JSON
    object that has one.  For every other answer (no JSON, JSON that is
    no object, an object without the entry) it returns a non-empty
    string: the stripped body text cut to its first 300 characters, or
    [status] and the status code when that text is empty. *)
Theorem parse_ollama_error_cases (resp : http_response) :
  (forall d err, json resp = Ok (PDict d) ->
     dict_lookup d (lit "error") = Some err ->
     _parse_ollama_error B resp = err) /\
  ((forall d, json resp = Ok (PDict d) -> dict_lookup d (lit "error") = None) ->
   exists s,
     _parse_ollama_error B resp = PStr s /\ s <> [] /\
     (List.length s <= 300 + List.length (Str.of_Z (status_code resp)))%nat /\
     (strip (text resp) = [] ->
      s = lit "status " ++ Str.of_Z (status_code resp)) /\
     (strip (text resp) <> [] -> s = firstn 300 (strip (text resp)))).
Proof.
  split.
  - intros d err Hjson Herr. unfold _parse_ollama_error.
    rewrite Hjson. cbn [Py.bind py_in getitem]. rewrite Herr. reflexivity.
  - intros Hnone.
    assert (Htext : _parse_ollama_error B resp
                    = PStr (match strip (text resp) with
                            | [] => lit "status " ++ Str.of_Z (status_code resp)
                            | _ => slice_to 300 (strip (text resp))
                            end)).
    { unfold _parse_ollama_error.
      destruct (json resp) as [data|e] eqn:Hjson; [|reflexivity].
      destruct data as [| | | |s|l|d]; try reflexivity.
      - cbn [Py.bind py_in]. destruct (contains s (lit "error")); reflexivity.
      - cbn [Py.bind py_in].
        destruct (existsb (is_str (lit "error")) l); reflexivity.
      - cbn [Py.bind py_in getitem]. rewrite (Hnone d eq_refl). reflexivity. }
    rewrite Htext. eexists. split; [reflexivity|].
    destruct (strip (text resp)) as [|c t] eqn:Hstrip.
    + split; [discriminate|]. split.
      { rewrite length_app.
        change (List.length (lit "status ")) with 7%nat. lia. }
      split; [reflexivity | congruence].
    + unfold slice_to. split; [discriminate|]. split.
      * pose proof (firstn_le_length 300 (c :: t)). lia.
      * split; [discriminate | reflexivity].
Qed.

(** Settles the outcome of an inference helper once the answer is known. *)
Ltac helper_run :=
  unfold query_ollama_vision, query_ollama_text, try_except, World.bind,
    send, lift, log, emit, ret;
  cbv beta.

(** X5.  [query_ollama_vision] never raises and sends one request.  An
    answer with status 200 whose JSON object has a ["response"] entry is
    returned as that entry; every other outcome of the request (an
    exception, another status, a body that is no JSON object) gives a
    string that starts with [Error:]. *)
Theorem query_ollama_vision_contract (image_base64 prompt : pystr)
    (model : option pystr) (w : world) :
  let rq := vision_request cfg image_base64 prompt model in
  let run := query_ollama_vision B cfg E image_base64 prompt model w in
  (exists v logged,
     run = (Ok v, w ++ EvHttp rq (http E w rq) :: logged) /\
     Forall (fun ev => is_request ev = false) logged) /\
  (forall resp d answer,
     http E w rq = Response resp -> status_code resp = 200 ->
     json resp = Ok (PDict d) ->
     dict_lookup d (lit "response") = Some answer ->
     fst run = Ok answer) /\
  ((forall resp d, http E w rq = Response resp -> status_code resp = 200 ->
                   json resp <> Ok (PDict d)) ->
   exists s, fst run = Ok (PStr s) /\ error_marked s = true).
Proof.
  intros rq run. subst run. helper_run.
  fold (generate_url cfg). fold (vision_request cfg image_base64 prompt model).
  fold rq.
  destruct (http E w rq) as [resp|e] eqn:Hhttp.
  - destruct (Z.eqb_spec (status_code resp) 200) as [Hok|Hnot].
    + destruct (json resp) as [data|e] eqn:Hjson.
      * destruct data as [| | | | | |d]; cbn [get raise].
        7: { split; [|split].
             - do 2 eexists. split; [reflexivity | constructor].
             - intros resp' d' answer H _ Hd Hanswer. injection H as <-.
               rewrite Hjson in Hd. injection Hd as <-.
               cbn [fst]. rewrite Hanswer. reflexivity.
             - intros Hbad. destruct (Hbad resp d eq_refl Hok Hjson). }
        all: split; [|split];
          [ do 2 eexists; split;
            [rewrite <- ?app_assoc; reflexivity | repeat constructor]
          | intros resp' d' answer H _ Hd; injection H as <-;
            rewrite Hjson in Hd; discriminate
          | intros _; eexists; split; reflexivity ].
      * split; [|split].
        -- destruct e as [code detail|[] msg];
             do 2 eexists;
             (split; [rewrite <- ?app_assoc; reflexivity
                     | repeat constructor]).
        -- intros resp' d' answer H _ Hd. injection H as <-.
           rewrite Hjson in Hd. discriminate.
        -- intros _. destruct e as [code detail|[] msg];
             eexists; (split; reflexivity).
    + split; [|split].
      * do 2 eexists. split; [rewrite <- ?app_assoc; reflexivity|].
        repeat constructor.
      * intros resp' d answer H Hok. injection H as <-. contradiction.
      * intros _. eexists. split; [reflexivity | apply error_prefix_marked].
  - split; [|split].
    + destruct e as [code detail|[] msg];
        do 2 eexists;
        (split; [rewrite <- ?app_assoc; reflexivity | repeat constructor]).
    + intros resp d answer H. discriminate.
    + intros _. destruct e as [code detail|[] msg];
        eexists; (split; reflexivity).
Qed.

(** X6.  [query_ollama_text] keeps the same contract: it never raises,
    sends one request, returns the ["response"] entry of an answer with
    status 200 and a JSON object that has one, and a string that starts
    with [Error:] in every other case. *)
Theorem query_ollama_text_contract (prompt : pystr) (model : option pystr)
    (num_ctx : Z) (w : world) :
  let rq := text_request cfg prompt model num_ctx in
  let run := query_ollama_text B cfg E prompt model num_ctx w in
  (exists v logged,
     run = (Ok v, w ++ EvHttp rq (http E w rq) :: logged) /\
     Forall (fun ev => is_request ev = false) logged) /\
  (forall resp d answer,
     http E w rq = Response resp -> status_code resp = 200 ->
     json resp = Ok (PDict d) ->
     dict_lookup d (lit "response") = Some answer ->
     fst run = Ok answer) /\
  ((forall resp d, http E w rq = Response resp -> status_code resp = 200 ->
                   json resp <> Ok (PDict d)) ->
   exists s, fst run = Ok (PStr s) /\ error_marked s = true).
Proof.
  intros rq run. subst run. helper_run.
  fold (generate_url cfg). fold (text_request cfg prompt model num_ctx).
  fold rq.
  destruct (http E w rq) as [resp|e] eqn:Hhttp.
  - destruct (Z.eqb_spec (status_code resp) 200) as [Hok|Hnot].
    + destruct (json resp) as [data|e] eqn:Hjson.
      * destruct data as [| | | | | |d]; cbn [get raise].
        7: { split; [|split].
             - do 2 eexists. split; [reflexivity | constructor].
             - intros resp' d' answer H _ Hd Hanswer. injection H as <-.
               rewrite Hjson in Hd. injection Hd as <-.
               cbn [fst]. rewrite Hanswer. reflexivity.
             - intros Hbad. destruct (Hbad resp d eq_refl Hok Hjson). }
        all: split; [|split];
          [ do 2 eexists; split;
            [rewrite <- ?app_assoc; reflexivity | repeat constructor]
          | intros resp' d' answer H _ Hd; injection H as <-;
            rewrite Hjson in Hd; discriminate
          | intros _; eexists; split; reflexivity ].
      * split; [|split].
        -- destruct e as [code detail|[] msg];
             do 2 eexists;
             (split; [rewrite <- ?app_assoc; reflexivity
                     | repeat constructor]).
        -- intros resp' d' answer H _ Hd. injection H as <-.
           rewrite Hjson in Hd. discriminate.
        -- intros _. destruct e as [code detail|[] msg];
             eexists; (split; reflexivity).
    + split; [|split].
      * do 2 eexists. split; [rewrite <- ?app_assoc; reflexivity|].
        repeat constructor.
      * intros resp' d answer H Hok. injection H as <-. contradiction.
      * intros _. eexists. split; [reflexivity | apply error_prefix_marked].
  - split; [|split].
    + destruct e as [code detail|[] msg];
        do 2 eexists;
        (split; [rewrite <- ?app_assoc; reflexivity | repeat constructor]).
    + intros resp d answer H. discriminate.
    + intros _. destruct e as [code detail|[] msg];
        eexists; (split; reflexivity).
Qed.

End InferenceContract.

(** ** The model status endpoint *)

Section ModelStatusFacts.
Context (B : Builtins) (cfg : config) (E : env).

(** X7.  When the probe of [get_model_status] fails or is answered with
    a status other than 200, the endpoint reports [disconnected] with
    every readiness flag false, for the defaults and for each mode of the
    table, and the probe is the only request it sends. *)
Theorem get_model_status_disconnected (w : world) :
  (forall resp, http E w (probe_request cfg) = Response resp ->
                status_code resp <> 200) ->
  exists status,
    get_model_status B cfg E w
    = (Ok status, w ++ [EvHttp (probe_request cfg) (http E w (probe_request cfg))]) /\
    ModelStatus.ollama_status status = lit "disconnected" /\
    ModelStatus.vision_model_ready status = false /\
    ModelStatus.text_model_ready status = false /\
    map fst (ModelStatus.available_modes status) = map fst MODEL_MODES /\
    Forall mode_not_ready (ModelStatus.available_modes status).
Proof.
  intros Hdown.
  assert (Hprobe :
    try_except
      (World.bind (send E (probe_request cfg))
         (fun resp => ret (status_code resp =? 200)))
      (fun _ => ret false) w
    = (Ok false, w ++ [EvHttp (probe_request cfg) (http E w (probe_request cfg))])).
  { unfold try_except, World.bind, send, ret.
    destruct (http E w (probe_request cfg)) as [resp|e] eqn:Hhttp;
      [|reflexivity].
    destruct (Z.eqb_spec (status_code resp) 200) as [Hok|Hnot];
      [destruct (Hdown resp eq_refl Hok) | reflexivity]. }
  eexists. split.
  - unfold get_model_status. fold (probe_request cfg).
    unfold World.bind at 1. rewrite Hprobe. reflexivity.
  - cbn. repeat split; repeat constructor.
Qed.

(** X8.  [get_model_status] never raises.  It reports [connected]
    exactly when the probe is answered with status 200, and it lists the
    modes of the table in order, each with the models of its mode and a
    [ready] flag that is the conjunction of its two readiness flags. *)
Theorem get_model_status_report (w : world) :
  exists status w',
    get_model_status B cfg E w = (Ok status, w') /\
    (ModelStatus.ollama_status status = lit "connected" <->
     exists resp, http E w (probe_request cfg) = Response resp /\
                  status_code resp = 200) /\
    Forall2 mode_consistent (ModelStatus.available_modes status) MODEL_MODES.
Proof.
  unfold get_model_status. fold (probe_request cfg).
  unfold World.bind at 1. unfold try_except, World.bind at 1, send, ret.
  destruct (http E w (probe_request cfg)) as [resp|e] eqn:Hhttp.
  - destruct (Z.eqb_spec (status_code resp) 200) as [Hok|Hnot].
    + unfold for_each_M, MODEL_MODES, World.bind, ret. cbn [fst snd].
      repeat match goal with
             | |- context [check_ollama_model B cfg E ?m ?w0] =>
               destruct (@check_ollama_model_returns B cfg E m w0)
                 as [? [? ->]]
             end.
      do 2 eexists. split; [reflexivity|]. split.
      * split; [eauto | reflexivity].
      * repeat constructor.
    + do 2 eexists. split; [reflexivity|]. split.
      * split; [intros H; vm_compute in H; discriminate|].
        intros [resp' [H Hok]]. injection H as <-. contradiction.
      * repeat constructor.
  - do 2 eexists. split; [reflexivity|]. split.
    + split; [intros H; vm_compute in H; discriminate|].
      intros [resp' [H _]]. discriminate.
    + repeat constructor.
Qed.
End ModelStatusFacts.

(** ** What the chart endpoint stores and when *)

Section Idle.
Context (B : Builtins) (cfg : config) (E : env).

Lemma idle_log (level : log_level) (msg : pystr) : idle cfg (EvLog level msg).
Proof.
  split; [intros [p [t [r H]]] | intros [p [c [f H]]]]; discriminate.
Qed.

Lemma idle_get url params timeout result :
  idle cfg (EvHttp (GET url params timeout) result).
Proof.
  split; [intros [p [t [r H]]] | intros [p [c [f H]]]]; discriminate.
Qed.

Lemma idle_pull payload timeout result :
  idle cfg (EvHttp (POST (OLLAMA_BASE_URL cfg ++ lit "/api/pull") payload
                         timeout) result).
Proof.
  split; [intros [p [t [r H]]] | intros [p [c [f H]]]; discriminate].
  injection H as Hurl _ _ _. unfold generate_url in Hurl.
  apply app_inv_head in Hurl. discriminate.
Qed.

Lemma idle_uuid u : idle cfg (EvUuid u).
Proof.
  split; [intros [p [t [r H]]] | intros [p [c [f H]]]]; discriminate.
Qed.

Lemma not_write_http rq result : ~ is_write (EvHttp rq result).
Proof. intros [p [c [f H]]]. discriminate. Qed.

Lemma not_write_log level msg : ~ is_write (EvLog level msg).
Proof. intros [p [c [f H]]]. discriminate. Qed.

Lemma not_write_now t : ~ is_write (EvNow t).
Proof. intros [p [c [f H]]]. discriminate. Qed.

Lemma not_write_uuid u : ~ is_write (EvUuid u).
Proof. intros [p [c [f H]]]. discriminate. Qed.

Lemma ensure_model_pulled_idle (model_name : pystr) :
  adds (idle cfg) (ensure_model_pulled B cfg E model_name).
Proof.
  unfold ensure_model_pulled, check_ollama_model.
  adds_steps; first [apply idle_log | apply idle_get | apply idle_pull].
Qed.

Lemma query_ollama_vision_writes_nothing (image_base64 prompt : pystr)
    (model : option pystr) :
  adds (fun ev => ~ is_write ev)
       (query_ollama_vision B cfg E image_base64 prompt model).
Proof.
  unfold query_ollama_vision.
  adds_steps; first [apply not_write_http | apply not_write_log].
Qed.

Lemma query_ollama_text_writes_nothing (prompt : pystr)
    (model : option pystr) (num_ctx : Z) :
  adds (fun ev => ~ is_write ev)
       (query_ollama_text B cfg E prompt model num_ctx).
Proof.
  unfold query_ollama_text.
  adds_steps; first [apply not_write_http | apply not_write_log].
Qed.

(** A setup that succeeds has stored the upload as its last step, under
    the name it yields. *)
Lemma chart_setup_stored (file : UploadFile) (model_mode : pystr)
    (w0 w1 : world) (ids : pystr * pystr) :
  chart_setup B cfg E file model_mode w0 = (Ok ids, w1) ->
  exists before ext,
    w1 = w0 ++ before
            ++ [EvWrite (UPLOAD_DIR ++ lit "/" ++ snd ids) (content file) None] /\
    Forall (idle cfg) before /\
    (List.length (fst ids) <= 8)%nat /\
    snd ids = lit "chart_" ++ fst ids ++ ext /\ ext <> [].
Proof.
  unfold chart_setup. destruct (negb (is_image file)); [discriminate|].
  unfold World.bind at 1.
  destruct (ensure_model_pulled B cfg E (vision_model (resolve_mode model_mode)) w0)
    as [[vision_ready|e] wa] eqn:Hvision; [|discriminate].
  apply (@adds_run _ _ _ _ _ _ (ensure_model_pulled_idle _)) in Hvision
    as [evs1 [-> H1]].
  destruct vision_ready; cbn [negb]; [|discriminate].
  unfold World.bind at 1.
  destruct (ensure_model_pulled B cfg E (text_model (resolve_mode model_mode))
              (w0 ++ evs1)) as [[text_ready|e] wb] eqn:Htext; [|discriminate].
  apply (@adds_run _ _ _ _ _ _ (ensure_model_pulled_idle _)) in Htext as [evs2 [-> H2]].
  set (ext := str_or _ (lit ".png")).
  assert (Hext : ext <> []).
  { subst ext. unfold str_or. destruct (path_suffix B _); discriminate. }
  destruct text_ready; cbn [negb];
    unfold World.bind, log, emit, ret, fresh_uuid, write_file; cbv beta zeta;
    match goal with
    | |- context [fs_write E ?w ?p ?c] => destruct (fs_write E w p c) eqn:Hw
    end; try discriminate;
    intros H; injection H as <- <-; cbn [fst snd].
  - eexists (evs1 ++ evs2 ++ [EvUuid _]), ext.
    split; [rewrite <- !app_assoc; reflexivity|].
    split; [repeat (apply Forall_app; split); try assumption;
            repeat constructor; apply idle_uuid|].
    split; [exact (firstn_le_length 8 (uuid4 E _))|].
    split; [reflexivity | exact Hext].
  - eexists (evs1 ++ evs2 ++ [EvLog WARNING _; EvUuid _]), ext.
    split; [rewrite <- !app_assoc; reflexivity|].
    split; [repeat (apply Forall_app; split); try assumption;
            repeat constructor; first [apply idle_uuid | apply idle_log]|].
    split; [exact (firstn_le_length 8 (uuid4 E _))|].
    split; [reflexivity | exact Hext].
Qed.

(** X9.  When the vision model of an image upload is neither listed nor
    pulled, [analyze_chart] fails with status 503 and a detail that names
    the model, right after the model check: until then no inference was
    requested and nothing was written. *)
Theorem analyze_chart_vision_model_unavailable (file : UploadFile)
    (language model_mode : pystr) (w0 w1 : world) :
  is_image file = true ->
  ensure_model_pulled B cfg E (vision_model (resolve_mode model_mode)) w0
  = (Ok false, w1) ->
  analyze_chart B cfg E file language model_mode w0
  = (Raise (HTTPException 503
              (lit "Vision model '" ++ vision_model (resolve_mode model_mode)
               ++ lit "' is not available and could not be pulled. "
               ++ lit "Please check that Ollama is running and has enough resources.")),
     w1) /\
  exists evs, w1 = w0 ++ evs /\ Forall (idle cfg) evs.
Proof.
  intros Himage Hvision. split.
  - rewrite analyze_chart_phases. unfold World.bind at 1. unfold chart_setup.
    rewrite Himage. cbn [negb]. unfold World.bind at 1. rewrite Hvision.
    reflexivity.
  - exact (@adds_run _ _ _ _ _ _ (ensure_model_pulled_idle _) Hvision).
Qed.

(** X10.  A response of [analyze_chart] reports the stored name
    [chart_<id><ext>], with an id of at most 8 characters and a non-empty
    extension, and a [chart_url] that ends in that name.  The run wrote
    the uploaded bytes, unchanged, under that name in the upload
    directory, once, and before any inference request. *)
Theorem analyze_chart_stores_upload (file : UploadFile)
    (language model_mode : pystr) (w0 w' : world)
    (response : AnalysisResponse.t) :
  analyze_chart B cfg E file language model_mode w0 = (Ok response, w') ->
  let stored := AnalysisResponse.filename response in
  AnalysisResponse.chart_url response = lit "/api/charts/" ++ stored /\
  (List.length (AnalysisResponse.id response) <= 8)%nat /\
  (exists ext, stored = lit "chart_" ++ AnalysisResponse.id response ++ ext /\
               ext <> []) /\
  exists before after,
    w' = w0 ++ before
            ++ EvWrite (UPLOAD_DIR ++ lit "/" ++ stored) (content file) None
            :: after /\
    Forall (idle cfg) before /\
    Forall (fun ev => ~ is_write ev) after.
Proof.
  intros Hrun stored. subst stored.
  rewrite analyze_chart_phases in Hrun. unfold World.bind at 1 in Hrun.
  destruct (chart_setup B cfg E file model_mode w0) as [[ids|e] w1] eqn:Hsetup;
    [|discriminate].
  apply chart_setup_stored in Hsetup
    as [before [ext [-> [Hbefore [Hid [Hname Hext]]]]]].
  unfold World.bind at 1 in Hrun. unfold chart_vision in Hrun.
  match type of Hrun with
  | context [query_ollama_vision B cfg E ?i ?p ?m ?w] =>
    destruct (query_ollama_vision B cfg E i p m w) as [[v|e] w2] eqn:Hvision;
      [|discriminate]
  end.
  apply (@adds_run _ _ _ _ _ _ (query_ollama_vision_writes_nothing _ _ _)) in Hvision
    as [evs2 [-> H2]].
  destruct v as [| | | |d| |]; try discriminate.
  destruct (error_marked d); [discriminate|].
  unfold World.bind at 1 in Hrun. unfold chart_summary in Hrun.
  match type of Hrun with
  | context [query_ollama_text B cfg E ?p ?m ?n ?w] =>
    destruct (query_ollama_text B cfg E p m n w) as [[v|e] w3] eqn:Hsummary;
      [|discriminate]
  end.
  apply (@adds_run _ _ _ _ _ _ (query_ollama_text_writes_nothing _ _ _)) in Hsummary
    as [evs3 [-> H3]].
  destruct v as [| | | |s| |]; try discriminate.
  unfold World.bind, now, ret in Hrun. injection Hrun as <- <-.
  cbn [AnalysisResponse.chart_url AnalysisResponse.filename
       AnalysisResponse.id chart_response].
  split; [reflexivity|]. split; [exact Hid|].
  split; [exists ext; split; assumption|].
  exists before. eexists.
  split; [rewrite <- !app_assoc; reflexivity|].
  split; [exact Hbefore|].
  repeat (apply Forall_app; split); try assumption.
  repeat constructor. apply not_write_now.
Qed.

Lemma bind_first_event {A C} (c : M A) (k : A -> M C) (w : world)
    (ev : event) (rest0 : list event) :
  snd (c w) = w ++ ev :: rest0 ->
  (forall a, adds (fun _ => True) (k a)) ->
  exists rest, snd (World.bind c k w) = w ++ ev :: rest.
Proof.
  intros Hc Hk. unfold World.bind.
  destruct (c w) as [[a|e] w1]; cbn [snd] in Hc; subst w1.
  - destruct (Hk a (w ++ ev :: rest0)) as [evs [-> _]].
    exists (rest0 ++ evs). rewrite <- app_assoc. reflexivity.
  - exists rest0. reflexivity.
Qed.

(** X11.  The error marker is read off the model's own text: a vision
    answer with status 200 whose response text starts with [Error:]
    makes [analyze_chart] fail with status 503 and that text as detail,
    with no summary inference. *)
Theorem analyze_chart_marker_collision (file : UploadFile)
    (language model_mode : pystr) (w0 w1 : world) (ids : pystr * pystr)
    (resp : http_response) (d : list (pystr * pyval)) (answer : pystr) :
  let rq := vision_request cfg (b64encode B (content file))
              (vision_prompt (chart_lang_instruction language))
              (Some (vision_model (resolve_mode model_mode))) in
  chart_setup B cfg E file model_mode w0 = (Ok ids, w1) ->
  http E w1 rq = Response resp ->
  status_code resp = 200 ->
  json resp = Ok (PDict d) ->
  dict_lookup d (lit "response") = Some (PStr answer) ->
  (exists rest, answer = lit "Error:" ++ rest) ->
  analyze_chart B cfg E file language model_mode w0
  = (Raise (HTTPException 503 answer), w1 ++ [EvHttp rq (Response resp)]).
Proof.
  intros rq Hsetup Hhttp Hstatus Hjson Hanswer Hmarked.
  apply error_marked_iff in Hmarked.
  rewrite analyze_chart_phases. unfold World.bind at 1. rewrite Hsetup.
  unfold World.bind at 1.
  assert (Hvision : chart_vision B cfg E file language model_mode w1
                    = (Ok (PStr answer), w1 ++ [EvHttp rq (Response resp)])).
  { unfold chart_vision, query_ollama_vision, try_except, World.bind, send,
      lift.
    fold (generate_url cfg).
    fold (vision_request cfg (b64encode B (content file))
            (vision_prompt (chart_lang_instruction language))
            (Some (vision_model (resolve_mode model_mode)))).
    fold rq. rewrite Hhttp, Hstatus, Hjson. cbn [Z.eqb Pos.eqb get].
    rewrite Hanswer. reflexivity. }
  rewrite Hvision, Hmarked. reflexivity.
Qed.

(** X12.  An unavailable text model does not stop [analyze_chart]: with
    the vision model ready and the disk accepting the write, the setup
    succeeds after logging a warning, and the vision inference is
    requested. *)
Theorem analyze_chart_text_model_optional (file : UploadFile)
    (language model_mode : pystr) (w0 w1 w2 : world) :
  let mode := resolve_mode model_mode in
  let rq := vision_request cfg (b64encode B (content file))
              (vision_prompt (chart_lang_instruction language))
              (Some (vision_model mode)) in
  is_image file = true ->
  ensure_model_pulled B cfg E (vision_model mode) w0 = (Ok true, w1) ->
  ensure_model_pulled B cfg E (text_model mode) w1 = (Ok false, w2) ->
  (forall w path content, fs_write E w path content = None) ->
  exists ids w3 stored rest,
    chart_setup B cfg E file model_mode w0 = (Ok ids, w3) /\
    w3 = w2 ++ EvLog WARNING (lit "Text model '" ++ text_model mode
                              ++ lit "' not available, will attempt anyway")
            :: stored /\
    snd (analyze_chart B cfg E file language model_mode w0)
    = w3 ++ EvHttp rq (http E w3 rq) :: rest.
Proof.
  intros mode rq Himage Hvision Htext Hdisk.
  destruct (chart_setup B cfg E file model_mode w0) as [outcome w3] eqn:Hsetup.
  pose proof Hsetup as Hrun. unfold chart_setup in Hrun.
  rewrite Himage in Hrun. cbn [negb] in Hrun.
  unfold World.bind at 1 in Hrun. fold mode in Hrun. rewrite Hvision in Hrun.
  cbn [negb] in Hrun. unfold World.bind at 1 in Hrun. rewrite Htext in Hrun.
  cbn [negb] in Hrun.
  unfold World.bind, log, emit, fresh_uuid, write_file, ret in Hrun.
  cbv beta zeta in Hrun. rewrite Hdisk in Hrun.
  injection Hrun as <- Hw3.
  assert (Hfirst : exists rest0,
    snd (chart_vision B cfg E file language model_mode w3)
    = w3 ++ EvHttp rq (http E w3 rq) :: rest0).
  { unfold chart_vision, query_ollama_vision. fold (generate_url cfg).
    fold mode.
    fold (vision_request cfg (b64encode B (content file))
            (vision_prompt (chart_lang_instruction language))
            (Some (vision_model mode))).
    fold rq.
    match goal with
    | |- context [try_except (World.bind (send E rq) ?k) ?h] =>
      apply (@guarded_send_first E _ rq k h w3)
    end; adds_steps; exact I. }
  destruct Hfirst as [rest0 Hfirst].
  do 3 eexists.
  assert (Hgoal : exists rest,
    snd (analyze_chart B cfg E file language model_mode w0)
    = w3 ++ EvHttp rq (http E w3 rq) :: rest).
  { rewrite analyze_chart_phases. unfold World.bind at 1. rewrite Hsetup.
    apply (@bind_first_event _ _ _ _ _ _ _ Hfirst).
    intros v. unfold chart_summary. adds_steps; exact I. }
  destruct Hgoal as [rest Hgoal]. exists rest.
  split; [reflexivity|]. split; [|exact Hgoal].
  rewrite <- Hw3, <- !app_assoc. reflexivity.
Qed.

End Idle.

(** ** The station analysis endpoint *)

Section StationChecks.
Context (B : Builtins) (cfg : config) (E : env).

Lemma offline_log (level : log_level) (msg : pystr) :
  offline cfg (EvLog level msg).
Proof.
  split; [intros [a [b [c [r H]]]] | intros [p [t [r H]]]]; discriminate.
Qed.

Lemma offline_tags timeout result :
  offline cfg (EvHttp (GET (OLLAMA_BASE_URL cfg ++ lit "/api/tags") [] timeout)
                  result).
Proof.
  split; [intros [a [b [c [r H]]]] | intros [p [t [r H]]]; discriminate].
  injection H as _ Hparams _ _. discriminate.
Qed.

Lemma offline_pull payload timeout result :
  offline cfg (EvHttp (POST (OLLAMA_BASE_URL cfg ++ lit "/api/pull") payload
                        timeout) result).
Proof.
  split; [intros [a [b [c [r H]]]]; discriminate | intros [p [t [r H]]]].
  injection H as Hurl _ _ _. unfold generate_url in Hurl.
  apply app_inv_head in Hurl. discriminate.
Qed.

Lemma ensure_model_pulled_offline (model_name : pystr) :
  adds (offline cfg) (ensure_model_pulled B cfg E model_name).
Proof.
  unfold ensure_model_pulled, check_ollama_model.
  adds_steps; first [apply offline_log | apply offline_tags | apply offline_pull].
Qed.

(** X14.  When the text model is neither listed nor pulled,
    [analyze_station_data] fails with status 503 right after the model
    check: the station API was not contacted and no inference was
    requested. *)
Theorem analyze_station_data_text_model_unavailable
    (stat_code start_date end_date language model_mode : pystr)
    (w0 w1 : world) :
  let active_text_model := text_model (resolve_mode model_mode) in
  ensure_model_pulled B cfg E active_text_model w0 = (Ok false, w1) ->
  analyze_station_data B cfg E stat_code start_date end_date language
    model_mode w0
  = (Raise (HTTPException 503
              (lit "Text model '" ++ active_text_model
               ++ lit "' is not available. "
               ++ lit "Please check that Ollama is running.")), w1) /\
  exists evs,
    w1 = w0 ++ evs /\
    Forall (fun ev => ~ is_station_call cfg ev /\ ~ is_generate cfg ev) evs.
Proof.
  intros active_text_model Hready. split.
  - rewrite analyze_station_data_phases. unfold World.bind at 1.
    unfold station_setup. unfold World.bind at 1.
    fold active_text_model. rewrite Hready. reflexivity.
  - exact (@adds_run _ _ _ _ _ _ (ensure_model_pulled_offline _) Hready).
Qed.

(** A setup that succeeds fetched its data with status 200 as its last
    request, and summarized it. *)
Lemma station_setup_fetched
    (stat_code start_date end_date model_mode : pystr) (w0 w1 : world)
    (fetched : pyval * pystr) :
  station_setup B cfg E stat_code start_date end_date model_mode w0
  = (Ok fetched, w1) ->
  let rq := station_request cfg stat_code start_date end_date in
  exists wa resp,
    http E wa rq = Response resp /\ status_code resp = 200 /\
    json resp = Ok (fst fetched) /\
    _summarize_station_data B (fst fetched) stat_code = Ok (snd fetched) /\
    w1 = wa ++ [EvHttp rq (Response resp)].
Proof.
  intros Hrun rq. unfold station_setup in Hrun.
  unfold World.bind at 1 in Hrun.
  destruct (ensure_model_pulled B cfg E _ w0) as [[ready|e] wa];
    [|discriminate].
  destruct ready; cbn [negb] in Hrun; [|discriminate].
  unfold World.bind at 1 in Hrun. unfold try_except, World.bind at 1, send in Hrun.
  fold rq in Hrun.
  destruct (http E wa rq) as [resp|e] eqn:Hhttp.
  - destruct (Z.eqb_spec (status_code resp) 200) as [Hok|Hnot];
      cbn [negb] in Hrun; [|discriminate].
    unfold lift at 1 in Hrun.
    destruct (json resp) as [payload|e] eqn:Hjson.
    + unfold World.bind, lift, ret in Hrun.
      destruct (_summarize_station_data B payload stat_code) as [digest|e]
        eqn:Hdigest; [|discriminate].
      injection Hrun as <- <-. exists wa, resp. auto.
    + destruct e as [code detail|[] msg]; discriminate.
  - destruct e as [code detail|[] msg]; discriminate.
Qed.

(** X16.  A response of [analyze_station_data] carries the payload the
    station API answered with status 200: a JSON object as it is, with
    [data_points] reported as [N/A]; a JSON list under a ["records"]
    key, with [data_points] its length.  No other payload gives a
    response. *)
Theorem analyze_station_data_payload
    (stat_code start_date end_date language model_mode : pystr)
    (w0 w' : world) (response : StationAnalysisResponse.t) :
  analyze_station_data B cfg E stat_code start_date end_date language
    model_mode w0 = (Ok response, w') ->
  let rq := station_request cfg stat_code start_date end_date in
  exists wa resp payload,
    http E wa rq = Response resp /\ status_code resp = 200 /\
    json resp = Ok payload /\
    In (EvHttp rq (Response resp)) w' /\
    ((exists records,
        payload = PList records /\
        StationAnalysisResponse.station_data response
        = PDict [(lit "records", payload)] /\
        StationDetails.data_points (StationAnalysisResponse.details response)
        = PInt (Z.of_nat (List.length records))) \/
     (exists d,
        payload = PDict d /\
        StationAnalysisResponse.station_data response = payload /\
        StationDetails.data_points (StationAnalysisResponse.details response)
        = PStr (lit "N/A"))).
Proof.
  intros Hrun rq.
  rewrite analyze_station_data_phases in Hrun.
  unfold World.bind at 1 in Hrun.
  destruct (station_setup B cfg E stat_code start_date end_date model_mode w0)
    as [[fetched|e] w1] eqn:Hsetup; [|discriminate].
  apply station_setup_fetched in Hsetup
    as [wa [resp [Hhttp [Hok [Hjson [Hdigest ->]]]]]].
  fold rq in Hhttp.
  exists wa, resp, (fst fetched).
  split; [exact Hhttp|]. split; [exact Hok|]. split; [exact Hjson|].
  unfold World.bind at 1 in Hrun.
  destruct (station_analysis B cfg E stat_code language model_mode
              (snd fetched) _) as [[v|e] w2] eqn:Hanalysis; [|discriminate].
  assert (Hw2 : exists evs, w2 = (wa ++ [EvHttp rq (Response resp)]) ++ evs).
  { assert (Hadds : adds (fun _ => True)
              (station_analysis B cfg E stat_code language model_mode
                 (snd fetched))).
    { unfold station_analysis, query_ollama_text. adds_steps; exact I. }
    destruct (@adds_run _ _ _ _ _ _ Hadds Hanalysis) as [evs [-> _]]. eauto. }
  destruct Hw2 as [evs2 ->].
  destruct v as [| | | |d| |]; try discriminate.
  destruct (error_marked d); [discriminate|].
  unfold World.bind at 1 in Hrun.
  destruct (station_summary B cfg E stat_code language model_mode d _)
    as [[v|e] w3] eqn:Hsummary; [|discriminate].
  assert (Hw3 : exists evs,
            w3 = ((wa ++ [EvHttp rq (Response resp)]) ++ evs2) ++ evs).
  { assert (Hadds : adds (fun _ => True)
              (station_summary B cfg E stat_code language model_mode d)).
    { unfold station_summary, query_ollama_text. adds_steps; exact I. }
    destruct (@adds_run _ _ _ _ _ _ Hadds Hsummary) as [evs [-> _]]. eauto. }
  destruct Hw3 as [evs3 ->].
  destruct v as [| | | |s| |]; try discriminate.
  unfold World.bind, fresh_uuid, now, ret in Hrun. injection Hrun as <- <-.
  split.
  { rewrite !in_app_iff. left. left. left. left. right. left. reflexivity. }
  cbn [StationAnalysisResponse.station_data StationAnalysisResponse.details
       StationDetails.data_points station_response].
  unfold _summarize_station_data in Hdigest.
  destruct (fst fetched) as [| | | | |records|d0];
    try (cbn in Hdigest; discriminate).
  - left. exists records. auto.
  - right. exists d0. auto.
Qed.

End StationChecks.

(** ** More on the digest *)

Section DigestShape.
Context (B : Builtins).

Lemma stats_round_raises (vals : list float) (held : option pyval)
    (e : pyexc) :
  stats_round B vals held = Raise e ->
  exists msg, e = Exc OverflowError msg.
Proof.
  unfold stats_round. destruct held as [v|]; [|discriminate].
  destruct v as [|b|z|f|s|l|d]; cbn; try discriminate.
  - destruct (float_of_Z z) eqn:Hz; cbn; [discriminate|].
    intros H. injection H as <-. eauto.
  - destruct (float_of_str B s); cbn; discriminate.
Qed.

Lemma collect_rounds_raise (key : pystr) (records : list pyval)
    (acc : list float) (e : pyexc) :
  for_each (map (field B key) records) (stats_round B) acc = Raise e ->
  exists msg, e = Exc OverflowError msg.
Proof.
  revert acc. induction records as [|r records IH]; intros acc;
    cbn [map for_each]; [discriminate|].
  destruct (stats_round B acc (field B key r)) as [vals|e'] eqn:Hround;
    cbn [Py.bind].
  - apply IH.
  - intros H. injection H as <-. apply stats_round_raises in Hround.
    exact Hround.
Qed.

(** [_stats] gives a result or raises an [OverflowError]. *)
Lemma stats_ok_or_overflow (records : list pyval) (key label : pystr) :
  (exists stat, _stats B records key label = Ok stat) \/
  (exists msg, _stats B records key label = Raise (Exc OverflowError msg)).
Proof.
  unfold _stats, collect_vals. rewrite collect_vals_rounds.
  destruct (for_each (map (field B key) records) (stats_round B) [])
    as [vals|e] eqn:Hrun.
  - left. cbn [Py.bind]. destruct vals; eexists; reflexivity.
  - right. apply collect_rounds_raise in Hrun as [msg ->]. eexists. reflexivity.
Qed.

(** It raises on a record list that holds an overflowing integer. *)
Lemma stats_overflow (records : list pyval) (key label : pystr) (r : pyval) :
  In r records -> overflows B key r ->
  exists msg, _stats B records key label = Raise (Exc OverflowError msg).
Proof.
  intros Hin Hover.
  destruct (stats_ok_or_overflow records key label) as [[stat Hok]|Hraise];
    [|exact Hraise].
  unfold _stats, collect_vals in Hok. rewrite collect_vals_rounds in Hok.
  destruct (for_each (map (field B key) records) (stats_round B) [])
    as [vals|e] eqn:Hrun; [|discriminate].
  apply collect_vals_from in Hrun as [_ Hfit].
  rewrite Forall_forall in Hfit. destruct (Hfit r Hin Hover).
Qed.

Lemma append_stats_ok_or_overflow (records : list pyval) (keys : list pystr)
    (lines0 : list pystr) :
  (exists lines, append_stats B records keys lines0 = Ok lines) \/
  (exists msg, append_stats B records keys lines0
               = Raise (Exc OverflowError msg)).
Proof.
  unfold append_stats. revert lines0.
  induction keys as [|k keys IH]; intros lines0; cbn [for_each]; [eauto|].
  destruct (stats_ok_or_overflow records k (labels_get LANDMOS_FIELD_LABELS k k))
    as [[stat ->]|[msg ->]]; cbn [Py.bind]; [|eauto].
  destruct stat as [[|c line]|]; cbn [Py.bind]; apply IH.
Qed.

Lemma append_stats_overflow (records : list pyval) (keys : list pystr)
    (lines0 : list pystr) (key : pystr) (r : pyval) :
  In key keys -> In r records -> overflows B key r ->
  exists msg, append_stats B records keys lines0
              = Raise (Exc OverflowError msg).
Proof.
  intros Hkey Hin Hover.
  destruct (append_stats_ok_or_overflow records keys lines0)
    as [[lines Hok]|Hraise]; [|exact Hraise].
  exfalso. revert lines0 lines Hok. unfold append_stats.
  induction keys as [|k keys IH]; intros lines0 lines Hok; [destruct Hkey|].
  cbn [for_each] in Hok.
  destruct (_stats B records k (labels_get LANDMOS_FIELD_LABELS k k))
    as [stat|e] eqn:Hstat; [|discriminate].
  destruct Hkey as [->|Hkey].
  - destruct (@stats_overflow records key
                (labels_get LANDMOS_FIELD_LABELS key key) r Hin Hover)
      as [msg Hmsg].
    rewrite Hmsg in Hstat. discriminate.
  - cbn [Py.bind] in Hok.
    destruct stat as [[|c line]|]; cbn [Py.bind] in Hok;
      exact (IH Hkey _ _ Hok).
Qed.

(** X18.  A record list whose objects hold, in one of the eight
    statistics fields, an integer too large for a float makes
    [_summarize_station_data] raise [OverflowError]: the loop of [_stats]
    swallows [ValueError], [TypeError] and [KeyError] only. *)
Theorem summarize_overflow_raises (records : list pyval)
    (stat_code key : pystr) (r : pyval) :
  Forall is_object records ->
  In key STATS_KEYS -> In r records -> overflows B key r ->
  exists msg,
    _summarize_station_data B (PList records) stat_code
    = Raise (Exc OverflowError msg).
Proof.
  intros Hobj Hkey Hin Hover.
  destruct records as [|r0 rest] eqn:Hrecords; [destruct Hin|].
  rewrite <- Hrecords in *.
  unfold _summarize_station_data. cbn [Py.bind].
  replace (negb (truthy (PList records))) with false
    by (rewrite Hrecords; reflexivity).
  assert (Hlines : exists msg,
    summary_lines B records stat_code = Raise (Exc OverflowError msg)).
  { unfold summary_lines.
    assert (Hfirst : exists d, list_first records = Some (PDict d)).
    { rewrite Hrecords in *. inversion Hobj as [|? ? [d ->] _]. exists d.
      reflexivity. }
    assert (Hlast : exists d, list_last records = Some (PDict d)).
    { unfold list_last. rewrite Hrecords. rewrite <- Hrecords.
      destruct (nth_error records (List.length records - 1)) as [x|] eqn:Hx.
      - apply nth_error_In in Hx. rewrite Forall_forall in Hobj.
        destruct (Hobj x Hx) as [d ->]. eauto.
      - apply nth_error_None in Hx. rewrite Hrecords in Hx. cbn in Hx. lia. }
    destruct Hfirst as [d0 ->]. destruct Hlast as [dn ->].
    cbn [index_error get Py.bind].
    match goal with
    | |- context [append_stats B records DISPLACEMENT_KEYS ?h] =>
      destruct (append_stats_ok_or_overflow records DISPLACEMENT_KEYS h)
        as [[l1 Hd]|[msg Hd]];
      [| rewrite Hd; cbn [Py.bind]; eexists; reflexivity];
      apply in_app_or in Hkey as [Hkey|Hkey];
      [ destruct (@append_stats_overflow records DISPLACEMENT_KEYS h key r
                    Hkey Hin Hover) as [msg Hmsg];
        rewrite Hmsg in Hd; discriminate
      | rewrite Hd; cbn [Py.bind] ]
    end.
    match goal with
    | |- context [append_stats B records QUALITY_KEYS ?h] =>
      destruct (@append_stats_overflow records QUALITY_KEYS h key r
                  Hkey Hin Hover) as [msg ->]
    end.
    cbn [Py.bind]. eexists. reflexivity. }
  destruct Hlines as [msg ->]. cbn [Py.bind]. eexists. reflexivity.
Qed.

End DigestShape.

Section DigestLayout.
Context (B : Builtins).

Lemma append_stats_count (records : list pyval) (keys : list pystr)
    (lines0 lines : list pystr) :
  append_stats B records keys lines0 = Ok lines ->
  exists added,
    lines = lines0 ++ added /\
    List.length added = valid_count B records keys.
Proof.
  unfold append_stats, valid_count. revert lines0.
  induction keys as [|k keys IH]; intros lines0 Hrun;
    cbn [for_each filter] in *.
  - injection Hrun as <-. exists []. rewrite app_nil_r. auto.
  - fold (label_of k) in Hrun.
    destruct (_stats B records k (label_of k)) as [stat|e] eqn:Hstat;
      [|discriminate].
    apply stats_cases in Hstat. cbn [Py.bind] in Hrun.
    destruct stat as [[|c line]|]; cbn [Py.bind] in Hrun.
    + destruct Hstat as [_ [Hempty _]]. congruence.
    + destruct Hstat as [_ [_ Hvalid]].
      apply IH in Hrun as [added [-> Hlen]].
      exists ((c :: line) :: added). rewrite <- app_assoc.
      destruct (first_valid B k records); [|congruence].
      cbn [List.length]. split; [reflexivity | congruence].
    + rewrite Hstat. apply IH in Hrun as [added [-> Hlen]].
      exists added. auto.
Qed.

Lemma valid_count_le (records : list pyval) (keys : list pystr) :
  (valid_count B records keys <= List.length keys)%nat.
Proof.
  unfold valid_count. induction keys as [|k keys IH]; cbn [filter List.length].
  - lia.
  - destruct (first_valid B k records); cbn [List.length]; lia.
Qed.

Lemma append_rows_samples (rows : list pyval) (lines0 lines : list pystr) :
  append_rows B SAMPLE_KEYS rows lines0 = Ok lines ->
  exists added,
    lines = lines0 ++ added /\ Forall2 (is_sample_of B) rows added.
Proof.
  unfold append_rows. revert lines0.
  induction rows as [|r rows IH]; intros lines0 Hrun; cbn [for_each] in Hrun.
  - injection Hrun as <-. exists []. rewrite app_nil_r. auto.
  - destruct (sample_row B SAMPLE_KEYS r) as [row|e] eqn:Hrow; [|discriminate].
    cbn [Py.bind] in Hrun. apply IH in Hrun as [added [-> Hrest]].
    exists ((lit "  " ++ row) :: added). rewrite <- app_assoc.
    split; [reflexivity|]. constructor; [|exact Hrest].
    exists row. auto.
Qed.

(** The lines of a digest, in their order. *)
Lemma summary_lines_layout (records : list pyval) (stat_code : pystr)
    (lines : list pystr) :
  summary_lines B records stat_code = Ok lines ->
  exists r0 lat lng head displacement quality firsts lasts,
    list_first records = Some r0 /\
    get B r0 (lit "lat") PNone = Ok lat /\
    get B r0 (lit "lng") PNone = Ok lng /\
    List.length head = 3%nat /\
    lines = head
            ++ (if truthy lat && truthy lng
                then [location_line B lat lng] else [])
            ++ [DISPLACEMENT_HEADING] ++ displacement
            ++ [QUALITY_HEADING] ++ quality
            ++ [FIRST_HEADING] ++ firsts ++ lasts /\
    List.length displacement = valid_count B records DISPLACEMENT_KEYS /\
    List.length quality = valid_count B records QUALITY_KEYS /\
    Forall2 (is_sample_of B) (firstn 3 records) firsts /\
    (if (6 <? List.length records)%nat
     then exists rows, lasts = LAST_HEADING :: rows /\
                       Forall2 (is_sample_of B) (last3 records) rows
     else lasts = []).
Proof.
  intros H. unfold summary_lines in H.
  destruct (list_first records) as [r0|] eqn:Hfirst; [|discriminate].
  cbn [index_error Py.bind] in H.
  repeat match type of H with
         | Py.bind ?c _ = Ok _ =>
           let E := fresh "E" in
           destruct c eqn:E; cbn [Py.bind] in H; [|discriminate]
         end.
  match type of E with get _ _ _ _ = Ok ?x => rename x into first_ts end.
  match type of E1 with get _ _ _ _ = Ok ?x => rename x into last_ts end.
  match type of E2 with get _ _ _ _ = Ok ?x => rename x into lat end.
  match type of E3 with get _ _ _ _ = Ok ?x => rename x into lng end.
  apply append_stats_count in E4 as [displacement [-> Hd]].
  apply append_stats_count in E5 as [quality [-> Hq]].
  fold SAMPLE_KEYS in E6, H.
  apply append_rows_samples in E6 as [firsts [-> Hfirsts]].
  exists r0, lat, lng,
    [ lit "Station: " ++ stat_code;
      lit "Total data points: " ++ Str.of_Z (Z.of_nat (List.length records));
      lit "Time range: " ++ fmt B first_ts ++ lit " to " ++ fmt B last_ts ],
    displacement, quality, firsts.
  destruct (6 <? List.length records)%nat.
  - apply append_rows_samples in H as [rows [-> Hrows]].
    exists (LAST_HEADING :: rows).
    repeat split; try assumption; [|eauto].
    unfold location_line, DISPLACEMENT_HEADING, QUALITY_HEADING,
      FIRST_HEADING, LAST_HEADING.
    destruct (truthy lat && truthy lng); cbn [app];
      repeat rewrite <- app_assoc; reflexivity.
  - injection H as <-. exists [].
    repeat split; try assumption.
    unfold location_line, DISPLACEMENT_HEADING, QUALITY_HEADING,
      FIRST_HEADING.
    destruct (truthy lat && truthy lng); cbn [app];
      repeat rewrite <- app_assoc; rewrite ?app_nil_r; reflexivity.
Qed.

Lemma summarize_lines (r : pyval) (rest : list pyval) (stat_code out : pystr) :
  _summarize_station_data B (PList (r :: rest)) stat_code = Ok out ->
  exists lines,
    summary_lines B (r :: rest) stat_code = Ok lines /\ out = join nl lines.
Proof.
  unfold _summarize_station_data. cbn [Py.bind truthy negb].
  destruct (summary_lines B (r :: rest) stat_code) as [lines|e];
    cbn [Py.bind]; [|discriminate].
  intros Hout. injection Hout as <-. eauto.
Qed.

(** X19.  The list of lines that [_summarize_station_data] joins for a
    non-empty record list has six fixed lines (station, total, time
    range and three headings), the location line when the first record
    has one, one statistics line for each of the eight fields in which
    some record holds a valid number, a sample line for each of the
    first three records and, above six records, four more for the last
    three.  So it has at least 7 and at most 22 lines, however many
    records are summarized. *)
Theorem summarize_line_bound (r0 : pyval) (rest : list pyval)
    (stat_code out : pystr) :
  let records := r0 :: rest in
  _summarize_station_data B (PList records) stat_code = Ok out ->
  exists lines lat lng,
    summary_lines B records stat_code = Ok lines /\
    out = join nl lines /\
    get B r0 (lit "lat") PNone = Ok lat /\
    get B r0 (lit "lng") PNone = Ok lng /\
    List.length lines
    = (6 + (if truthy lat && truthy lng then 1 else 0)
       + valid_count B records DISPLACEMENT_KEYS
       + valid_count B records QUALITY_KEYS
       + Nat.min 3 (List.length records)
       + (if (6 <? List.length records)%nat then 4 else 0))%nat /\
    (7 <= List.length lines <= 22)%nat.
Proof.
  intros records Hout. subst records.
  apply summarize_lines in Hout as [lines [Hlines ->]].
  exists lines. pose proof Hlines as Hlayout.
  apply summary_lines_layout in Hlayout
    as [r [lat [lng [head [displacement [quality [firsts [lasts
         [Hr [Hlat [Hlng [Hhead [-> [Hd [Hq [Hfirsts Hlasts]]]]]]]]]]]]]]]].
  injection Hr as <-. exists lat, lng.
  split; [exact Hlines|]. split; [reflexivity|].
  split; [exact Hlat|]. split; [exact Hlng|].
  apply Forall2_length in Hfirsts. rewrite length_firstn in Hfirsts.
  assert (Hlast : List.length lasts
                  = if (6 <? List.length (r0 :: rest))%nat then 4%nat
                    else 0%nat).
  { destruct (6 <? List.length (r0 :: rest))%nat eqn:Hmany.
    - destruct Hlasts as [rows [-> Hrows]].
      apply Forall2_length in Hrows. cbn [List.length].
      rewrite <- Hrows. unfold last3. rewrite length_skipn.
      apply Nat.ltb_lt in Hmany. lia.
    - subst lasts. reflexivity. }
  assert (Hcount :
    List.length
      (head
       ++ (if truthy lat && truthy lng
           then [location_line B lat lng] else [])
       ++ [DISPLACEMENT_HEADING] ++ displacement
       ++ [QUALITY_HEADING] ++ quality
       ++ [FIRST_HEADING] ++ firsts ++ lasts)
    = (6 + (if truthy lat && truthy lng then 1 else 0)
       + valid_count B (r0 :: rest) DISPLACEMENT_KEYS
       + valid_count B (r0 :: rest) QUALITY_KEYS
       + Nat.min 3 (List.length (r0 :: rest))
       + (if (6 <? List.length (r0 :: rest))%nat then 4 else 0))%nat).
  { rewrite !length_app, Hhead, Hd, Hq, <- Hfirsts, Hlast.
    destruct (truthy lat && truthy lng); cbn [List.length]; lia. }
  split; [exact Hcount|]. rewrite Hcount.
  pose proof (valid_count_le (r0 :: rest) DISPLACEMENT_KEYS) as Hdle.
  pose proof (valid_count_le (r0 :: rest) QUALITY_KEYS) as Hqle.
  cbn [DISPLACEMENT_KEYS QUALITY_KEYS List.length] in Hdle, Hqle.
  cbn [List.length].
  destruct (truthy lat && truthy lng);
    destruct (6 <? S (List.length rest))%nat; lia.
Qed.

(** X20.  The location line is the fourth of the lines that
    [_summarize_station_data] joins, followed by the displacement
    heading, and it is there only when the first record's [lat] and
    [lng] are both true values: a latitude or longitude of [0], like a
    missing one, leaves it out, and the displacement heading is the
    fourth line. *)
Theorem summarize_location (r0 : pyval) (rest : list pyval)
    (stat_code out : pystr) :
  _summarize_station_data B (PList (r0 :: rest)) stat_code = Ok out ->
  exists lines lat lng,
    summary_lines B (r0 :: rest) stat_code = Ok lines /\
    out = join nl lines /\
    get B r0 (lit "lat") PNone = Ok lat /\
    get B r0 (lit "lng") PNone = Ok lng /\
    (truthy lat && truthy lng = true ->
     nth_error lines 3 = Some (location_line B lat lng) /\
     nth_error lines 4 = Some DISPLACEMENT_HEADING) /\
    (truthy lat && truthy lng = false ->
     nth_error lines 3 = Some DISPLACEMENT_HEADING).
Proof.
  intros Hout. apply summarize_lines in Hout as [lines [Hlines ->]].
  exists lines. pose proof Hlines as Hlayout.
  apply summary_lines_layout in Hlayout
    as [r [lat [lng [head [displacement [quality [firsts [lasts
         [Hr [Hlat [Hlng [Hhead [-> _]]]]]]]]]]]]].
  injection Hr as <-. exists lat, lng.
  split; [exact Hlines|]. split; [reflexivity|].
  split; [exact Hlat|]. split; [exact Hlng|].
  destruct head as [|h1 [|h2 [|h3 [|h4 head]]]]; try discriminate.
  split; intros ->; cbn; auto.
Qed.

(** X21.  The digest ends with the sample lines: one for each of the
    first three records and, only when there are more than six records,
    the heading [Last 3 records:] and one for each of the last three.
    With six records or fewer nothing follows the leading samples. *)
Theorem summarize_samples (records : list pyval) (stat_code out : pystr) :
  records <> [] ->
  _summarize_station_data B (PList records) stat_code = Ok out ->
  exists body firsts lasts,
    out = join nl (body ++ [FIRST_HEADING] ++ firsts ++ lasts) /\
    Forall2 (is_sample_of B) (firstn 3 records) firsts /\
    (if (6 <? List.length records)%nat
     then exists rows, lasts = LAST_HEADING :: rows /\
                       Forall2 (is_sample_of B) (last3 records) rows
     else lasts = []).
Proof.
  intros Hne Hout. destruct records as [|r rest]; [congruence|].
  apply summarize_lines in Hout as [lines [Hlines ->]].
  apply summary_lines_layout in Hlines
    as [r0 [lat [lng [head [displacement [quality [firsts [lasts
         [_ [_ [_ [_ [-> [_ [_ [Hfirsts Hlasts]]]]]]]]]]]]]]]].
  exists (head
          ++ (if truthy lat && truthy lng
              then [location_line B lat lng] else [])
          ++ [DISPLACEMENT_HEADING] ++ displacement
          ++ [QUALITY_HEADING] ++ quality), firsts, lasts.
  split; [|split; assumption].
  repeat rewrite <- app_assoc. reflexivity.
Qed.

(** X22.  A wrapper is summarized as the list under its ["records"] key
    when that list holds a record, whatever ["data"] holds; and as the
    list under ["data"] when ["records"] is absent, empty or another
    false value. *)
Theorem summarize_wrapper (d : list (pystr * pyval)) (records : list pyval)
    (stat_code : pystr) :
  wrapped d records ->
  _summarize_station_data B (PDict d) stat_code
  = _summarize_station_data B (PList records) stat_code.
Proof.
  unfold _summarize_station_data. cbn [get Py.bind].
  intros [[r [rest [-> Hrecords]]] | [Hrecords Hdata]].
  - rewrite Hrecords. reflexivity.
  - assert (Hfalsy :
      truthy (match dict_lookup d (lit "records") with
              | Some v => v | None => PNone end) = false).
    { destruct Hrecords as [-> | [v [-> Hv]]]; [reflexivity | exact Hv]. }
    unfold py_or. rewrite !Hfalsy, Hdata.
    destruct records; reflexivity.
Qed.

End DigestLayout.

(** ** Single attempts *)

Section Attempts.
Context (E : env).

Lemma requests_app (evs evs' : list event) :
  requests (evs ++ evs') = (requests evs + requests evs')%nat.
Proof. unfold requests. rewrite filter_app, length_app. reflexivity. Qed.

Lemma sends_le {A} (n m : nat) (c : M A) :
  sends n c -> (n <= m)%nat -> sends m c.
Proof.
  intros Hc Hle w. destruct (Hc w) as [evs [Hw Hevs]].
  exists evs. split; [exact Hw | lia].
Qed.

Lemma sends_ret {A} (a : A) : sends 0 (ret a).
Proof. intros w. exists []. rewrite app_nil_r. auto. Qed.

Lemma sends_throw {A} (e : pyexc) : sends 0 (@throw A e).
Proof. intros w. exists []. rewrite app_nil_r. auto. Qed.

Lemma sends_lift {A} (c : res A) : sends 0 (lift c).
Proof. intros w. exists []. rewrite app_nil_r. auto. Qed.

Lemma sends_log (level : log_level) (msg : pystr) : sends 0 (log level msg).
Proof. intros w. exists [EvLog level msg]. auto. Qed.

Lemma sends_write_file (path : pystr) (content : list N) :
  sends 0 (write_file E path content).
Proof.
  intros w. exists [EvWrite path content (fs_write E w path content)].
  unfold write_file. destruct (fs_write E w path content); auto.
Qed.

Lemma sends_fresh_uuid : sends 0 (fresh_uuid E).
Proof. intros w. exists [EvUuid (uuid4 E w)]. auto. Qed.

Lemma sends_now : sends 0 (now E).
Proof. intros w. exists [EvNow (now_isoformat E w)]. auto. Qed.

Lemma sends_send (rq : http_request) : sends 1 (send E rq).
Proof.
  intros w. exists [EvHttp rq (http E w rq)]. unfold send.
  destruct (http E w rq); auto.
Qed.

Lemma sends_bind {A C} (n m : nat) (c : M A) (k : A -> M C) :
  sends n c -> (n <= m)%nat -> (forall a, sends (m - n) (k a)) ->
  sends m (World.bind c k).
Proof.
  intros Hc Hle Hk w. unfold World.bind.
  destruct (Hc w) as [evs [Hw Hevs]].
  destruct (c w) as [[a|e] w1]; simpl in Hw; subst w1.
  - destruct (Hk a (w ++ evs)) as [evs' [Hw' Hevs']].
    exists (evs ++ evs'). rewrite Hw', app_assoc, requests_app.
    split; [reflexivity | lia].
  - exists evs. split; [reflexivity | lia].
Qed.

Lemma sends_bind_last {A C} (n : nat) (c : M A) (k : A -> M C) :
  sends n c -> (forall a, sends 0 (k a)) -> sends n (World.bind c k).
Proof.
  intros Hc Hk. eapply sends_bind; [exact Hc | lia |].
  intros a. eapply sends_le; [apply Hk | lia].
Qed.

Lemma sends_try_except {A} (n : nat) (c : M A) (h : pyexc -> M A) :
  sends n c -> (forall e, sends 0 (h e)) -> sends n (try_except c h).
Proof.
  intros Hc Hh w. unfold try_except.
  destruct (Hc w) as [evs [Hw Hevs]].
  destruct (c w) as [[a|e] w1]; simpl in Hw; subst w1.
  - exists evs. auto.
  - destruct (Hh e (w ++ evs)) as [evs' [Hw' Hevs']].
    exists (evs ++ evs'). rewrite Hw', app_assoc, requests_app.
    split; [reflexivity | lia].
Qed.

End Attempts.

Ltac sends_leaf :=
  first [ apply sends_ret | apply sends_throw | apply sends_lift
        | apply sends_log | apply sends_write_file | apply sends_fresh_uuid
        | apply sends_now | apply sends_send
        | match goal with H : _ |- _ => apply H end ].

(** Takes a run apart along its steps, counting the requests. *)
Ltac sends_steps :=
  cbv beta zeta;
  repeat first
    [ match goal with
      | |- forall _, _ => intro; cbv beta zeta
      | |- sends _ (if ?b then _ else _) => destruct b
      | |- sends _ (match ?x with _ => _ end) => destruct x
      | |- sends _ (try_except _ _) => apply sends_try_except
      | |- sends _ (World.bind (if ?b then _ else _) _) => destruct b
      | |- sends _ (World.bind (World.bind _ _) _) => apply sends_bind_last
      | |- sends _ (World.bind _ _) =>
        eapply sends_bind; [solve [sends_leaf] | cbn; lia | cbn [Nat.sub]]
      | |- sends _ _ => eapply sends_le; [solve [sends_leaf] | lia]
      end ].

Lemma for_each_M_sends {A S} (n : nat) (xs : list A) (body : S -> A -> M S)
    (acc : S) :
  (forall acc x, sends n (body acc x)) ->
  sends (n * List.length xs) (for_each_M xs body acc).
Proof.
  intros Hbody. revert acc.
  induction xs as [|x xs IH]; intros acc; cbn [for_each_M List.length].
  - eapply sends_le; [apply sends_ret | lia].
  - eapply sends_bind; [apply Hbody | lia |].
    intros acc'. eapply sends_le; [apply IH | lia].
Qed.

Section SingleAttempts.
Context (B : Builtins) (cfg : config) (E : env).

Lemma check_ollama_model_sends_once (model_name : pystr) :
  sends 1 (check_ollama_model B cfg E model_name).
Proof. unfold check_ollama_model. sends_steps. Qed.

Lemma ensure_model_pulled_sends_twice (model_name : pystr) :
  sends 2 (ensure_model_pulled B cfg E model_name).
Proof.
  pose proof (check_ollama_model_sends_once model_name).
  unfold ensure_model_pulled. sends_steps.
Qed.

Lemma query_ollama_vision_sends_once (image_base64 prompt : pystr)
    (model : option pystr) :
  sends 1 (query_ollama_vision B cfg E image_base64 prompt model).
Proof. unfold query_ollama_vision. sends_steps. Qed.

Lemma query_ollama_text_sends_once (prompt : pystr) (model : option pystr)
    (num_ctx : Z) :
  sends 1 (query_ollama_text B cfg E prompt model num_ctx).
Proof. unfold query_ollama_text. sends_steps. Qed.

(** X23.  No run of [analyze_chart] sends more than six requests: two
    for each of the two models, and the two inferences.  Nothing is
    tried again. *)
Theorem analyze_chart_attempts (file : UploadFile)
    (language model_mode : pystr) :
  sends 6 (analyze_chart B cfg E file language model_mode).
Proof.
  pose proof ensure_model_pulled_sends_twice.
  pose proof query_ollama_vision_sends_once.
  pose proof query_ollama_text_sends_once.
  unfold analyze_chart. sends_steps.
Qed.

(** X24.  No run of [analyze_station_data] sends more than five
    requests: two for the text model, the fetch of the station data, and
    the two inferences. *)
Theorem analyze_station_data_attempts
    (stat_code start_date end_date language model_mode : pystr) :
  sends 5 (analyze_station_data B cfg E stat_code start_date end_date
             language model_mode).
Proof.
  pose proof ensure_model_pulled_sends_twice.
  pose proof query_ollama_text_sends_once.
  assert (Hfetch : forall url params timeout (k : http_response -> M pyval)
                     (h : pyexc -> M pyval),
             (forall resp, sends 0 (k resp)) -> (forall e, sends 0 (h e)) ->
             sends 1 (try_except (World.bind (send E (GET url params timeout)) k) h)).
  { intros. sends_steps. }
  unfold analyze_station_data. sends_steps.
  eapply sends_bind;
    [apply Hfetch; sends_steps | lia | cbn [Nat.sub]; sends_steps].
Qed.

Remark get_station_data_attempts (stat_code start_date end_date : pystr) :
  sends 1 (get_station_data cfg E stat_code start_date end_date).
Proof. unfold get_station_data. sends_steps. Qed.

(** X25.  No run of [get_model_status] sends more than seven requests:
    the probe, a listing for each default model, and two listings for
    each mode of the table. *)
Theorem get_model_status_attempts :
  sends 7 (get_model_status B cfg E).
Proof.
  pose proof check_ollama_model_sends_once.
  unfold get_model_status.
  eapply (@sends_bind _ _ 1); [sends_steps | lia | intros ollama_ok].
  eapply (@sends_bind _ _ 1); [sends_steps | cbn; lia | intros vision_ready].
  eapply (@sends_bind _ _ 1); [sends_steps | cbn; lia | intros text_ready].
  eapply (@sends_bind _ _ (2 * List.length MODEL_MODES));
    [apply for_each_M_sends; sends_steps | cbn; lia | sends_steps].
Qed.

End SingleAttempts.

(** ** The runs that succeed *)

Section Success.
Context (B : Builtins) (cfg : config) (E : env).

(** X26.  When the setup of [analyze_chart] succeeds and both inferences
    are answered with status 200 and a text that does not start with
    [Error:], the response carries the two texts as they are, as
    description and summary, with the models of the resolved mode; the
    run sends the two inference requests in this order, reads the clock,
    and does nothing else. *)
Theorem analyze_chart_success (file : UploadFile)
    (language model_mode : pystr) (w0 w1 : world) (ids : pystr * pystr)
    (seen told : http_response) (seen_body told_body : list (pystr * pyval))
    (d s : pystr) :
  let mode := resolve_mode model_mode in
  let vision := vision_request cfg (b64encode B (content file))
                  (vision_prompt (chart_lang_instruction language))
                  (Some (vision_model mode)) in
  let text := text_request cfg
                (chart_summary_prompt (chart_summary_lang_instruction language) d)
                (Some (text_model mode)) 2048 in
  let w2 := w1 ++ [EvHttp vision (Response seen)] in
  let w3 := w2 ++ [EvHttp text (Response told)] in
  chart_setup B cfg E file model_mode w0 = (Ok ids, w1) ->
  http E w1 vision = Response seen -> status_code seen = 200 ->
  json seen = Ok (PDict seen_body) ->
  dict_lookup seen_body (lit "response") = Some (PStr d) ->
  error_marked d = false ->
  http E w2 text = Response told -> status_code told = 200 ->
  json told = Ok (PDict told_body) ->
  dict_lookup told_body (lit "response") = Some (PStr s) ->
  error_marked s = false ->
  analyze_chart B cfg E file language model_mode w0
  = (Ok (chart_response B file language model_mode (fst ids) (snd ids) d s
           (now_isoformat E w3)),
     w3 ++ [EvNow (now_isoformat E w3)]).
Proof.
  intros mode vision text w2 w3 Hsetup Hseen Hseen200 Hseen_json Hd Hd_ok
    Htold Htold200 Htold_json Hs Hs_ok.
  subst w3 w2 text vision mode.
  rewrite analyze_chart_phases. unfold World.bind at 1. rewrite Hsetup.
  unfold World.bind at 1. unfold chart_vision.
  rewrite (@query_ollama_vision_answer B cfg E _ _ _ _ _ _ _ Hseen Hseen200
             Hseen_json Hd).
  rewrite Hd_ok.
  unfold World.bind at 1. unfold chart_summary.
  rewrite (@query_ollama_text_answer B cfg E _ _ _ _ _ _ _ Htold Htold200
             Htold_json Hs).
  rewrite Hs_ok. reflexivity.
Qed.

(** X27.  When the setup of [analyze_station_data] succeeds and both
    inferences are answered with status 200 and a text that does not
    start with [Error:], the response carries the two texts as they are
    and the fetched payload; the run sends the two inference requests,
    the first one on the digest, draws the identifier, reads the clock,
    and does nothing else. *)
Theorem analyze_station_data_success
    (stat_code start_date end_date language model_mode : pystr)
    (w0 w1 : world) (fetched : pyval * pystr)
    (seen told : http_response) (seen_body told_body : list (pystr * pyval))
    (d s : pystr) :
  let mode := resolve_mode model_mode in
  let analysis := text_request cfg
                    (analysis_prompt stat_code
                       (station_lang_instruction language) (snd fetched))
                    (Some (text_model mode)) 4096 in
  let summary := text_request cfg
                   (station_summary_prompt stat_code
                      (station_summary_lang language) d)
                   (Some (text_model mode)) 4096 in
  let w2 := w1 ++ [EvHttp analysis (Response seen)] in
  let w3 := w2 ++ [EvHttp summary (Response told)] in
  let u := uuid4 E w3 in
  let w4 := w3 ++ [EvUuid u] in
  station_setup B cfg E stat_code start_date end_date model_mode w0
  = (Ok fetched, w1) ->
  http E w1 analysis = Response seen -> status_code seen = 200 ->
  json seen = Ok (PDict seen_body) ->
  dict_lookup seen_body (lit "response") = Some (PStr d) ->
  error_marked d = false ->
  http E w2 summary = Response told -> status_code told = 200 ->
  json told = Ok (PDict told_body) ->
  dict_lookup told_body (lit "response") = Some (PStr s) ->
  error_marked s = false ->
  analyze_station_data B cfg E stat_code start_date end_date language
    model_mode w0
  = (Ok (station_response stat_code start_date end_date language model_mode
           (fst fetched) d s (slice_to 8 u) (now_isoformat E w4)),
     w4 ++ [EvNow (now_isoformat E w4)]).
Proof.
  intros mode analysis summary w2 w3 u w4 Hsetup Hseen Hseen200 Hseen_json
    Hd Hd_ok Htold Htold200 Htold_json Hs Hs_ok.
  subst w4 u w3 w2 summary analysis mode.
  rewrite analyze_station_data_phases. unfold World.bind at 1.
  rewrite Hsetup.
  unfold World.bind at 1. unfold station_analysis.
  rewrite (@query_ollama_text_answer B cfg E _ _ _ _ _ _ _ Hseen Hseen200
             Hseen_json Hd).
  rewrite Hd_ok.
  unfold World.bind at 1. unfold station_summary.
  rewrite (@query_ollama_text_answer B cfg E _ _ _ _ _ _ _ Htold Htold200
             Htold_json Hs).
  rewrite Hs_ok. reflexivity.
Qed.

End Success.

(** * The properties above on sample runs *)

Lemma check_ollama_model_nameless_entry_witness :
  exists e,
    check_ollama_model Demo.builtins default_config
      (Demo.always (Response Demo.nameless_listing)) (lit "llava:7b") []
    = (Ok false,
       [] ++ [EvHttp (tags_request default_config)
                (Response Demo.nameless_listing);
              check_error_log (lit "llava:7b") e]).
Proof.
  apply (@check_ollama_model_nameless_entry Demo.builtins default_config
           (Demo.always (Response Demo.nameless_listing)) (lit "llava:7b") []
           Demo.nameless_listing
           [ (lit "models",
              PList [ PDict [(lit "name", PStr (lit "llava:7b"))];
                      PDict [(lit "model", PStr (lit "llama3.2:3b"))] ]) ]
           [ PDict [(lit "name", PStr (lit "llava:7b"))];
             PDict [(lit "model", PStr (lit "llama3.2:3b"))] ]
           (PDict [(lit "model", PStr (lit "llama3.2:3b"))])).
  - reflexivity.
  - reflexivity.
  - reflexivity.
  - vm_compute. reflexivity.
  - right. left. reflexivity.
  - vm_compute. reflexivity.
Defined.

Lemma get_model_status_disconnected_witness :
  exists status,
    get_model_status Demo.builtins default_config
      (Demo.always (Failed (Exc ConnectError []))) []
    = (Ok status,
       [] ++ [EvHttp (probe_request default_config)
                (Failed (Exc ConnectError []))]) /\
    ModelStatus.ollama_status status = lit "disconnected" /\
    ModelStatus.vision_model_ready status = false /\
    ModelStatus.text_model_ready status = false /\
    map fst (ModelStatus.available_modes status) = map fst MODEL_MODES /\
    Forall mode_not_ready (ModelStatus.available_modes status).
Proof.
  apply (@get_model_status_disconnected Demo.builtins default_config
           (Demo.always (Failed (Exc ConnectError []))) []).
  intros resp H. discriminate H.
Defined.

Lemma analyze_chart_vision_model_unavailable_witness :
  analyze_chart Demo.builtins default_config
    (Demo.serving [] (Demo.generated (lit "A chart."))
       (Demo.generated (lit "A summary.")) (Failed (Exc ConnectError [])))
    Demo.png (lit "en") (lit "llava") []
  = (Raise (HTTPException 503
              (lit "Vision model '" ++ vision_model (resolve_mode (lit "llava"))
               ++ lit "' is not available and could not be pulled. "
               ++ lit "Please check that Ollama is running and has enough resources.")),
     snd (ensure_model_pulled Demo.builtins default_config
            (Demo.serving [] (Demo.generated (lit "A chart."))
               (Demo.generated (lit "A summary."))
               (Failed (Exc ConnectError [])))
            (lit "llava:7b") [])) /\
  exists evs,
    snd (ensure_model_pulled Demo.builtins default_config
           (Demo.serving [] (Demo.generated (lit "A chart."))
              (Demo.generated (lit "A summary."))
              (Failed (Exc ConnectError [])))
           (lit "llava:7b") [])
    = [] ++ evs /\ Forall (idle default_config) evs.
Proof.
  apply (@analyze_chart_vision_model_unavailable Demo.builtins default_config
           (Demo.serving [] (Demo.generated (lit "A chart."))
              (Demo.generated (lit "A summary."))
              (Failed (Exc ConnectError [])))
           Demo.png (lit "en") (lit "llava") []).
  - reflexivity.
  - vm_compute. reflexivity.
Defined.

Lemma analyze_chart_stores_upload_witness :
  let response :=
    chart_response Demo.builtins Demo.png (lit "en") (lit "llava")
      (lit "3f2b8c1e") (lit "chart_3f2b8c1e.png") (lit "A chart.")
      (lit "A summary.") (lit "2025-01-01T00:00:00") in
  let stored := AnalysisResponse.filename response in
  AnalysisResponse.chart_url response = lit "/api/charts/" ++ stored /\
  (List.length (AnalysisResponse.id response) <= 8)%nat /\
  (exists ext, stored = lit "chart_" ++ AnalysisResponse.id response ++ ext /\
               ext <> []) /\
  exists before after,
    snd (analyze_chart Demo.builtins default_config
           (Demo.serving Demo.all_models (Demo.generated (lit "A chart."))
              (Demo.generated (lit "A summary."))
              (Failed (Exc ConnectError [])))
           Demo.png (lit "en") (lit "llava") [])
    = [] ++ before
         ++ EvWrite (UPLOAD_DIR ++ lit "/" ++ stored) (content Demo.png) None
         :: after /\
    Forall (idle default_config) before /\
    Forall (fun ev => ~ is_write ev) after.
Proof.
  apply (@analyze_chart_stores_upload Demo.builtins default_config
           (Demo.serving Demo.all_models (Demo.generated (lit "A chart."))
              (Demo.generated (lit "A summary."))
              (Failed (Exc ConnectError [])))
           Demo.png (lit "en") (lit "llava") [] _
           (chart_response Demo.builtins Demo.png (lit "en") (lit "llava")
              (lit "3f2b8c1e") (lit "chart_3f2b8c1e.png") (lit "A chart.")
              (lit "A summary.") (lit "2025-01-01T00:00:00"))).
  vm_compute. reflexivity.
Defined.

Lemma analyze_chart_marker_collision_witness :
  let E := Demo.serving Demo.all_models
             (Demo.generated (lit "Error: bars of the chart are missing."))
             (Demo.generated (lit "A summary."))
             (Failed (Exc ConnectError [])) in
  let rq := vision_request default_config
              (b64encode Demo.builtins (content Demo.png))
              (vision_prompt (chart_lang_instruction (lit "en")))
              (Some (vision_model (resolve_mode (lit "llava")))) in
  analyze_chart Demo.builtins default_config E Demo.png (lit "en")
    (lit "llava") []
  = (Raise (HTTPException 503 (lit "Error: bars of the chart are missing.")),
     snd (chart_setup Demo.builtins default_config E Demo.png (lit "llava") [])
     ++ [EvHttp rq (Demo.generated (lit "Error: bars of the chart are missing."))]).
Proof.
  apply (@analyze_chart_marker_collision Demo.builtins default_config
           (Demo.serving Demo.all_models
              (Demo.generated (lit "Error: bars of the chart are missing."))
              (Demo.generated (lit "A summary."))
              (Failed (Exc ConnectError [])))
           Demo.png (lit "en") (lit "llava") [] _
           (lit "3f2b8c1e", lit "chart_3f2b8c1e.png")
           {| status_code := 200; text := [];
              json := Ok (PDict [(lit "response",
                                  PStr (lit "Error: bars of the chart are missing."))]) |}
           [(lit "response", PStr (lit "Error: bars of the chart are missing."))]
           (lit "Error: bars of the chart are missing.")).
  - vm_compute. reflexivity.
  - vm_compute. reflexivity.
  - reflexivity.
  - reflexivity.
  - vm_compute. reflexivity.
  - eexists. vm_compute. reflexivity.
Defined.

Lemma analyze_chart_text_model_optional_witness :
  let E := Demo.serving [lit "llava:7b"] (Demo.generated (lit "A chart."))
             (Demo.generated (lit "A summary."))
             (Failed (Exc ConnectError [])) in
  let mode := resolve_mode (lit "llava") in
  let rq := vision_request default_config
              (b64encode Demo.builtins (content Demo.png))
              (vision_prompt (chart_lang_instruction (lit "en")))
              (Some (vision_model mode)) in
  let w1 := snd (ensure_model_pulled Demo.builtins default_config E
                   (vision_model mode) []) in
  let w2 := snd (ensure_model_pulled Demo.builtins default_config E
                   (text_model mode) w1) in
  exists ids w3 stored rest,
    chart_setup Demo.builtins default_config E Demo.png (lit "llava") []
    = (Ok ids, w3) /\
    w3 = w2 ++ EvLog WARNING (lit "Text model '" ++ text_model mode
                              ++ lit "' not available, will attempt anyway")
            :: stored /\
    snd (analyze_chart Demo.builtins default_config E Demo.png (lit "en")
           (lit "llava") [])
    = w3 ++ EvHttp rq (http E w3 rq) :: rest.
Proof.
  intros E mode rq w1 w2.
  apply (@analyze_chart_text_model_optional Demo.builtins default_config
           (Demo.serving [lit "llava:7b"] (Demo.generated (lit "A chart."))
              (Demo.generated (lit "A summary."))
              (Failed (Exc ConnectError [])))
           Demo.png (lit "en") (lit "llava") [] w1 w2).
  - reflexivity.
  - vm_compute. reflexivity.
  - vm_compute. reflexivity.
  - reflexivity.
Defined.

Lemma analyze_station_data_fetch_failure_witness :
  let E := Demo.serving Demo.all_models (Demo.generated (lit "A chart."))
             (Demo.generated (lit "An analysis."))
             (Failed (Exc TimeoutException [])) in
  let rq := station_request default_config (lit "CM01") [] [] in
  let w1 := snd (ensure_model_pulled Demo.builtins default_config E
                   (text_model (resolve_mode (lit "llava"))) []) in
  analyze_station_data Demo.builtins default_config E (lit "CM01") [] []
    (lit "en") (lit "llava") []
  = (Raise (HTTPException 504 (lit "LandMOS API request timed out.")),
     w1 ++ [EvHttp rq (Failed (Exc TimeoutException []))]).
Proof.
  refine (proj1 (proj2
    (@analyze_station_data_fetch_failure Demo.builtins default_config
       (Demo.serving Demo.all_models (Demo.generated (lit "A chart."))
          (Demo.generated (lit "An analysis."))
          (Failed (Exc TimeoutException [])))
       (lit "CM01") [] [] (lit "en") (lit "llava") [] _ _)) [] _).
  - vm_compute. reflexivity.
  - vm_compute. reflexivity.
Defined.

Lemma analyze_station_data_text_model_unavailable_witness :
  let E := Demo.serving [] (Demo.generated (lit "A chart."))
             (Demo.generated (lit "An analysis."))
             (Demo.answer 200 (PList Demo.records)) in
  let active_text_model := text_model (resolve_mode (lit "llava")) in
  let w1 := snd (ensure_model_pulled Demo.builtins default_config E
                   active_text_model []) in
  analyze_station_data Demo.builtins default_config E (lit "CM01") [] []
    (lit "en") (lit "llava") []
  = (Raise (HTTPException 503
              (lit "Text model '" ++ active_text_model
               ++ lit "' is not available. "
               ++ lit "Please check that Ollama is running.")), w1) /\
  exists evs,
    w1 = [] ++ evs /\
    Forall (fun ev => ~ is_station_call default_config ev
                      /\ ~ is_generate default_config ev) evs.
Proof.
  apply (@analyze_station_data_text_model_unavailable Demo.builtins
           default_config
           (Demo.serving [] (Demo.generated (lit "A chart."))
              (Demo.generated (lit "An analysis."))
              (Demo.answer 200 (PList Demo.records)))
           (lit "CM01") [] [] (lit "en") (lit "llava") []).
  vm_compute. reflexivity.
Defined.

Lemma analyze_station_data_summary_fallback_witness :
  let E := Demo.tiring Demo.all_models (Demo.generated (lit "An analysis."))
             (Demo.answer 200 (PList Demo.records)) in
  exists response w4,
    analyze_station_data Demo.builtins default_config E (lit "CM01") [] []
      (lit "en") (lit "llava") [] = (Ok response, w4) /\
    StationAnalysisResponse.description response = lit "An analysis." /\
    StationAnalysisResponse.summary response
    = fallback_summary (lit "An analysis.").
Proof.
  set (E := Demo.tiring Demo.all_models (Demo.generated (lit "An analysis."))
              (Demo.answer 200 (PList Demo.records))).
  set (setup := station_setup Demo.builtins default_config E (lit "CM01") []
                  [] (lit "llava") []).
  set (analysis := station_analysis Demo.builtins default_config E
                     (lit "CM01") (lit "en") (lit "llava") Demo.digest
                     (snd setup)).
  set (summary := station_summary Demo.builtins default_config E
                    (lit "CM01") (lit "en") (lit "llava")
                    (lit "An analysis.") (snd analysis)).
  apply (@analyze_station_data_summary_fallback Demo.builtins default_config
           E (lit "CM01") [] [] (lit "en") (lit "llava") [] (snd setup)
           (snd analysis) (snd summary) (PList Demo.records, Demo.digest)
           (lit "An analysis.") (lit "Error: status 500")).
  - vm_compute. reflexivity.
  - vm_compute. reflexivity.
  - reflexivity.
  - vm_compute. reflexivity.
  - reflexivity.
Defined.

Lemma analyze_station_data_payload_witness :
  let E := Demo.serving Demo.all_models (Demo.generated (lit "A chart."))
             (Demo.generated (lit "An analysis."))
             (Demo.answer 200 (PList Demo.records)) in
  let response :=
    station_response (lit "CM01") [] [] (lit "en") (lit "llava")
      (PList Demo.records) (lit "An analysis.") (lit "An analysis.")
      (lit "3f2b8c1e") (lit "2025-01-01T00:00:00") in
  let w' := snd (analyze_station_data Demo.builtins default_config E
                   (lit "CM01") [] [] (lit "en") (lit "llava") []) in
  let rq := station_request default_config (lit "CM01") [] [] in
  exists wa resp payload,
    http E wa rq = Response resp /\ status_code resp = 200 /\
    json resp = Ok payload /\
    In (EvHttp rq (Response resp)) w' /\
    ((exists records,
        payload = PList records /\
        StationAnalysisResponse.station_data response
        = PDict [(lit "records", payload)] /\
        StationDetails.data_points (StationAnalysisResponse.details response)
        = PInt (Z.of_nat (List.length records))) \/
     (exists d,
        payload = PDict d /\
        StationAnalysisResponse.station_data response = payload /\
        StationDetails.data_points (StationAnalysisResponse.details response)
        = PStr (lit "N/A"))).
Proof.
  apply (@analyze_station_data_payload Demo.builtins default_config
           (Demo.serving Demo.all_models (Demo.generated (lit "A chart."))
              (Demo.generated (lit "An analysis."))
              (Demo.answer 200 (PList Demo.records)))
           (lit "CM01") [] [] (lit "en") (lit "llava") []).
  vm_compute. reflexivity.
Defined.

Lemma summarize_returns_witness :
  exists out,
    _summarize_station_data Demo.builtins (PList Demo.records) (lit "CM01")
    = Ok out.
Proof.
  apply (@summarize_returns Demo.builtins Demo.records (lit "CM01")).
  - repeat constructor; eexists; reflexivity.
  - intros key Hkey. repeat constructor;
      intros [z [Hfield Hz]];
      repeat (destruct Hkey as [<- | Hkey];
              [vm_compute in Hfield;
               first [discriminate Hfield
                     | injection Hfield as <-; vm_compute in Hz; discriminate Hz]
              |]);
      destruct Hkey.
Defined.

Lemma summarize_overflow_raises_witness :
  exists msg,
    _summarize_station_data Demo.builtins (PList Demo.huge) (lit "CM01")
    = Raise (Exc OverflowError msg).
Proof.
  apply (@summarize_overflow_raises Demo.builtins Demo.huge (lit "CM01")
           (lit "de")
           (PDict [ (lit "timestamp", PStr (lit "2024-01-01"));
                    (lit "de", PInt (2 ^ 1024)) ])).
  - repeat constructor. eexists. reflexivity.
  - left. reflexivity.
  - left. reflexivity.
  - exists (2 ^ 1024)%Z. split; vm_compute; reflexivity.
Defined.

Lemma summarize_line_bound_witness :
  let records := Demo.reading 1 :: Demo.week_rest in
  exists lines lat lng,
    summary_lines Demo.builtins records (lit "CM01") = Ok lines /\
    Demo.digest_of records = join nl lines /\
    get Demo.builtins (Demo.reading 1) (lit "lat") PNone = Ok lat /\
    get Demo.builtins (Demo.reading 1) (lit "lng") PNone = Ok lng /\
    List.length lines
    = (6 + (if truthy lat && truthy lng then 1 else 0)
       + valid_count Demo.builtins records DISPLACEMENT_KEYS
       + valid_count Demo.builtins records QUALITY_KEYS
       + Nat.min 3 (List.length records)
       + (if (6 <? List.length records)%nat then 4 else 0))%nat /\
    (7 <= List.length lines <= 22)%nat.
Proof.
  apply (@summarize_line_bound Demo.builtins (Demo.reading 1) Demo.week_rest
           (lit "CM01")
           (Demo.digest_of (Demo.reading 1 :: Demo.week_rest))).
  vm_compute. reflexivity.
Defined.

Lemma summarize_location_witness :
  exists lines lat lng,
    summary_lines Demo.builtins [Demo.equator] (lit "CM01") = Ok lines /\
    Demo.digest_of [Demo.equator] = join nl lines /\
    get Demo.builtins Demo.equator (lit "lat") PNone = Ok lat /\
    get Demo.builtins Demo.equator (lit "lng") PNone = Ok lng /\
    (truthy lat && truthy lng = true ->
     nth_error lines 3 = Some (location_line Demo.builtins lat lng) /\
     nth_error lines 4 = Some DISPLACEMENT_HEADING) /\
    (truthy lat && truthy lng = false ->
     nth_error lines 3 = Some DISPLACEMENT_HEADING).
Proof.
  apply (@summarize_location Demo.builtins Demo.equator [] (lit "CM01")
           (Demo.digest_of [Demo.equator])).
  vm_compute. reflexivity.
Defined.

Lemma summarize_samples_witness :
  exists body firsts lasts,
    Demo.digest = join nl (body ++ [FIRST_HEADING] ++ firsts ++ lasts) /\
    Forall2 (is_sample_of Demo.builtins) (firstn 3 Demo.records) firsts /\
    (if (6 <? List.length Demo.records)%nat
     then exists rows, lasts = LAST_HEADING :: rows /\
                       Forall2 (is_sample_of Demo.builtins)
                         (last3 Demo.records) rows
     else lasts = []).
Proof.
  apply (@summarize_samples Demo.builtins Demo.records (lit "CM01")
           Demo.digest).
  - discriminate.
  - vm_compute. reflexivity.
Defined.

Lemma summarize_wrapper_witness :
  _summarize_station_data Demo.builtins
    (PDict [ (lit "records", PList []); (lit "data", PList Demo.records) ])
    (lit "CM01")
  = _summarize_station_data Demo.builtins (PList Demo.records) (lit "CM01").
Proof.
  apply (@summarize_wrapper Demo.builtins
           [ (lit "records", PList []); (lit "data", PList Demo.records) ]
           Demo.records (lit "CM01")).
  right. split.
  - right. eexists. split; reflexivity.
  - reflexivity.
Defined.

Lemma analyze_chart_success_witness :
  let E := Demo.serving Demo.all_models (Demo.generated (lit "A chart."))
             (Demo.generated (lit "A summary."))
             (Failed (Exc ConnectError [])) in
  let vision := vision_request default_config
                  (b64encode Demo.builtins (content Demo.png))
                  (vision_prompt (chart_lang_instruction (lit "en")))
                  (Some (lit "llava:7b")) in
  let text := text_request default_config
                (chart_summary_prompt (chart_summary_lang_instruction (lit "en"))
                   (lit "A chart."))
                (Some (lit "llama3.2:3b")) 2048 in
  let w1 := snd (chart_setup Demo.builtins default_config E Demo.png
                   (lit "llava") []) in
  analyze_chart Demo.builtins default_config E Demo.png (lit "en")
    (lit "llava") []
  = (Ok (chart_response Demo.builtins Demo.png (lit "en") (lit "llava")
           (lit "3f2b8c1e") (lit "chart_3f2b8c1e.png") (lit "A chart.")
           (lit "A summary.") (lit "2025-01-01T00:00:00")),
     ((w1 ++ [EvHttp vision (Demo.generated (lit "A chart."))])
      ++ [EvHttp text (Demo.generated (lit "A summary."))])
     ++ [EvNow (lit "2025-01-01T00:00:00")]).
Proof.
  intros E vision text w1.
  apply (@analyze_chart_success Demo.builtins default_config E Demo.png
           (lit "en") (lit "llava") [] w1
           (lit "3f2b8c1e", lit "chart_3f2b8c1e.png")
           {| status_code := 200; text := [];
              json := Ok (PDict [(lit "response", PStr (lit "A chart."))]) |}
           {| status_code := 200; text := [];
              json := Ok (PDict [(lit "response", PStr (lit "A summary."))]) |}
           [(lit "response", PStr (lit "A chart."))]
           [(lit "response", PStr (lit "A summary."))]
           (lit "A chart.") (lit "A summary.")).
  - vm_compute. reflexivity.
  - vm_compute. reflexivity.
  - reflexivity.
  - reflexivity.
  - reflexivity.
  - reflexivity.
  - vm_compute. reflexivity.
  - reflexivity.
  - reflexivity.
  - reflexivity.
  - reflexivity.
Defined.

Lemma analyze_station_data_success_witness :
  let E := Demo.serving Demo.all_models (Demo.generated (lit "A chart."))
             (Demo.generated (lit "An analysis."))
             (Demo.answer 200 (PList Demo.records)) in
  let analysis := text_request default_config
                    (analysis_prompt (lit "CM01")
                       (station_lang_instruction (lit "en")) Demo.digest)
                    (Some (lit "llama3.2:3b")) 4096 in
  let summary := text_request default_config
                   (station_summary_prompt (lit "CM01")
                      (station_summary_lang (lit "en")) (lit "An analysis."))
                   (Some (lit "llama3.2:3b")) 4096 in
  let w1 := snd (station_setup Demo.builtins default_config E (lit "CM01")
                   [] [] (lit "llava") []) in
  analyze_station_data Demo.builtins default_config E (lit "CM01") [] []
    (lit "en") (lit "llava") []
  = (Ok (station_response (lit "CM01") [] [] (lit "en") (lit "llava")
           (PList Demo.records) (lit "An analysis.") (lit "An analysis.")
           (lit "3f2b8c1e") (lit "2025-01-01T00:00:00")),
     (((w1 ++ [EvHttp analysis (Demo.generated (lit "An analysis."))])
       ++ [EvHttp summary (Demo.generated (lit "An analysis."))])
      ++ [EvUuid (lit "3f2b8c1e-7a4d-4e9b-9c0a-5d6e7f8091a2")])
     ++ [EvNow (lit "2025-01-01T00:00:00")]).
Proof.
  intros E analysis summary w1.
  rewrite (@analyze_station_data_success Demo.builtins default_config E
           (lit "CM01") [] [] (lit "en") (lit "llava") [] w1
           (PList Demo.records, Demo.digest)
           {| status_code := 200; text := [];
              json := Ok (PDict [(lit "response", PStr (lit "An analysis."))]) |}
           {| status_code := 200; text := [];
              json := Ok (PDict [(lit "response", PStr (lit "An analysis."))]) |}
           [(lit "response", PStr (lit "An analysis."))]
           [(lit "response", PStr (lit "An analysis."))]
           (lit "An analysis.") (lit "An analysis.")).
  - vm_compute. reflexivity.
  - vm_compute. reflexivity.
  - vm_compute. reflexivity.
  - reflexivity.
  - reflexivity.
  - reflexivity.
  - reflexivity.
  - vm_compute. reflexivity.
  - reflexivity.
  - reflexivity.
  - reflexivity.
  - reflexivity.
Defined.
